(** * Procedural asset synthesizer and backend router

    A shallow embedding of [mvp/gamedev_ai_mvp.py] (class [AIAssetGenerator]:
    prompt analysis, the four drawing routines, the dispatcher and the colour
    palette summary) and of the routing policy of [mvp/ai_integration.py]
    (class [RealAIAssetGenerator]).

    Python values are modelled as follows.
    - [int] is [Z]; [//] is [Z.div] (both floor).
    - [float] is IEEE 754 binary64, given by [SpecFloat] at precision 53.
    - [str] is [string]; a character is a code point below 256.
    - a list is a [list]; a tuple of three channels is a triple.
    - an exception is a value of [exn]; code that may raise returns [result].
    - the process-global [random] module is a state threaded through the
      drawing routines.
    - a PIL image is its size, its initial colour and the primitives painted
      on it so far, in order; [getpixel] recovers the pixel buffer. *)

From Stdlib Require Import ZArith List String Ascii Bool Lia Permutation Sorted.
From Stdlib Require Import Floats.SpecFloat.
Import ListNotations.
Local Open Scope string_scope.
Local Open Scope list_scope.
Local Open Scope Z_scope.

(** ** Exceptions *)

Inductive exn : Type :=
| IndexError
| ValueError
| ZeroDivisionError
| OverflowError
| MemoryError.

Inductive result (A : Type) : Type :=
| Ok (a : A)
| Raise (e : exn).
Arguments Ok {A} a.
Arguments Raise {A} e.

Definition rbind {A B} (r : result A) (k : A -> result B) : result B :=
  match r with
  | Ok a => k a
  | Raise e => Raise e
  end.

(** ** Strings *)

Module Str.

(** [str.lower()] on code points below 256: the ASCII capitals and the
    Latin-1 capitals (192..222 except the multiplication sign 215) move up
    by 32, every other code point is unchanged. *)
Definition lower_char (c : ascii) : ascii :=
  let n := nat_of_ascii c in
  if ((65 <=? n) && (n <=? 90))%nat then ascii_of_nat (n + 32)
  else if ((192 <=? n) && (n <=? 222) && negb (n =? 215))%nat
       then ascii_of_nat (n + 32)
  else c.

Fixpoint lower (s : string) : string :=
  match s with
  | EmptyString => EmptyString
  | String c s' => String (lower_char c) (lower s')
  end.

(** [needle in hay] for two [str] values. *)
Fixpoint contains (needle hay : string) : bool :=
  prefix needle hay ||
  match hay with
  | EmptyString => false
  | String _ hay' => contains needle hay'
  end.

(** [needle] occurs in [text] when the case of letters is ignored: some
    substring of [text] lowers to [needle]. *)
Definition occurs_ci (needle text : string) : Prop :=
  exists pre mid post,
    text = (pre ++ mid ++ post)%string /\ lower mid = needle.

End Str.

(** ** Floating point

    Python's [float] is binary64.  The operations below are the ones the
    synthesizer uses; each rounds to nearest, ties to even. *)

Module PyFloat.

Definition prec : Z := 53.
Definition emax : Z := 1024.

Definition float : Type := spec_float.

Definition fadd : float -> float -> float := SFadd prec emax.
Definition fsub : float -> float -> float := SFsub prec emax.
Definition fmul : float -> float -> float := SFmul prec emax.

(** [float(n)] for an [int], as done implicitly when an [int] meets a
    [float] in arithmetic: too large an [int] is an [OverflowError]. *)
Definition float_of_Z (n : Z) : result float :=
  match binary_normalize prec emax n 0 false with
  | S754_infinity _ => Raise OverflowError
  | f => Ok f
  end.

(** [a / b] for two [int]s: the exact quotient rounded once. *)
Definition truediv (a b : Z) : result float :=
  if b =? 0 then Raise ZeroDivisionError
  else if a =? 0 then Ok (S754_zero (b <? 0))
  else
    let '(q, e, l) := SFdiv_core_binary prec emax (Z.abs a) 0 (Z.abs b) 0 in
    match binary_round_aux prec emax (xorb (a <? 0) (b <? 0)) q e l with
    | S754_infinity _ => Raise OverflowError
    | f => Ok f
    end.

(** [int(x)]: truncation toward zero. *)
Definition int_of_float (x : float) : result Z :=
  match x with
  | S754_zero _ => Ok 0
  | S754_finite s m e => Ok (cond_Zopp s (Z.shiftl (Zpos m) e))
  | S754_infinity _ => Raise OverflowError
  | S754_nan => Raise ValueError
  end.

(** A decimal literal [n/d] (such as [1.2] = 12/10), correctly rounded. *)
Definition literal (n d : Z) : float :=
  SFdiv prec emax (binary_normalize prec emax n 0 false)
                  (binary_normalize prec emax d 0 false).

(** [n * x] and [n - x] with [n] an [int] and [x] a [float]. *)
Definition int_mul (n : Z) (x : float) : result float :=
  rbind (float_of_Z n) (fun fn => Ok (fmul fn x)).

Definition int_sub (n : Z) (x : float) : result float :=
  rbind (float_of_Z n) (fun fn => Ok (fsub fn x)).

End PyFloat.

(** ** The [random] module

    The generator is process-global state.  Its future output is a tape of
    raw draws; [random.choice(seq)] consumes one draw and returns the
    element at that draw reduced below [len(seq)], or raises [IndexError]
    on an empty sequence. *)

Record RandomState : Type := mkRandom { tape : nat -> nat; cursor : nat }.

Definition M (A : Type) : Type := RandomState -> result (A * RandomState).

Definition ret {A} (a : A) : M A := fun st => Ok (a, st).

Definition bind {A B} (m : M A) (k : A -> M B) : M B :=
  fun st =>
    match m st with
    | Ok (a, st') => k a st'
    | Raise e => Raise e
    end.

Definition lift {A} (r : result A) : M A :=
  fun st =>
    match r with
    | Ok a => Ok (a, st)
    | Raise e => Raise e
    end.

Declare Scope py_scope.
Delimit Scope py_scope with py.
Notation "x <- m ;; k" := (bind m (fun x => k))
  (at level 61, m at next level, right associativity) : py_scope.
Local Open Scope py_scope.

Definition randbelow (n : nat) (st : RandomState) : nat :=
  (tape st (cursor st) mod n)%nat.

Definition advance (k : nat) (st : RandomState) : RandomState :=
  mkRandom (tape st) (cursor st + k)%nat.

Definition random_choice {A} (seq : list A) : M A :=
  fun st =>
    match nth_error seq (randbelow (List.length seq) st) with
    | Some a => Ok (a, advance 1 st)
    | None => Raise IndexError
    end.

(** A [for] loop over [xs] that updates [s]. *)
Fixpoint for_each {A S} (xs : list A) (s : S) (body : S -> A -> M S) : M S :=
  match xs with
  | [] => ret s
  | x :: xs' => s' <- body s x ;; for_each xs' s' body
  end.

(** [range(start, stop, step)] for a positive [step]. *)
Definition py_range (start stop step : Z) : list Z :=
  map (fun k => start + step * Z.of_nat k)
      (seq 0 (Z.to_nat ((stop - start + step - 1) / step))).

(** ** PIL: images and [ImageDraw]

    An image of mode RGBA is its size, the colour it was created with and
    the primitives painted on it since, oldest first.  [ImageDraw.Draw(im)]
    paints on [im] itself, so the draw handle and the image are one value.

    A box is [[x0, y0, x1, y1]], both corners included.  [rectangle] and
    [ellipse] raise [ValueError] when [x1 < x0] or [y1 < y0], as Pillow does
    since release 9.5.  A fill given
    as three channels is stored with each channel clipped to 0..255 and
    alpha 255; painting replaces the pixel. *)

Module PIL.

Definition Color : Type := Z * Z * Z.
Definition Pixel : Type := Z * Z * Z * Z.
Definition Box : Type := Z * Z * Z * Z.

Inductive draw_call : Type :=
| Rectangle (xy : Box) (fill : Color)
| Ellipse (xy : Box) (fill : Color) (outline : option Color)
| Line (x0 y0 x1 y1 : Z) (fill : Color).

Record Image : Type := mkImage {
  im_width : Z;
  im_height : Z;
  im_initial : Pixel;
  im_painted : list draw_call
}.

(** The memory of the machine: [fits width height] tells whether Pillow
    can allocate the lines of an RGBA image of that size.  Nothing is
    assumed of it: a statement that needs the image carries
    [fits width height = true] as a hypothesis. *)
Class Memory : Type := {
  fits : Z -> Z -> bool
}.

(** [Image.new('RGBA', (width, height), color)].  [_check_size] raises
    [ValueError] for a negative side; the C constructor reads each side as
    a C [int], so a side of [2 ** 31] or more is an [OverflowError]; an
    image that cannot be allocated is a [MemoryError]. *)
Definition Image_new {Mem : Memory} (width height : Z) (color : Pixel)
  : result Image :=
  if (width <? 0) || (height <? 0) then Raise ValueError
  else if (2 ^ 31 <=? width) || (2 ^ 31 <=? height) then Raise OverflowError
  else if fits width height then Ok (mkImage width height color [])
  else Raise MemoryError.

Definition clip8 (c : Z) : Z := Z.max 0 (Z.min 255 c).

Definition ink (c : Color) : Pixel :=
  let '(r, g, b) := c in (clip8 r, clip8 g, clip8 b, 255).

Definition valid_box (xy : Box) : bool :=
  let '(x0, y0, x1, y1) := xy in (x0 <=? x1) && (y0 <=? y1).

Definition record (draw : Image) (c : draw_call) : Image :=
  mkImage (im_width draw) (im_height draw) (im_initial draw)
          (im_painted draw ++ [c]).

(** [draw.rectangle(xy, fill=fill)] *)
Definition draw_rectangle (draw : Image) (xy : Box) (fill : Color)
  : result Image :=
  if valid_box xy then Ok (record draw (Rectangle xy fill))
  else Raise ValueError.

(** [draw.ellipse(xy, fill=fill, outline=outline)] *)
Definition draw_ellipse (draw : Image) (xy : Box) (fill : Color)
           (outline : option Color) : result Image :=
  if valid_box xy then Ok (record draw (Ellipse xy fill outline))
  else Raise ValueError.

(** [draw.line([(x0, y0), (x1, y1)], fill=fill)] *)
Definition draw_line (draw : Image) (x0 y0 x1 y1 : Z) (fill : Color)
  : result Image :=
  Ok (record draw (Line x0 y0 x1 y1 fill)).

(** Which pixels an ellipse or a slanted line covers is the rasterizer's
    business and differs between PIL versions; it is left open. *)
Class Rasterizer : Type := {
  ellipse_interior : Box -> Z -> Z -> bool;
  ellipse_border : Box -> Z -> Z -> bool;
  slanted_line : Z -> Z -> Z -> Z -> Z -> Z -> bool
}.

Definition pixel_eqb (p q : Pixel) : bool :=
  let '(r1, g1, b1, a1) := p in
  let '(r2, g2, b2, a2) := q in
  (r1 =? r2) && (g1 =? g2) && (b1 =? b2) && (a1 =? a2).

Definition in_rectangle (xy : Box) (x y : Z) : bool :=
  let '(x0, y0, x1, y1) := xy in
  (x0 <=? x) && (x <=? x1) && (y0 <=? y) && (y <=? y1).

Definition on_line (x0 y0 x1 y1 x y : Z) {R : Rasterizer} : bool :=
  if y0 =? y1
  then (y =? y0) && (Z.min x0 x1 <=? x) && (x <=? Z.max x0 x1)
  else if x0 =? x1
  then (x =? x0) && (Z.min y0 y1 <=? y) && (y <=? Z.max y0 y1)
  else slanted_line x0 y0 x1 y1 x y.

Section Pixels.
Context {R : Rasterizer}.

(** The value of pixel [(x, y)] after one more primitive. *)
Definition paint (px : Pixel) (c : draw_call) (x y : Z) : Pixel :=
  match c with
  | Rectangle xy fill => if in_rectangle xy x y then ink fill else px
  | Ellipse xy fill outline =>
      let filled := if ellipse_interior xy x y then ink fill else px in
      match outline with
      | Some o =>
          if negb (pixel_eqb (ink o) (ink fill)) && ellipse_border xy x y
          then ink o else filled
      | None => filled
      end
  | Line x0 y0 x1 y1 fill =>
      if on_line x0 y0 x1 y1 x y then ink fill else px
  end.

(** The buffer's content at [(x, y)]: the primitives replayed in order. *)
Definition pixel_at (im : Image) (x y : Z) : Pixel :=
  fold_left (fun px c => paint px c x y) (im_painted im) (im_initial im).

(** [im.getpixel((x, y))] *)
Definition getpixel (im : Image) (x y : Z) : result Pixel :=
  if (0 <=? x) && (x <? im_width im) && (0 <=? y) && (y <? im_height im)
  then Ok (pixel_at im x y)
  else Raise IndexError.

(** All pixels, row by row. *)
Definition pixels (im : Image) : list Pixel :=
  flat_map (fun y => map (fun x => pixel_at im x y)
                         (py_range 0 (im_width im) 1))
           (py_range 0 (im_height im) 1).

Fixpoint tally (p : Pixel) (h : list (Z * Pixel)) : list (Z * Pixel) :=
  match h with
  | [] => [(1, p)]
  | (n, q) :: h' =>
      if pixel_eqb p q then (n + 1, q) :: h' else (n, q) :: tally p h'
  end.

(** [im.getcolors(maxcolors)]: one [(count, pixel)] entry per distinct
    pixel value, or [None] when there are more than [maxcolors] of
    them.  PIL lists the entries in the order of its internal table;
    here they are listed by first occurrence. *)
Definition getcolors (im : Image) (maxcolors : Z)
  : option (list (Z * Pixel)) :=
  let h := fold_left (fun h p => tally p h) (pixels im) [] in
  if Z.of_nat (List.length h) >? maxcolors then None else Some h.
End Pixels.

End PIL.

(** ** [class AIAssetGenerator] *)

Module AIAssetGenerator.
Import PIL PyFloat.

Record StyleConfig : Type := mkStyle { saturation : float; contrast : float }.

(** [self.style_presets] *)
Definition style_presets : list (string * StyleConfig) :=
  [ ("realistic", mkStyle (literal 10 10) (literal 12 10));
    ("cartoon", mkStyle (literal 15 10) (literal 8 10));
    ("pixel", mkStyle (literal 13 10) (literal 10 10));
    ("minimalist", mkStyle (literal 7 10) (literal 11 10)) ].

(** [d.get(key, default)] on a dict kept in insertion order. *)
Fixpoint dict_get {V} (d : list (string * V)) (key : string) (default : V) : V :=
  match d with
  | [] => default
  | (k, v) :: d' => if String.eqb k key then v else dict_get d' key default
  end.

(** [self.style_presets["realistic"]] *)
Definition realistic : StyleConfig :=
  dict_get style_presets "realistic" (mkStyle (literal 10 10) (literal 12 10)).

(** [seq[i]] *)
Definition index {A} (seq : list A) (i : nat) : result A :=
  match nth_error seq i with
  | Some a => Ok a
  | None => Raise IndexError
  end.

Definition color_keywords : list (string * Color) :=
  [ ("red", (255, 0, 0)); ("blue", (0, 0, 255)); ("green", (0, 255, 0));
    ("yellow", (255, 255, 0)); ("purple", (128, 0, 128));
    ("orange", (255, 165, 0)); ("brown", (139, 69, 19)); ("black", (0, 0, 0));
    ("white", (255, 255, 255)); ("gray", (128, 128, 128));
    ("pink", (255, 192, 203)) ].

Definition default_colors : list Color :=
  [ (100, 150, 200); (200, 100, 150); (150, 200, 100) ].

Definition _analyze_prompt_colors (prompt : string) : list Color :=
  let prompt_lower := Str.lower prompt in
  let found_colors :=
    fold_left
      (fun found (entry : string * Color) =>
         let '(color_name, rgb) := entry in
         if Str.contains color_name prompt_lower then found ++ [rgb]
         else found)
      color_keywords [] in
  match found_colors with
  | [] => default_colors
  | _ => found_colors
  end.

Definition shape_keywords : list string :=
  [ "circle"; "square"; "triangle"; "rectangle"; "star"; "diamond";
    "hexagon" ].

Definition _analyze_prompt_shapes (prompt : string) : list string :=
  let found_shapes :=
    filter (fun shape => Str.contains shape (Str.lower prompt))
           shape_keywords in
  match found_shapes with
  | [] => [ "rectangle" ]
  | _ => found_shapes
  end.

(** [int(c * k)] *)
Definition scale_channel (k : float) (c : Z) : result Z :=
  rbind (int_mul c k) int_of_float.

(** [tuple(int(c * k) for c in color)] *)
Definition scale_color (k : float) (color : Color) : result Color :=
  let '(r, g, b) := color in
  rbind (scale_channel k r) (fun r' =>
  rbind (scale_channel k g) (fun g' =>
  rbind (scale_channel k b) (fun b' => Ok (r', g', b')))).

Definition _generate_texture (draw : Image) (width height : Z)
           (colors : list Color) (style_config : StyleConfig) : M Image :=
  for_each (py_range 0 width 20) draw (fun draw i =>
    for_each (py_range 0 height 20) draw (fun draw j =>
      color <- random_choice colors ;;
      modified_color <- lift (scale_color (contrast style_config) color) ;;
      lift (draw_rectangle draw (i, j, i + 15, j + 15) modified_color))).

Definition _generate_sprite (draw : Image) (width height : Z)
           (colors : list Color) (shapes : list string)
           (style_config : StyleConfig) : M Image :=
  let center_x := width / 2 in
  let center_y := height / 2 in
  let size := Z.min width height / 3 in
  st <- for_each (firstn 3 shapes) (draw, size)
          (fun (st : Image * Z) shape =>
             let '(draw, size) := st in
             color <- random_choice colors ;;
             let xy := (center_x - size, center_y - size,
                        center_x + size, center_y + size) in
             draw' <- (if String.eqb shape "circle"
                       then lift (draw_ellipse draw xy color None)
                       else if String.eqb shape "rectangle"
                       then lift (draw_rectangle draw xy color)
                       else ret draw) ;;
             ret (draw', size - 10)) ;;
  ret (fst st).

Definition _generate_icon (draw : Image) (width height : Z)
           (colors : list Color) (style_config : StyleConfig) : M Image :=
  let center_x := width / 2 in
  let center_y := height / 2 in
  let size := Z.min width height / 3 in
  fill <- lift (index colors 0) ;;
  outline <- lift (if (1 <? List.length colors)%nat then index colors 1
                   else index colors 0) ;;
  draw <- lift (draw_ellipse draw
                  (center_x - size, center_y - size,
                   center_x + size, center_y + size)
                  fill (Some outline)) ;;
  let inner_size := size / 2 in
  inner <- lift (if (1 <? List.length colors)%nat then index colors 1
                 else Ok (255, 255, 255)) ;;
  lift (draw_rectangle draw
          (center_x - inner_size, center_y - inner_size,
           center_x + inner_size, center_y + inner_size)
          inner).

(** [int(c1 * (1 - ratio) + c2 * ratio)] *)
Definition blend (c1 c2 : Z) (ratio : float) : result Z :=
  rbind (int_sub 1 ratio) (fun rest =>
  rbind (int_mul c1 rest) (fun a =>
  rbind (int_mul c2 ratio) (fun b =>
  int_of_float (fadd a b)))).

Definition _generate_background (draw : Image) (width height : Z)
           (colors : list Color) (style_config : StyleConfig) : M Image :=
  for_each (py_range 0 height 1) draw (fun draw y =>
    ratio <- lift (truediv y height) ;;
    color1 <- lift (index colors 0) ;;
    color2 <- lift (if (1 <? List.length colors)%nat then index colors 1
                    else index colors 0) ;;
    let '(r1, g1, b1) := color1 in
    let '(r2, g2, b2) := color2 in
    r <- lift (blend r1 r2 ratio) ;;
    g <- lift (blend g1 g2 ratio) ;;
    b <- lift (blend b1 b2 ratio) ;;
    lift (draw_line draw 0 y width y (r, g, b))).

Definition _create_procedural_asset {Mem : Memory}
           (prompt asset_type style : string)
           (width height : Z) : M Image :=
  image <- lift (Image_new width height (255, 255, 255, 0)) ;;
  let draw := image in
  let colors := _analyze_prompt_colors prompt in
  let shapes := _analyze_prompt_shapes prompt in
  let style_config := dict_get style_presets style realistic in
  if String.eqb asset_type "texture"
  then _generate_texture draw width height colors style_config
  else if String.eqb asset_type "sprite"
  then _generate_sprite draw width height colors shapes style_config
  else if String.eqb asset_type "icon"
  then _generate_icon draw width height colors style_config
  else if String.eqb asset_type "background"
  then _generate_background draw width height colors style_config
  else ret image.

(** [sorted(colors, key=lambda x: x[0], reverse=True)]: a stable sort by
    decreasing count. *)
Fixpoint insert_desc (x : Z * Pixel) (l : list (Z * Pixel))
  : list (Z * Pixel) :=
  match l with
  | [] => [x]
  | y :: l' => if fst y <=? fst x then x :: l else y :: insert_desc x l'
  end.

Definition sorted_reverse (colors : list (Z * Pixel)) : list (Z * Pixel) :=
  fold_right insert_desc [] colors.

Definition hex_digit (d : Z) : ascii :=
  nth (Z.to_nat d)
      (list_ascii_of_string "0123456789abcdef") "0"%char.

Fixpoint hex_digits (fuel : nat) (n : Z) (acc : string) : string :=
  match fuel with
  | O => acc
  | S fuel' =>
      let acc' := String (hex_digit (n mod 16)) acc in
      if n / 16 =? 0 then acc' else hex_digits fuel' (n / 16) acc'
  end.

(** [f"{n:02x}"] *)
Definition format_02x (n : Z) : string :=
  if n <? 0
  then ("-" ++ hex_digits (S (Z.to_nat (Z.log2 (- n)))) (- n) "")%string
  else
    let s := hex_digits (S (Z.to_nat (Z.log2 n))) n "" in
    if (String.length s <? 2)%nat then ("0" ++ s)%string else s.

(** [f"#{r:02x}{g:02x}{b:02x}"] *)
Definition hex_color (entry : Z * Pixel) : string :=
  let '(_, (r, g, b, _)) := entry in
  ("#" ++ format_02x r ++ format_02x g ++ format_02x b)%string.

Definition alpha (entry : Z * Pixel) : Z :=
  let '(_, (_, _, _, a)) := entry in a.

(** The body of [_extract_color_palette] after the call of [getcolors]. *)
Definition palette_of (colors : option (list (Z * Pixel))) : list string :=
  match colors with
  | Some ((_ :: _) as colors) =>
      let top_colors := firstn 5 (sorted_reverse colors) in
      map hex_color (filter (fun entry => 0 <? alpha entry) top_colors)
  | _ => [ "#000000" ]
  end.

Definition _extract_color_palette {R : Rasterizer} (image : Image)
  : list string :=
  palette_of (getcolors image (256 * 256 * 256)).

End AIAssetGenerator.

(** ** [class RealAIAssetGenerator]: the choice of a backend *)

Module RealAIAssetGenerator.

Record AIGenerationRequest : Type := mkRequest {
  prompt : string;
  style : string;
  dimensions : string;
  model_preference : string;
  quality : string
}.

(** [self]: the two keys read from the environment, [None] when unset. *)
Record generator : Type := mkGenerator {
  openai_api_key : option string;
  stability_api_key : option string
}.

(** Truth value of a key: [None] and the empty string are false. *)
Definition configured (key : option string) : bool :=
  match key with
  | Some (String _ _) => true
  | _ => false
  end.

(** The call [generate_asset] hands the request to. *)
Inductive backend_call : Type :=
| generate_with_dalle (request : AIGenerationRequest)
| generate_with_stable_diffusion (request : AIGenerationRequest)
| procedural_fallback (prompt asset_type style dimensions : string).

Definition generate_asset (self : generator) (request : AIGenerationRequest)
  : backend_call :=
  if String.eqb (model_preference request) "dalle"
     && configured (openai_api_key self)
  then generate_with_dalle request
  else if String.eqb (model_preference request) "stable_diffusion"
          && configured (stability_api_key self)
  then generate_with_stable_diffusion request
  else if configured (openai_api_key self)
  then generate_with_dalle request
  else if configured (stability_api_key self)
  then generate_with_stable_diffusion request
  else procedural_fallback (prompt request) "texture" (style request)
                           (dimensions request).

End RealAIAssetGenerator.

(** ** Vocabulary of the statements *)

(** [select_by P table sel]: [sel] lists, in the order of [table] and once
    per entry, the values of the entries whose key satisfies [P]. *)
Inductive select_by {V : Type} (P : string -> Prop)
  : list (string * V) -> list V -> Prop :=
| select_nil : select_by P [] []
| select_keep k v table sel :
    P k -> select_by P table sel -> select_by P ((k, v) :: table) (v :: sel)
| select_skip k v table sel :
    ~ P k -> select_by P table sel -> select_by P ((k, v) :: table) sel.

(** A rasterizer to run examples with: the lattice points of the ellipse
    inscribed in the box, those of them with a 4-neighbour outside as the
    border, and the lattice points of a segment. *)
Definition inside_ellipse (xy : PIL.Box) (x y : Z) : bool :=
  let '(x0, y0, x1, y1) := xy in
  let a := x1 - x0 in
  let b := y1 - y0 in
  let dx := 2 * x - x0 - x1 in
  let dy := 2 * y - y0 - y1 in
  dx * dx * (b * b) + dy * dy * (a * a) <=? a * a * (b * b).

#[local] Instance lattice : PIL.Rasterizer := {|
  PIL.ellipse_interior := inside_ellipse;
  PIL.ellipse_border := fun xy x y =>
    inside_ellipse xy x y &&
    negb (inside_ellipse xy (x - 1) y && inside_ellipse xy (x + 1) y &&
          inside_ellipse xy x (y - 1) && inside_ellipse xy x (y + 1));
  PIL.slanted_line := fun x0 y0 x1 y1 x y =>
    ((x - x0) * (y1 - y0) =? (y - y0) * (x1 - x0)) &&
    (Z.min x0 x1 <=? x) && (x <=? Z.max x0 x1)
|}.

(** A machine to run examples with: every image whose sides are C [int]s
    can be allocated.  The runs on given inputs below are runs on it. *)
Definition roomy : PIL.Memory := {| PIL.fits := fun _ _ => true |}.

(** A random source whose raw draws are 0, 1, 2, ... *)
Definition counting : RandomState := mkRandom (fun n => n) 0.

(** A random source that always draws [k]. *)
Definition constant (k : nat) : RandomState := mkRandom (fun _ => k) 0.

(** The canvas [_create_procedural_asset] starts from. *)
Definition blank (width height : Z) : PIL.Image :=
  PIL.mkImage width height (255, 255, 255, 0) [].

(** The outline colours of the ellipses and the fill colours of the
    rectangles painted on an image, oldest first. *)
Definition ellipse_outlines (im : PIL.Image) : list (option PIL.Color) :=
  flat_map (fun c => match c with
                     | PIL.Ellipse _ _ outline => [outline]
                     | _ => []
                     end)
           (PIL.im_painted im).

Definition rectangle_fills (im : PIL.Image) : list PIL.Color :=
  flat_map (fun c => match c with
                     | PIL.Rectangle _ fill => [fill]
                     | _ => []
                     end)
           (PIL.im_painted im).

(** A computation is deterministic when its outcome does not depend on the
    random source and it leaves the source as it found it. *)
Definition deterministic {A : Type} (m : M A) : Prop :=
  exists r : result A, forall st, m st = lift r st.

(** The element of [seq] that [random.choice] returns at the [k]-th draw
    after state [st]. *)
Definition picked {A : Type} (seq : list A) (st : RandomState) (k : nat)
  : option A :=
  nth_error seq (tape st (cursor st + k) mod List.length seq)%nat.

(** The sprite routine, shape by shape: the [k]-th shape has half-extent
    [min(width, height) // 3 - 10 * k] around [(width // 2, height // 2)];
    "circle" paints an ellipse, "rectangle" a rectangle, any other name
    nothing. *)
Definition sprite_box (width height : Z) (k : nat) : PIL.Box :=
  let size := Z.min width height / 3 - 10 * Z.of_nat k in
  (width / 2 - size, height / 2 - size, width / 2 + size, height / 2 + size).

Definition sprite_call (width height : Z) (colors : list PIL.Color)
           (st : RandomState) (k : nat) (shape : string)
  : list PIL.draw_call :=
  match picked colors st k with
  | Some color =>
      if String.eqb shape "circle"
      then [ PIL.Ellipse (sprite_box width height k) color None ]
      else if String.eqb shape "rectangle"
      then [ PIL.Rectangle (sprite_box width height k) color ]
      else []
  | None => []
  end.

Fixpoint sprite_calls_from (width height : Z) (colors : list PIL.Color)
         (st : RandomState) (k : nat) (shapes : list string)
  : list PIL.draw_call :=
  match shapes with
  | [] => []
  | shape :: rest =>
      sprite_call width height colors st k shape
      ++ sprite_calls_from width height colors st (S k) rest
  end.

Definition sprite_calls (width height : Z) (colors : list PIL.Color)
           (st : RandomState) (shapes : list string) : list PIL.draw_call :=
  sprite_calls_from width height colors st 0 (firstn 3 shapes).

(** [draw] after the primitives [calls] have been painted on it. *)
Definition painted_with (draw : PIL.Image) (calls : list PIL.draw_call)
  : PIL.Image :=
  PIL.mkImage (PIL.im_width draw) (PIL.im_height draw) (PIL.im_initial draw)
              (PIL.im_painted draw ++ calls).

(** A palette as the data model has it: channels between 0 and 255. *)
Definition channel (c : Z) : Prop := 0 <= c <= 255.

Definition rgb (color : PIL.Color) : Prop :=
  let '(r, g, b) := color in channel r /\ channel g /\ channel b.

(** A style adjustment of the preset table. *)
Definition preset (style_config : AIAssetGenerator.StyleConfig) : Prop :=
  exists name, In (name, style_config) AIAssetGenerator.style_presets.

(** The texture routine, cell by cell.  The cells are visited column by
    column: the outer loop runs over [x = 0, 20, ...], the inner one over
    [y = 0, 20, ...].  The [k]-th cell visited is painted with the box
    [(x, y, x + 15, y + 15)] and the colour of the [k]-th draw, each channel
    multiplied by the contrast and truncated. *)
Definition texture_cells (width height : Z) : list (Z * Z) :=
  list_prod (py_range 0 width 20) (py_range 0 height 20).

Definition texture_call (colors : list PIL.Color) (k_contrast : PyFloat.float)
           (st : RandomState) (k : nat) (cell : Z * Z) : list PIL.draw_call :=
  let '(i, j) := cell in
  match picked colors st k with
  | Some color =>
      match AIAssetGenerator.scale_color k_contrast color with
      | Ok modified_color =>
          [ PIL.Rectangle (i, j, i + 15, j + 15) modified_color ]
      | Raise _ => []
      end
  | None => []
  end.

Fixpoint texture_calls_from (colors : list PIL.Color)
         (k_contrast : PyFloat.float) (st : RandomState) (k : nat)
         (cells : list (Z * Z)) : list PIL.draw_call :=
  match cells with
  | [] => []
  | cell :: rest =>
      texture_call colors k_contrast st k cell
      ++ texture_calls_from colors k_contrast st (S k) rest
  end.

Definition texture_calls (width height : Z) (colors : list PIL.Color)
           (style_config : AIAssetGenerator.StyleConfig) (st : RandomState)
  : list PIL.draw_call :=
  texture_calls_from colors (AIAssetGenerator.contrast style_config) st 0
                     (texture_cells width height).

(** The fill as the claim words it, in the integers.  A channel [c]
    multiplied by a contrast of [tenths / 10] and truncated is the quotient
    [c * tenths / 10] rounded down; nothing bounds it by 255. *)
Definition scaled (tenths : Z) (color : PIL.Color) : PIL.Color :=
  let '(r, g, b) := color in
  (r * tenths / 10, g * tenths / 10, b * tenths / 10).

(** The contrast of the four presets in tenths: 1.2, 0.8, 1.0 and 1.1. *)
Definition contrast_tenths : list (string * Z) :=
  [ ("realistic", 12); ("cartoon", 8); ("pixel", 10); ("minimalist", 11) ].

(** The rectangles as the claim words them: the [k]-th cell [(x, y)] gets
    the box [(x, y, x + 15, y + 15)], filled with the colour of the [k]-th
    draw scaled by the contrast. *)
Fixpoint tiles_from (colors : list PIL.Color) (tenths : Z)
         (st : RandomState) (k : nat) (cells : list (Z * Z))
  : list PIL.draw_call :=
  match cells with
  | [] => []
  | (x, y) :: rest =>
      match picked colors st k with
      | Some color =>
          [ PIL.Rectangle (x, y, x + 15, y + 15) (scaled tenths color) ]
      | None => []
      end
      ++ tiles_from colors tenths st (S k) rest
  end.

Definition tiles (width height : Z) (colors : list PIL.Color) (tenths : Z)
           (st : RandomState) : list PIL.draw_call :=
  tiles_from colors tenths st 0 (texture_cells width height).

(** [ceil(n / 20)] for an [int]. *)
Definition ceil_div20 (n : Z) : Z := (n + 19) / 20.

(** The number of pixels of an image that are not fully transparent. *)
Definition opaque_count {R : PIL.Rasterizer} (im : PIL.Image) : nat :=
  List.length (filter (fun px => negb (snd px =? 0)) (PIL.pixels im)).

Definition succeeds {A : Type} (r : result A) : bool :=
  match r with
  | Ok _ => true
  | Raise _ => false
  end.

(** The integers 0..255 and the four contrast factors of the presets. *)
Definition bytes : list Z := map Z.of_nat (seq 0 256).

Definition preset_contrasts : list PyFloat.float :=
  map (fun entry => AIAssetGenerator.contrast (snd entry))
      AIAssetGenerator.style_presets.

(** The body of the two loops of [_generate_texture], on a cell. *)
Definition cell_body (colors : list PIL.Color)
           (style_config : AIAssetGenerator.StyleConfig)
           (draw : PIL.Image) (cell : Z * Z) : M PIL.Image :=
  let '(i, j) := cell in
  color <- random_choice colors ;;
  modified_color <- lift (AIAssetGenerator.scale_color
                            (AIAssetGenerator.contrast style_config) color) ;;
  lift (PIL.draw_rectangle draw (i, j, i + 15, j + 15) modified_color).





(** The colour of row [y]: each channel is
    [int(c1 * (1 - y / height) + c2 * (y / height))], computed in binary64
    and truncated. *)
Definition gradient_color (color1 color2 : PIL.Color) (height y : Z)
  : result PIL.Color :=
  rbind (PyFloat.truediv y height) (fun ratio =>
  let '(r1, g1, b1) := color1 in
  let '(r2, g2, b2) := color2 in
  rbind (AIAssetGenerator.blend r1 r2 ratio) (fun r =>
  rbind (AIAssetGenerator.blend g1 g2 ratio) (fun g =>
  rbind (AIAssetGenerator.blend b1 b2 ratio) (fun b => Ok (r, g, b))))).




(** Frequencies.  [occurrences p im]: how many pixels of [im] have the
    value [p].  [more_frequent e l] and [as_frequent e l]: how many entries
    of the listing [l] have a count above, respectively not below, the
    count of [e]. *)
Definition occurrences {R : PIL.Rasterizer} (p : PIL.Pixel) (im : PIL.Image)
  : Z :=
  Z.of_nat (List.length (filter (PIL.pixel_eqb p) (PIL.pixels im))).

Definition more_frequent (e : Z * PIL.Pixel) (l : list (Z * PIL.Pixel)) : nat :=
  List.length (filter (fun e' => fst e <? fst e') l).

Definition as_frequent (e : Z * PIL.Pixel) (l : list (Z * PIL.Pixel)) : nat :=
  List.length (filter (fun e' => fst e <=? fst e') l).

Definition descending (l : list (Z * PIL.Pixel)) : Prop :=
  StronglySorted (fun a b => fst b <= fst a) l.

(** The count a listing holds for a pixel value, 0 when it has none. *)
Fixpoint lookup (q : PIL.Pixel) (h : list (Z * PIL.Pixel)) : Z :=
  match h with
  | [] => 0
  | (n, p) :: h' => if PIL.pixel_eqb q p then n else lookup q h'
  end.

(** A listing that keeps one entry per pixel value, with a positive
    count. *)
Definition well_formed (h : list (Z * PIL.Pixel)) : Prop :=
  NoDup (map snd h) /\ Forall (fun e => 0 < fst e) h.

(** ** Further vocabulary

    The rest of the development covers more of the three modules: the
    reading of the dimension string, [generate_asset], the debug assistant
    and the endpoints of [gamedev_ai_mvp.py], the backends and
    [generate_asset] of [ai_integration.py], and the two generation
    endpoints of [enhanced_api.py], with the calls that reach outside the
    program taken as parameters. *)

(** [keep_by P names kept]: [kept] is [names] without the names that fail
    [P], order kept. *)
Inductive keep_by (P : string -> Prop) : list string -> list string -> Prop :=
| keep_nil : keep_by P [] []
| keep_yes name names kept :
    P name -> keep_by P names kept -> keep_by P (name :: names) (name :: kept)
| keep_no name names kept :
    ~ P name -> keep_by P names kept -> keep_by P (name :: names) kept.

(** The four names of the style table. *)
Definition style_names : list string :=
  map fst AIAssetGenerator.style_presets.

(** [later] is [earlier] with more primitives painted on it: same size, same
    initial colour, nothing painted before removed. *)
Definition extends (earlier later : PIL.Image) : Prop :=
  exists calls, later = painted_with earlier calls.

(** A pixel whose four channels lie in 0..255. *)
Definition pixel_in_range (p : PIL.Pixel) : Prop :=
  let '(r, g, b, a) := p in channel r /\ channel g /\ channel b /\ channel a.

(** "#" followed by six hexadecimal digits in lower case. *)
Definition is_hex_digit (c : ascii) : bool :=
  existsb (Ascii.eqb c) (list_ascii_of_string "0123456789abcdef").

Definition is_hex_color (s : string) : bool :=
  match s with
  | String "#" digits =>
      (String.length digits =? 6)%nat &&
      forallb is_hex_digit (list_ascii_of_string digits)
  | _ => false
  end.

(** The box of half-extent [size] around the centre of the canvas. *)
Definition centered_box (width height size : Z) : PIL.Box :=
  (width / 2 - size, height / 2 - size, width / 2 + size, height / 2 + size).

(** Reading "#rrggbb" back: the value of a lower-case hexadecimal digit, of
    two of them, and of the whole string. *)
Definition hex_digit_value (c : ascii) : option Z :=
  let n := nat_of_ascii c in
  if ((48 <=? n) && (n <=? 57))%nat then Some (Z.of_nat n - 48)
  else if ((97 <=? n) && (n <=? 102))%nat then Some (Z.of_nat n - 87)
  else None.

Definition byte_of_hex (hi lo : ascii) : option Z :=
  match hex_digit_value hi, hex_digit_value lo with
  | Some h, Some l => Some (16 * h + l)
  | _, _ => None
  end.

Definition rgb_of_hex (s : string) : option PIL.Color :=
  match s with
  | String "#" (String r1 (String r0 (String g1 (String g0
      (String b1 (String b0 EmptyString)))))) =>
      match byte_of_hex r1 r0, byte_of_hex g1 g0, byte_of_hex b1 b0 with
      | Some r, Some g, Some b => Some (r, g, b)
      | _, _, _ => None
      end
  | _ => None
  end.

(** ** Built-ins used on the dimension string

    [dimensions.split('x')], [int(text)] and [f"{n}"] on strings of code
    points below 256.  [int] skips leading whitespace (9..13, 32, 133,
    160), takes one sign, then decimal digits in which single underscores
    may separate digits, then whitespace to the end; it raises [ValueError]
    on anything else, and on more than 4300 digits (the default limit of
    CPython on the conversion between [str] and [int], which [f"{n}"] obeys
    as well). *)

Module Builtins.

(** [s.split(sep)] for a separator of one character. *)
Fixpoint split (s : string) (sep : ascii) : list string :=
  match s with
  | EmptyString => [ EmptyString ]
  | String c s' =>
      if Ascii.eqb c sep then EmptyString :: split s' sep
      else match split s' sep with
           | [] => [ String c EmptyString ]
           | part :: parts => String c part :: parts
           end
  end.

(** [sep.join(parts)] *)
Fixpoint join (sep : string) (parts : list string) : string :=
  match parts with
  | [] => EmptyString
  | [ part ] => part
  | part :: parts' => (part ++ sep ++ join sep parts')%string
  end.

Definition is_space (c : ascii) : bool :=
  let n := nat_of_ascii c in
  (((9 <=? n) && (n <=? 13)) || (n =? 32) || (n =? 133) || (n =? 160))%nat.

Definition digit_value (c : ascii) : option Z :=
  let n := nat_of_ascii c in
  if ((48 <=? n) && (n <=? 57))%nat then Some (Z.of_nat n - 48) else None.

Fixpoint skip_spaces (s : string) : string :=
  match s with
  | EmptyString => EmptyString
  | String c s' => if is_space c then skip_spaces s' else s
  end.

(** The run of digits and underscores at the head of [s]: its value on top
    of [acc], the number of its digits on top of [digits], and what
    follows it; nothing when two underscores meet or an underscore ends
    the run.  [after_underscore] tells that the character before [s] was an
    underscore. *)
Fixpoint scan_digits (s : string) (after_underscore : bool) (acc : Z)
         (digits : nat) : option (Z * nat * string) :=
  match s with
  | EmptyString =>
      if after_underscore then None else Some (acc, digits, EmptyString)
  | String c s' =>
      match digit_value c with
      | Some d => scan_digits s' false (10 * acc + d) (S digits)
      | None =>
          if Ascii.eqb c "_"
          then if after_underscore then None
               else scan_digits s' true acc digits
          else if after_underscore then None
               else Some (acc, digits, s)
      end
  end.

Definition int_max_str_digits : nat := 4300.

(** Whether [s] starts with the character [c]. *)
Definition head_is (c : ascii) (s : string) : bool :=
  match s with
  | EmptyString => false
  | String c' _ => Ascii.eqb c' c
  end.

Definition tail (s : string) : string :=
  match s with
  | EmptyString => EmptyString
  | String _ s' => s'
  end.

(** [int(text)] *)
Definition int (text : string) : result Z :=
  let s := skip_spaces text in
  let negative := head_is "-" s in
  let s := if head_is "+" s || head_is "-" s then tail s else s in
  if head_is "_" s then Raise ValueError
  else
    match scan_digits s false 0 0 with
    | None => Raise ValueError
    | Some (value, digits, rest) =>
        if (digits =? 0)%nat then Raise ValueError
        else
          match skip_spaces rest with
          | EmptyString =>
              if (int_max_str_digits <? digits)%nat then Raise ValueError
              else Ok (if negative then - value else value)
          | String _ _ => Raise ValueError
          end
    end.

Definition digit_char (d : Z) : ascii :=
  nth (Z.to_nat d) (list_ascii_of_string "0123456789") "0"%char.

Fixpoint decimal_digits (fuel : nat) (n : Z) (acc : string) : string :=
  match fuel with
  | O => acc
  | S fuel' =>
      let acc' := String (digit_char (n mod 10)) acc in
      if n / 10 =? 0 then acc' else decimal_digits fuel' (n / 10) acc'
  end.

(** [f"{n}"], [str(n)] *)
Definition str_of_int (n : Z) : result string :=
  let digits :=
    decimal_digits (S (Z.to_nat (Z.log2 (Z.abs n)))) (Z.abs n) EmptyString in
  if (int_max_str_digits <? String.length digits)%nat then Raise ValueError
  else Ok (if n <? 0 then String "-" digits else digits).

(** [a, b = map(int, parts)]: [map] is lazy, so the items are converted as
    the unpacking asks for them: the first, the second, and a third one to
    find out that there are too many. *)
Definition unpack_two_ints (parts : list string) : result (Z * Z) :=
  match parts with
  | [] => Raise ValueError
  | a :: parts1 =>
      rbind (int a) (fun first =>
      match parts1 with
      | [] => Raise ValueError
      | b :: parts2 =>
          rbind (int b) (fun second =>
          match parts2 with
          | [] => Ok (first, second)
          | c :: _ => rbind (int c) (fun _ => Raise ValueError)
          end)
      end)
  end.

(** [width, height = map(int, dimensions.split('x'))] *)
Definition parse_dimensions (dimensions : string) : result (Z * Z) :=
  unpack_two_ints (split dimensions "x").

End Builtins.

(** How often the character [c] occurs in [s]. *)
Fixpoint count_of (c : ascii) (s : string) : nat :=
  match s with
  | EmptyString => 0%nat
  | String c' s' => ((if Ascii.eqb c' c then 1 else 0) + count_of c s')%nat
  end.

(** The number a string of decimal digits denotes, read on top of [acc];
    nothing when a character is not a digit. *)
Fixpoint value_of (s : string) (acc : Z) : option Z :=
  match s with
  | EmptyString => Some acc
  | String c s' =>
      match Builtins.digit_value c with
      | Some d => value_of s' (10 * acc + d)
      | None => None
      end
  end.

(** ** [class AIDebugAssistant]: matching an error message *)

Module AIDebugAssistant.

Record ErrorInfo : Type := mkInfo {
  description : string;
  solutions : list string;
  documentation : list string
}.

(** [self.common_errors], in insertion order. *)
Definition common_errors : list (string * ErrorInfo) :=
  [ ("NullReferenceException",
     mkInfo "Attempting to access a member on a null object reference"
            [ "Check if object is null before accessing its members";
              "Initialize objects properly in Start() or Awake()";
              "Use null-conditional operators (?.) in C#" ]
            [ "https://docs.unity3d.com/Manual/NullReferenceException.html" ]);
    ("IndexOutOfRangeException",
     mkInfo "Trying to access an array element that doesn't exist"
            [ "Check array bounds before accessing elements";
              "Use array.Length to verify size";
              "Consider using List<T> instead of arrays for dynamic sizing" ]
            [ "https://docs.microsoft.com/en-us/dotnet/api/system.indexoutofrangeexception" ]);
    ("MissingReferenceException",
     mkInfo "Reference to a destroyed Unity object"
            [ "Check if object exists before using it";
              "Properly manage object lifecycle";
              "Use FindObjectOfType() to re-establish references" ]
            [ "https://docs.unity3d.com/ScriptReference/MissingReferenceException.html" ]) ].

(** The three variables the loop of [analyze_error] assigns. *)
Record Finding : Type := mkFinding {
  error_analysis : string;
  suggested_solutions : list string;
  relevant_docs : list string
}.

(** The loop over [self.common_errors.items()] with its [break]. *)
Fixpoint find_pattern (errors : list (string * ErrorInfo))
         (error_message : string) (found : Finding) : Finding :=
  match errors with
  | [] => found
  | (error_type, info) :: errors' =>
      if Str.contains (Str.lower error_type) (Str.lower error_message)
      then mkFinding (description info) (solutions info) (documentation info)
      else find_pattern errors' error_message found
  end.

(** [analyze_error] between the session id and the storing of the
    session. *)
Definition match_error (error_message : string) : Finding :=
  find_pattern common_errors error_message
    (mkFinding "Unknown error type"
               [ "Check the error message for specific details";
                 "Review recent code changes" ]
               []).

Definition tips : list (string * list string) :=
  [ ("unity",
     [ "Use Debug.Log() for runtime debugging";
       "Check the Console window for detailed error information";
       "Use Unity's built-in Profiler for performance issues" ]);
    ("unreal",
     [ "Use UE_LOG for debugging output";
       "Check the Output Log for detailed information";
       "Use Unreal's Blueprint debugger for visual scripting issues" ]);
    ("godot",
     [ "Use print() statements for debugging";
       "Check the Debugger panel for runtime information";
       "Use Godot's built-in profiler for performance analysis" ]) ].

Definition _get_engine_specific_tips (engine_type : string) : list string :=
  AIAssetGenerator.dict_get tips engine_type
    (AIAssetGenerator.dict_get tips "unity" []).

End AIDebugAssistant.

(** ** The world outside the program

    The services reach outside the program: the clock, MD5, the file
    system, SQLite, the two image services, PNG and JSON encoding.  Such a
    call is a parameter of the model: a function of the environment that
    returns a value, or the text of the exception it raised, and the
    environment it leaves.  All exceptions are subclasses of [Exception];
    none raised outside is an HTTPException. *)

Module Runtime.

Inductive exception : Type :=
| Builtin (e : exn)
| KeyError (key : string)
| AttributeError
| HTTPException (status_code : Z) (detail : string)
| Failure (message : string).

Inductive outcome (A : Type) : Type :=
| Return (a : A)
| Throw (e : exception).
Arguments Return {A} a.
Arguments Throw {A} e.

(** What a call outside gives: a value, or [str(e)] of the exception [e]
    it raised. *)
Inductive reply (A : Type) : Type :=
| Done (a : A)
| Failed (message : string).
Arguments Done {A} a.
Arguments Failed {A} message.

(** The values the result dicts hold. *)
#[warnings="-register-all"]
Inductive value : Type :=
| VBool (b : bool)
| VInt (n : Z)
| VFloat (x : PyFloat.float)
| VStr (s : string)
| VImage (im : PIL.Image)
| VList (items : list string)
| VDict (entries : list (string * value)).

(** A dict with [str] keys, in insertion order. *)
Definition dict : Type := list (string * value).

Fixpoint dict_find (d : dict) (key : string) : option value :=
  match d with
  | [] => None
  | (k, v) :: d' => if String.eqb k key then Some v else dict_find d' key
  end.

(** [d[key]] *)
Definition getitem (d : dict) (key : string) : outcome value :=
  match dict_find d key with
  | Some v => Return v
  | None => Throw (KeyError key)
  end.

(** [key in d] *)
Definition has_key (d : dict) (key : string) : bool :=
  match dict_find d key with
  | Some _ => true
  | None => false
  end.

(** [d.get(key, default)] *)
Definition get (d : dict) (key : string) (default : value) : value :=
  match dict_find d key with
  | Some v => v
  | None => default
  end.

(** [d[key] = v] *)
Fixpoint setitem (d : dict) (key : string) (v : value) : dict :=
  match d with
  | [] => [ (key, v) ]
  | (k, v') :: d' =>
      if String.eqb k key then (k, v) :: d' else (k, v') :: setitem d' key v
  end.

(** The truth value of [v] in a condition. *)
Definition truthy (v : value) : bool :=
  match v with
  | VBool b => b
  | VInt n => negb (n =? 0)
  | VFloat x =>
      match x with
      | S754_zero _ => false
      | _ => true
      end
  | VStr s =>
      match s with
      | EmptyString => false
      | String _ _ => true
      end
  | VImage _ => true
  | VList items =>
      match items with
      | [] => false
      | _ :: _ => true
      end
  | VDict entries =>
      match entries with
      | [] => false
      | _ :: _ => true
      end
  end.

(** [repr] of a list of strings that hold no quote, backslash or control
    character. *)
Definition repr_list (items : list string) : string :=
  ("[" ++ Builtins.join ", " (map (fun s => "'" ++ s ++ "'") items)
   ++ "]")%string.

Class Platform : Type := {
  Env : Type;
  (** [time.time()] *)
  time_time : Env -> PyFloat.float * Env;
  (** [hashlib.md5(text.encode()).hexdigest()] *)
  md5_hexdigest : string -> string;
  (** [f"{x}"] for a float *)
  str_of_float : PyFloat.float -> string;
  (** [json.dumps(v)] *)
  json_dumps : value -> string;
  (** [image.save(file_path)] *)
  image_save : PIL.Image -> string -> Env -> reply unit * Env;
  (** [Image.open(file_path)] *)
  image_open : string -> Env -> reply PIL.Image * Env;
  (** [sqlite3.connect('gamedev_ai.db')], one [INSERT] of the row into the
      table, [commit], [close] *)
  sqlite_insert : string -> list string -> Env -> reply unit * Env;
  (** [openai.Image.create(model, prompt, size, quality, n=1).data[0].url] *)
  openai_Image_create :
    string -> string -> string -> string -> Env -> reply string * Env;
  (** [Image.open(io.BytesIO(requests.get(url).content))] *)
  requests_get_image : string -> Env -> reply PIL.Image * Env;
  (** [requests.post(self.stability_url, headers, json=data)] with the key,
      the prompt, the height and the width: the status code and the body *)
  requests_post :
    string -> string -> Z -> Z -> Env -> reply (Z * string) * Env;
  (** [Image.open(io.BytesIO(base64.b64decode(
      response.json()["artifacts"][0]["base64"])))] *)
  decode_artifact : string -> reply PIL.Image;
  (** [image.save(buffer, format='PNG')] and
      [base64.b64encode(buffer.getvalue()).decode()] *)
  png_base64 : PIL.Image -> reply string;
  (** [str(e)] where the model keeps no message *)
  exception_text : exception -> string;
  (** the state a drawing routine that raises leaves the random source
      in: the draws made before the exception are not tracked *)
  interrupted : forall A : Type, M A -> RandomState -> RandomState
}.

Section World.
Context {P : Platform}.

Record World : Type := mkWorld { random_state : RandomState; env : Env }.

Definition IO (A : Type) : Type := World -> outcome A * World.

Definition io_ret {A} (a : A) : IO A := fun w => (Return a, w).

Definition io_bind {A B} (m : IO A) (k : A -> IO B) : IO B :=
  fun w =>
    match m w with
    | (Return a, w') => k a w'
    | (Throw e, w') => (Throw e, w')
    end.

(** [raise e] *)
Definition raise {A} (e : exception) : IO A := fun w => (Throw e, w).

(** [try: body / except Exception as e: handler] *)
Definition try_except {A} (body : IO A) (handler : exception -> IO A)
  : IO A :=
  fun w =>
    match body w with
    | (Return a, w') => (Return a, w')
    | (Throw e, w') => handler e w'
    end.

Definition of_result {A} (r : result A) : IO A :=
  match r with
  | Ok a => io_ret a
  | Raise e => raise (Builtin e)
  end.

Definition of_outcome {A} (r : outcome A) : IO A :=
  match r with
  | Return a => io_ret a
  | Throw e => raise e
  end.

(** The exception of a call outside is raised with its text. *)
Definition of_reply {A} (r : reply A) : IO A :=
  match r with
  | Done a => io_ret a
  | Failed message => raise (Failure message)
  end.

(** A call that reaches outside. *)
Definition external {A} (call : Env -> reply A * Env) : IO A :=
  fun w =>
    let '(r, env') := call (env w) in
    of_reply r (mkWorld (random_state w) env').

Definition now : IO PyFloat.float :=
  fun w =>
    let '(t, env') := time_time (env w) in
    (Return t, mkWorld (random_state w) env').

(** A drawing routine run on the process-global random source. *)
Definition run_random {A} (m : M A) : IO A :=
  fun w =>
    match m (random_state w) with
    | Ok (a, st) => (Return a, mkWorld st (env w))
    | Raise e =>
        (Throw (Builtin e),
         mkWorld (interrupted A m (random_state w)) (env w))
    end.

(** A [for] loop over [xs] that updates [s]. *)
Fixpoint io_for_each {A S} (xs : list A) (s : S) (body : S -> A -> IO S)
  : IO S :=
  match xs with
  | [] => io_ret s
  | x :: xs' => io_bind (body s x) (fun s' => io_for_each xs' s' body)
  end.

(** [str(e)] *)
Definition str_exception (e : exception) : string :=
  match e with
  | KeyError key => ("'" ++ key ++ "'")%string
  | Failure message => message
  | _ => exception_text e
  end.

End World.

Declare Scope io_scope.
Delimit Scope io_scope with io.
Notation "x <~ m ;; k" := (io_bind m (fun x => k))
  (at level 61, m at next level, right associativity) : io_scope.

End Runtime.

(** ** [AIAssetGenerator.generate_asset] and the endpoints of
    [gamedev_ai_mvp.py] *)

Module AssetService.
Import Runtime PIL PyFloat.
Local Open Scope io_scope.

(** The dict [generate_asset] returns: its four keys are always there. *)
Record Asset : Type := mkAsset {
  asset_id : string;
  file_path : string;
  metadata : dict;
  generation_time : float
}.

(** The dict [analyze_error] returns. *)
Record Analysis : Type := mkAnalysis {
  session_id : string;
  error_analysis : string;
  suggested_solutions : list string;
  relevant_documentation : list string;
  engine_specific_tips : list string
}.

(** The request and response models of the two endpoints; [style],
    [dimensions] and [engine_type] are given, not null. *)
Record AssetGenerationRequest : Type := mkAssetRequest {
  prompt : string;
  asset_type : string;
  style : string;
  dimensions : string
}.

Record AssetGenerationResponse : Type := mkAssetResponse {
  response_asset_id : string;
  asset_url : string;
  response_metadata : dict;
  response_generation_time : float
}.

Record DebugRequest : Type := mkDebugRequest {
  error_message : string;
  code_context : option string;
  engine_type : string
}.

Record DebugResponse : Type := mkDebugResponse {
  response_session_id : string;
  response_error_analysis : string;
  response_suggested_solutions : list string;
  response_relevant_documentation : list string
}.

Definition supported_types : list string :=
  [ "texture"; "sprite"; "icon"; "background" ].

Section Service.
Context {P : Platform} {R : Rasterizer} {Mem : Memory}.

Definition _store_asset (asset_id prompt asset_type file_path : string)
           (metadata : dict) : IO unit :=
  external (sqlite_insert "assets"
              [ asset_id; prompt; asset_type; file_path;
                json_dumps (VDict metadata) ]).

Definition generate_asset (prompt asset_type style dimensions : string)
  : IO Asset :=
  start_time <~ now ;;
  size <~ of_result (Builtins.parse_dimensions dimensions) ;;
  let '(width, height) := size in
  t <~ now ;;
  let asset_id :=
    substring 0 12
      (md5_hexdigest (prompt ++ "_" ++ asset_type ++ "_" ++ style ++ "_"
                      ++ str_of_float t)) in
  image <~ run_random (AIAssetGenerator._create_procedural_asset
                         prompt asset_type style width height) ;;
  let file_path := ("assets/" ++ asset_id ++ ".png")%string in
  _ <~ external (image_save image file_path) ;;
  let metadata :=
    [ ("prompt", VStr prompt);
      ("asset_type", VStr asset_type);
      ("style", VStr style);
      ("dimensions", VStr dimensions);
      ("file_size", VInt (im_width image * im_height image * 4));
      ("color_palette",
       VList (AIAssetGenerator._extract_color_palette image)) ] in
  _ <~ _store_asset asset_id prompt asset_type file_path metadata ;;
  end_time <~ now ;;
  io_ret (mkAsset asset_id file_path metadata (fsub end_time start_time)).

Definition _store_debug_session (session_id error_message error_analysis
                                 : string) (solutions : list string)
  : IO unit :=
  external (sqlite_insert "debug_sessions"
              [ session_id; error_analysis; error_message;
                json_dumps (VList solutions) ]).

Definition analyze_error (error_message : string)
           (code_context : option string) (engine_type : string)
  : IO Analysis :=
  t <~ now ;;
  let session_id :=
    substring 0 12
      (md5_hexdigest (error_message ++ "_" ++ str_of_float t)) in
  let found := AIDebugAssistant.match_error error_message in
  _ <~ _store_debug_session session_id error_message
         (AIDebugAssistant.error_analysis found)
         (AIDebugAssistant.suggested_solutions found) ;;
  io_ret (mkAnalysis session_id
            (AIDebugAssistant.error_analysis found)
            (AIDebugAssistant.suggested_solutions found)
            (AIDebugAssistant.relevant_docs found)
            (AIDebugAssistant._get_engine_specific_tips engine_type)).

(** [POST /api/v1/generate-asset] *)
Definition generate_asset_endpoint (request : AssetGenerationRequest)
  : IO AssetGenerationResponse :=
  try_except
    (if negb (existsb (String.eqb (asset_type request)) supported_types)
     then raise (HTTPException 400
                   ("Unsupported asset type. Supported types: "
                    ++ repr_list supported_types))
     else
       result <~ generate_asset (prompt request) (asset_type request)
                   (style request) (dimensions request) ;;
       io_ret (mkAssetResponse
                 (asset_id result)
                 ("/assets/" ++ asset_id result ++ ".png")
                 (metadata result)
                 (generation_time result)))
    (fun e =>
       raise (HTTPException 500
                ("Asset generation failed: " ++ str_exception e))).

(** [POST /api/v1/debug] *)
Definition debug_assistance (request : DebugRequest) : IO DebugResponse :=
  try_except
    (result <~ analyze_error (error_message request) (code_context request)
                 (engine_type request) ;;
     io_ret (mkDebugResponse
               (session_id result)
               (error_analysis result)
               (suggested_solutions result)
               (relevant_documentation result)))
    (fun e =>
       raise (HTTPException 500
                ("Debug analysis failed: " ++ str_exception e))).

End Service.

End AssetService.

(** A sample platform for the examples: the environment counts the calls
    made outside, the clock stands still, files and the database accept
    everything, and the two image services are out of reach. *)
#[local] Instance offline : Runtime.Platform := {|
  Runtime.Env := nat;
  Runtime.time_time := fun n => (S754_zero false, S n);
  Runtime.md5_hexdigest := fun _ => "d41d8cd98f00b204e9800998ecf8427e";
  Runtime.str_of_float := fun _ => "0.0";
  Runtime.json_dumps := fun _ => "{}";
  Runtime.image_save := fun _ _ n => (Runtime.Done tt, S n);
  Runtime.image_open := fun _ n => (Runtime.Done (blank 1 1), S n);
  Runtime.sqlite_insert := fun _ _ n => (Runtime.Done tt, S n);
  Runtime.openai_Image_create :=
    fun _ _ _ _ n => (Runtime.Failed "unreachable", S n);
  Runtime.requests_get_image :=
    fun _ n => (Runtime.Failed "unreachable", S n);
  Runtime.requests_post :=
    fun _ _ _ _ n => (Runtime.Failed "unreachable", S n);
  Runtime.decode_artifact :=
    fun _ => Runtime.Failed "no artifact";
  Runtime.png_base64 := fun _ => Runtime.Done "iVBORw0KGgo=";
  Runtime.exception_text := fun _ => "error";
  Runtime.interrupted := fun _ _ st => st
|}.

(** The world at the start of the examples. *)
Definition fresh : Runtime.World := Runtime.mkWorld counting 0%nat.

(** [name] occurs in [message] when the case of letters is ignored. *)
Definition names (message name : string) : Prop :=
  Str.occurs_ci (Str.lower name) message.

(** What [analyze_error] reports for an entry of its table. *)
Definition finding_of (info : AIDebugAssistant.ErrorInfo)
  : AIDebugAssistant.Finding :=
  AIDebugAssistant.mkFinding (AIDebugAssistant.description info)
                             (AIDebugAssistant.solutions info)
                             (AIDebugAssistant.documentation info).

(** ** [ai_integration.py]: the backends and [generate_asset] *)

Module Integration.
Import Runtime PyFloat.
Local Open Scope io_scope.

Definition dalle_style_prompts : list (string * string) :=
  [ ("realistic", "photorealistic, high quality, detailed");
    ("cartoon", "cartoon style, animated, colorful");
    ("pixel", "pixel art style, 8-bit, retro gaming");
    ("minimalist", "minimalist design, clean, simple") ].

Definition sd_style_prompts : list (string * string) :=
  [ ("realistic", "photorealistic, ultra detailed, 8k resolution");
    ("cartoon", "cartoon illustration, vibrant colors, stylized");
    ("pixel", "pixel art, 16-bit style, game sprite");
    ("minimalist", "minimalist art, clean design, geometric") ].

(** [size] in [generate_with_dalle]: the dimensions are parsed, and
    [f"{width}x{height}" if width == height else "1024x1024"]. *)
Definition dalle_size (dimensions : string) : result string :=
  rbind (Builtins.parse_dimensions dimensions) (fun size =>
  let '(width, height) := size in
  if width =? height
  then rbind (Builtins.str_of_int width) (fun a =>
       rbind (Builtins.str_of_int height) (fun b =>
       Ok (a ++ "x" ++ b)%string))
  else Ok "1024x1024").

(** [get_available_models] *)
Definition get_available_models (self : RealAIAssetGenerator.generator)
  : list (string * bool) :=
  [ ("dall-e-3",
     RealAIAssetGenerator.configured
       (RealAIAssetGenerator.openai_api_key self));
    ("stable-diffusion-xl",
     RealAIAssetGenerator.configured
       (RealAIAssetGenerator.stability_api_key self));
    ("procedural_fallback", true) ].

(** The text of a key inside an f-string. *)
Definition key_text (key : option string) : string :=
  match key with
  | Some text => text
  | None => "None"
  end.

Section Backends.
Context {P : Platform} {R : PIL.Rasterizer} {Mem : PIL.Memory}.

Definition generate_with_dalle (self : RealAIAssetGenerator.generator)
           (request : RealAIAssetGenerator.AIGenerationRequest) : IO dict :=
  if negb (RealAIAssetGenerator.configured
             (RealAIAssetGenerator.openai_api_key self))
  then raise (Builtin ValueError)
  else
    let style_enhancement :=
      AIAssetGenerator.dict_get dalle_style_prompts
        (RealAIAssetGenerator.style request) EmptyString in
    let enhanced_prompt :=
      (RealAIAssetGenerator.prompt request ++ ", " ++ style_enhancement
       ++ ", game asset")%string in
    try_except
      (size <~ of_result (dalle_size (RealAIAssetGenerator.dimensions request)) ;;
       image_url <~ external
                      (openai_Image_create "dall-e-3" enhanced_prompt size
                         (RealAIAssetGenerator.quality request)) ;;
       image <~ external (requests_get_image image_url) ;;
       t <~ now ;;
       let asset_id :=
         substring 0 12
           (md5_hexdigest ("dalle_" ++ enhanced_prompt ++ "_"
                           ++ str_of_float t)) in
       generation_time <~ now ;;
       io_ret [ ("success", VBool true);
                ("asset_id", VStr asset_id);
                ("image", VImage image);
                ("model_used", VStr "dall-e-3");
                ("prompt_used", VStr enhanced_prompt);
                ("original_url", VStr image_url);
                ("generation_time", VFloat generation_time) ])
      (fun e =>
         io_ret [ ("success", VBool false);
                  ("error", VStr (str_exception e));
                  ("model_used", VStr "dall-e-3") ]).

Definition generate_with_stable_diffusion
           (self : RealAIAssetGenerator.generator)
           (request : RealAIAssetGenerator.AIGenerationRequest) : IO dict :=
  if negb (RealAIAssetGenerator.configured
             (RealAIAssetGenerator.stability_api_key self))
  then raise (Builtin ValueError)
  else
    let style_enhancement :=
      AIAssetGenerator.dict_get sd_style_prompts
        (RealAIAssetGenerator.style request) EmptyString in
    let enhanced_prompt :=
      (RealAIAssetGenerator.prompt request ++ ", " ++ style_enhancement
       ++ ", game asset, high quality")%string in
    try_except
      (size <~ of_result (Builtins.parse_dimensions
                            (RealAIAssetGenerator.dimensions request)) ;;
       let '(width, height) := size in
       response <~ external
                     (requests_post
                        (key_text (RealAIAssetGenerator.stability_api_key self))
                        enhanced_prompt height width) ;;
       let '(status_code, body) := response in
       _ <~ (if negb (status_code =? 200)
             then code <~ of_result (Builtins.str_of_int status_code) ;;
                  raise (Failure ("Stability AI API error: " ++ code))
             else io_ret tt) ;;
       image <~ of_reply (decode_artifact body) ;;
       t <~ now ;;
       let asset_id :=
         substring 0 12
           (md5_hexdigest ("sd_" ++ enhanced_prompt ++ "_"
                           ++ str_of_float t)) in
       generation_time <~ now ;;
       io_ret [ ("success", VBool true);
                ("asset_id", VStr asset_id);
                ("image", VImage image);
                ("model_used", VStr "stable-diffusion-xl");
                ("prompt_used", VStr enhanced_prompt);
                ("generation_time", VFloat generation_time) ])
      (fun e =>
         io_ret [ ("success", VBool false);
                  ("error", VStr (str_exception e));
                  ("model_used", VStr "stable-diffusion-xl") ]).

(** The end of the [try] block of [generate_asset]:
    [if result["success"]: result["total_generation_time"] = ...] and
    [return result]. *)
Definition timed (start_time : float) (result : dict) : IO dict :=
  success <~ of_outcome (getitem result "success") ;;
  if truthy success
  then t <~ now ;;
       io_ret (setitem result "total_generation_time"
                       (VFloat (fsub t start_time)))
  else io_ret result.

(** [generate_asset]: the call chosen by the routing is made and its result
    returned. *)
Definition generate_asset (self : RealAIAssetGenerator.generator)
           (request : RealAIAssetGenerator.AIGenerationRequest) : IO dict :=
  start_time <~ now ;;
  try_except
    (match RealAIAssetGenerator.generate_asset self request with
     | RealAIAssetGenerator.generate_with_dalle request' =>
         result <~ generate_with_dalle self request' ;;
         timed start_time result
     | RealAIAssetGenerator.generate_with_stable_diffusion request' =>
         result <~ generate_with_stable_diffusion self request' ;;
         timed start_time result
     | RealAIAssetGenerator.procedural_fallback
         prompt asset_type style dimensions =>
         fallback_result <~ AssetService.generate_asset
                              prompt asset_type style dimensions ;;
         image <~ external
                    (image_open (AssetService.file_path fallback_result)) ;;
         t <~ now ;;
         io_ret [ ("success", VBool true);
                  ("asset_id",
                   VStr (AssetService.asset_id fallback_result));
                  ("image", VImage image);
                  ("model_used", VStr "procedural_fallback");
                  ("prompt_used", VStr (RealAIAssetGenerator.prompt request));
                  ("generation_time", VFloat (fsub t start_time));
                  ("note",
                   VStr "Used procedural generation as AI APIs not configured") ]
     end)
    (fun e =>
       t <~ now ;;
       io_ret [ ("success", VBool false);
                ("error", VStr ("Generation failed: " ++ str_exception e));
                ("total_generation_time", VFloat (fsub t start_time)) ]).

End Backends.

End Integration.

(** ** [enhanced_api.py]: the two generation endpoints *)

Module EnhancedApi.
Import Runtime PyFloat.
Local Open Scope io_scope.

Record EnhancedAssetRequest : Type := mkEnhancedRequest {
  prompt : string;
  style : string;
  dimensions : string;
  model_preference : string;
  quality : string
}.

(** The response model; its optional fields hold the values of the result
    dict as they are. *)
Record EnhancedAssetResponse : Type := mkEnhancedResponse {
  success : bool;
  asset_id : option value;
  model_used : option value;
  generation_time : option value;
  prompt_used : option value;
  image_base64 : option string;
  error : option value;
  metadata : option dict
}.

(** The whitespace of [str.strip()] below code point 256. *)
Definition isspace (c : ascii) : bool :=
  let n := nat_of_ascii c in
  (((9 <=? n) && (n <=? 13)) || ((28 <=? n) && (n <=? 32)) || (n =? 133)
   || (n =? 160))%nat.

Fixpoint lstrip (s : string) : string :=
  match s with
  | EmptyString => EmptyString
  | String c s' => if isspace c then lstrip s' else s
  end.

Fixpoint rstrip (s : string) : string :=
  match s with
  | EmptyString => EmptyString
  | String c s' =>
      match rstrip s' with
      | EmptyString => if isspace c then EmptyString else String c EmptyString
      | String c' rest => String c (String c' rest)
      end
  end.

(** [s.strip()] *)
Definition strip (s : string) : string := rstrip (lstrip s).

(** [not s] *)
Definition is_empty (s : string) : bool :=
  match s with
  | EmptyString => true
  | String _ _ => false
  end.

Definition request_of (request : EnhancedAssetRequest) (prompt : string)
  : RealAIAssetGenerator.AIGenerationRequest :=
  RealAIAssetGenerator.mkRequest prompt (style request) (dimensions request)
                                 (model_preference request) (quality request).

Section Endpoints.
Context {P : Platform} {R : PIL.Rasterizer} {Mem : PIL.Memory}.

(** [image_to_base64(image)] *)
Definition image_to_base64 (image : value) : IO string :=
  match image with
  | VImage im => of_reply (png_base64 im)
  | _ => raise AttributeError
  end.

(** [POST /api/v1/generate-asset] *)
Definition generate_enhanced_asset (ai_generator : RealAIAssetGenerator.generator)
           (request : EnhancedAssetRequest) : IO EnhancedAssetResponse :=
  try_except
    (if is_empty (strip (prompt request))
     then raise (HTTPException 400 "Prompt cannot be empty")
     else if (4000 <? String.length (prompt request))%nat
     then raise (HTTPException 400 "Prompt too long (max 4000 characters)")
     else
       let ai_request := request_of request (prompt request) in
       result <~ Integration.generate_asset ai_generator ai_request ;;
       ok <~ of_outcome (getitem result "success") ;;
       if truthy ok
       then
         image <~ of_outcome (getitem result "image") ;;
         image_base64 <~ image_to_base64 image ;;
         let metadata :=
           [ ("dimensions", VStr (dimensions request));
             ("style", VStr (style request));
             ("quality", VStr (quality request));
             ("model_preference", VStr (model_preference request)) ] in
         metadata <~ (if has_key result "note"
                      then note <~ of_outcome (getitem result "note") ;;
                           io_ret (setitem metadata "note" note)
                      else io_ret metadata) ;;
         asset_id <~ of_outcome (getitem result "asset_id") ;;
         model_used <~ of_outcome (getitem result "model_used") ;;
         generation_time <~ of_outcome
                              (getitem result "total_generation_time") ;;
         prompt_used <~ of_outcome (getitem result "prompt_used") ;;
         io_ret (mkEnhancedResponse true (Some asset_id) (Some model_used)
                   (Some generation_time) (Some prompt_used)
                   (Some image_base64) None (Some metadata))
       else
         error <~ of_outcome (getitem result "error") ;;
         io_ret (mkEnhancedResponse false None None None None None
                   (Some error)
                   (Some [ ("model_attempted",
                            get result "model_used" (VStr "unknown")) ])))
    (fun e =>
       match e with
       | HTTPException _ _ => raise e
       | _ =>
           io_ret (mkEnhancedResponse false None None None None None
                     (Some (VStr ("Internal server error: "
                                  ++ str_exception e)))
                     None)
       end).

(** One turn of the loop of [generate_batch_assets] on item [i] of
    [total]: the response appended to [results]. *)
Definition batch_item (ai_generator : RealAIAssetGenerator.generator)
           (total : nat) (results : list EnhancedAssetResponse)
           (item : nat * EnhancedAssetRequest)
  : IO (list EnhancedAssetResponse) :=
  let '(i, request) := item in
  try_except
    (number <~ of_result (Builtins.str_of_int (Z.of_nat i + 1)) ;;
     size <~ of_result (Builtins.str_of_int (Z.of_nat total)) ;;
     let batch_prompt :=
       (prompt request ++ " (batch " ++ number ++ "/" ++ size ++ ")")%string in
     let ai_request := request_of request batch_prompt in
     result <~ Integration.generate_asset ai_generator ai_request ;;
     ok <~ of_outcome (getitem result "success") ;;
     if truthy ok
     then
       image <~ of_outcome (getitem result "image") ;;
       image_base64 <~ image_to_base64 image ;;
       asset_id <~ of_outcome (getitem result "asset_id") ;;
       model_used <~ of_outcome (getitem result "model_used") ;;
       generation_time <~ of_outcome
                            (getitem result "total_generation_time") ;;
       prompt_used <~ of_outcome (getitem result "prompt_used") ;;
       io_ret (results ++
               [ mkEnhancedResponse true (Some asset_id) (Some model_used)
                   (Some generation_time) (Some prompt_used)
                   (Some image_base64) None
                   (Some [ ("batch_index", VInt (Z.of_nat i)) ]) ])
     else
       error <~ of_outcome (getitem result "error") ;;
       io_ret (results ++
               [ mkEnhancedResponse false None None None None None
                   (Some error)
                   (Some [ ("batch_index", VInt (Z.of_nat i)) ]) ]))
    (fun e =>
       number <~ of_result (Builtins.str_of_int (Z.of_nat i + 1)) ;;
       io_ret (results ++
               [ mkEnhancedResponse false None None None None None
                   (Some (VStr ("Batch item " ++ number ++ " failed: "
                                ++ str_exception e)))
                   (Some [ ("batch_index", VInt (Z.of_nat i)) ]) ])).

(** [POST /api/v1/generate-batch]: the list under "batch_results" and the
    number under "total_processed". *)
Definition generate_batch_assets (ai_generator : RealAIAssetGenerator.generator)
           (requests : list EnhancedAssetRequest)
  : IO (list EnhancedAssetResponse * nat) :=
  if (5 <? List.length requests)%nat
  then raise (HTTPException 400 "Batch size limited to 5 requests")
  else
    results <~ io_for_each
                 (combine (seq 0 (List.length requests)) requests) []
                 (batch_item ai_generator (List.length requests)) ;;
    io_ret (results, List.length results).

End Endpoints.

End EnhancedApi.

(** A generator without keys, and one with the key of DALL-E. *)
Definition keyless : RealAIAssetGenerator.generator :=
  RealAIAssetGenerator.mkGenerator None None.

(** The shape of a result dict: [succeeded d] has "success" true with the
    asset id, the image, the model and the prompt; [failed d] has
    "success" false with the error text. *)
Definition succeeded (d : Runtime.dict) : Prop :=
  Runtime.dict_find d "success" = Some (Runtime.VBool true) /\
  (exists text, Runtime.dict_find d "asset_id" = Some (Runtime.VStr text)) /\
  (exists im, Runtime.dict_find d "image" = Some (Runtime.VImage im)) /\
  (exists text, Runtime.dict_find d "model_used" = Some (Runtime.VStr text)) /\
  (exists text, Runtime.dict_find d "prompt_used" = Some (Runtime.VStr text)).

Definition failed (d : Runtime.dict) : Prop :=
  Runtime.dict_find d "success" = Some (Runtime.VBool false) /\
  exists text, Runtime.dict_find d "error" = Some (Runtime.VStr text).
(** A prompt that is empty or made of whitespace only. *)
Definition blank_text (text : string) : bool :=
  forallb EnhancedApi.isspace (list_ascii_of_string text).

(** The response of an endpoint that reports a failure. *)
Definition reports_failure (response : EnhancedApi.EnhancedAssetResponse)
  : Prop :=
  EnhancedApi.success response = false /\
  exists text, EnhancedApi.error response = Some (Runtime.VStr text).

(** The shape names the sprite routine paints something for. *)
Definition drawn (shape : string) : bool :=
  String.eqb shape "circle" || String.eqb shape "rectangle".

(** * Properties *)

(** ** Substring search *)

Module StrFacts.
Import Str.

Lemma prefix_app (a b : string) :
  prefix a b = true <-> exists post, b = (a ++ post)%string.
Proof.
  revert b; induction a as [|c a IH]; intros b.
  - split; [intros _; now exists b | now destruct b].
  - destruct b as [|d b]; simpl.
    + split; [discriminate | intros [post H]; discriminate].
    + destruct (Ascii.ascii_dec c d) as [->|Hne].
      * rewrite IH; split; intros [post H]; exists post.
        -- now rewrite H.
        -- now injection H.
      * split; [discriminate | intros [post H]].
        injection H as Hc _. congruence.
Qed.

Lemma contains_app (needle hay : string) :
  contains needle hay = true <->
  exists pre post, hay = (pre ++ needle ++ post)%string.
Proof.
  induction hay as [|c hay IH]; cbn [contains].
  - rewrite orb_false_r, prefix_app. split.
    + intros [post H]. now exists EmptyString, post.
    + intros [pre [post H]]. destruct pre; [now exists post | discriminate].
  - rewrite orb_true_iff, prefix_app, IH. split.
    + intros [[post H] | [pre [post H]]].
      * now exists EmptyString, post.
      * exists (String c pre), post. simpl. now rewrite H.
    + intros [pre [post H]]. destruct pre as [|d pre]; simpl in H.
      * left. now exists post.
      * right. injection H as _ H. now exists pre, post.
Qed.

Lemma lower_app (a b : string) :
  lower (a ++ b) = (lower a ++ lower b)%string.
Proof. induction a as [|c a IH]; simpl; [reflexivity | now rewrite IH]. Qed.

Lemma lower_split (s a b : string) :
  lower s = (a ++ b)%string ->
  exists s1 s2, s = (s1 ++ s2)%string /\ lower s1 = a /\ lower s2 = b.
Proof.
  revert s; induction a as [|c a IH]; intros s H; simpl in H.
  - now exists EmptyString, s.
  - destruct s as [|d s]; [discriminate|]. simpl in H.
    injection H as Hc H. destruct (IH s H) as [s1 [s2 [-> [H1 H2]]]].
    exists (String d s1), s2. simpl. now rewrite Hc, H1, H2.
Qed.

(** Searching the lowered prompt is searching the prompt with the case
    of letters ignored. *)
Lemma contains_lower (needle prompt : string) :
  contains needle (lower prompt) = true <-> occurs_ci needle prompt.
Proof.
  rewrite contains_app. unfold occurs_ci. split.
  - intros [pre [post H]].
    destruct (lower_split _ _ _ H) as [s1 [s23 [-> [H1 H23]]]].
    destruct (lower_split _ _ _ H23) as [s2 [s3 [-> [H2 H3]]]].
    now exists s1, s2, s3.
  - intros [pre [mid [post [-> H]]]].
    exists (lower pre), (lower post). now rewrite !lower_app, H.
Qed.

(** A lower-case needle that occurs literally also occurs with the case
    ignored. *)
Lemma literal_occurs (needle prompt : string) :
  lower needle = needle ->
  (exists pre post, prompt = (pre ++ needle ++ post)%string) ->
  occurs_ci needle prompt.
Proof. intros H [pre [post ->]]. now exists pre, needle, post. Qed.

End StrFacts.

(** ** Prompt analysis *)

Module PromptFacts.
Import Str StrFacts PIL AIAssetGenerator.

Lemma select_by_unique {V} (P : string -> Prop) (table : list (string * V))
      (a b : list V) :
  select_by P table a -> select_by P table b -> a = b.
Proof.
  intros Ha; revert b.
  induction Ha as [|k v table sel Hk _ IH|k v table sel Hk _ IH];
    intros b Hb; inversion Hb; subst; try contradiction; auto.
  f_equal; auto.
Qed.

Lemma select_by_filter {V} (P : string -> Prop) (f : string -> bool)
      (table : list (string * V)) :
  (forall k, f k = true <-> P k) ->
  select_by P table (map snd (filter (fun e => f (fst e)) table)).
Proof.
  intros Hf. induction table as [|[k v] table IH]; simpl.
  - constructor.
  - destruct (f k) eqn:E; simpl.
    + constructor; [now apply Hf | exact IH].
    + constructor; [|exact IH]. intros HP. apply Hf in HP. congruence.
Qed.

Lemma select_by_In {V} (P : string -> Prop) (table : list (string * V))
      (sel : list V) (k : string) (v : V) :
  select_by P table sel -> In (k, v) table -> P k -> In v sel.
Proof.
  induction 1 as [|k' v' table sel Hk _ IH|k' v' table sel Hk _ IH];
    simpl; intros Hin HP.
  - contradiction.
  - destruct Hin as [E|Hin]; [injection E as _ ->; now left | right; auto].
  - destruct Hin as [E|Hin]; [injection E as -> _; contradiction | auto].
Qed.

Lemma select_by_none {V} (P : string -> Prop) (table : list (string * V))
      (sel : list V) :
  select_by P table sel ->
  (forall k v, In (k, v) table -> ~ P k) -> sel = [].
Proof.
  induction 1 as [|k v table sel Hk _ IH|k v table sel Hk _ IH];
    intros Hnone; auto.
  - exfalso. apply (Hnone k v); [now left | exact Hk].
  - apply IH. intros k' v' Hin. apply (Hnone k' v'). now right.
Qed.

(** The loop that appends every matching entry builds the filtered
    table. *)
Lemma found_colors_loop (f : string -> bool) (table : list (string * Color))
      (acc : list Color) :
  fold_left
    (fun found (entry : string * Color) =>
       let '(color_name, rgb) := entry in
       if f color_name then found ++ [rgb] else found)
    table acc
  = acc ++ map snd (filter (fun e => f (fst e)) table).
Proof.
  revert acc; induction table as [|[k v] table IH]; intros acc; simpl.
  - now rewrite app_nil_r.
  - rewrite IH. destruct (f k); simpl; [now rewrite <- app_assoc | reflexivity].
Qed.

Lemma lower_red : lower "red" = "red".
Proof. reflexivity. Qed.

End PromptFacts.

(** The prompt of the repository's own test, a prompt in capitals, and a
    prompt without any colour name. *)
Example colors_of_red_dragon :
  AIAssetGenerator._analyze_prompt_colors "red dragon with blue flames"
  = [ (255, 0, 0); (0, 0, 255) ].
Proof. reflexivity. Qed.

Example colors_in_table_order :
  AIAssetGenerator._analyze_prompt_colors "a PINK and Red banner"
  = [ (255, 0, 0); (255, 192, 203) ].
Proof. reflexivity. Qed.

Example colors_by_default :
  AIAssetGenerator._analyze_prompt_colors "medieval castle"
  = [ (100, 150, 200); (200, 100, 150); (150, 200, 100) ].
Proof. reflexivity. Qed.

(** C8. For every prompt, the colour extractor returns the RGB triples of
    exactly the table colours whose names occur in the prompt when the case
    of letters is ignored, in the order of the table and once per entry; a
    prompt that contains "red" therefore yields a palette with (255,0,0),
    and likewise for every name of the table; when no name of the table
    occurs the result is the default palette (100,150,200), (200,100,150),
    (150,200,100). *)
Theorem analyze_prompt_colors_selects (prompt : string) :
  exists matched : list PIL.Color,
    select_by (fun name => Str.occurs_ci name prompt)
              AIAssetGenerator.color_keywords matched /\
    AIAssetGenerator._analyze_prompt_colors prompt
    = match matched with
      | [] => [ (100, 150, 200); (200, 100, 150); (150, 200, 100) ]
      | _ => matched
      end /\
    (forall name rgb,
        In (name, rgb) AIAssetGenerator.color_keywords ->
        Str.occurs_ci name prompt ->
        In rgb (AIAssetGenerator._analyze_prompt_colors prompt)) /\
    ((exists pre post, prompt = (pre ++ "red" ++ post)%string) ->
     In (255, 0, 0) (AIAssetGenerator._analyze_prompt_colors prompt)) /\
    ((forall name rgb,
         In (name, rgb) AIAssetGenerator.color_keywords ->
         ~ Str.occurs_ci name prompt) ->
     AIAssetGenerator._analyze_prompt_colors prompt
     = [ (100, 150, 200); (200, 100, 150); (150, 200, 100) ]).
Proof.
  set (f := fun name => Str.contains name (Str.lower prompt)).
  set (matched := map snd (filter (fun e => f (fst e))
                                  AIAssetGenerator.color_keywords)).
  assert (Hsel : select_by (fun name => Str.occurs_ci name prompt)
                           AIAssetGenerator.color_keywords matched).
  { apply PromptFacts.select_by_filter. intros k. apply StrFacts.contains_lower. }
  assert (Hrun : AIAssetGenerator._analyze_prompt_colors prompt
                 = match matched with
                   | [] => AIAssetGenerator.default_colors
                   | _ => matched
                   end).
  { unfold AIAssetGenerator._analyze_prompt_colors.
    rewrite (PromptFacts.found_colors_loop f). reflexivity. }
  assert (Hin : forall name rgb,
             In (name, rgb) AIAssetGenerator.color_keywords ->
             Str.occurs_ci name prompt ->
             In rgb (AIAssetGenerator._analyze_prompt_colors prompt)).
  { intros name rgb Htab Hocc. rewrite Hrun.
    pose proof (PromptFacts.select_by_In _ _ _ _ _ Hsel Htab Hocc) as H.
    destruct matched; [contradiction | exact H]. }
  exists matched. repeat split; auto.
  - intros Hred. apply (Hin "red"); [now left|].
    apply StrFacts.literal_occurs; [reflexivity | exact Hred].
  - intros Hnone. rewrite Hrun.
    now rewrite (PromptFacts.select_by_none _ _ _ Hsel Hnone).
Qed.

(** ** Choice of the backend *)

Module RouterFacts.
Import RealAIAssetGenerator.

(** The router never hands a request to a backend whose key is missing, so
    the key checks at the head of the two backends cannot fire. *)
Lemma routed_backend_has_key (self : generator) (request : AIGenerationRequest) :
  match generate_asset self request with
  | generate_with_dalle _ => configured (openai_api_key self) = true
  | generate_with_stable_diffusion _ =>
      configured (stability_api_key self) = true
  | procedural_fallback _ _ _ _ => True
  end.
Proof.
  unfold generate_asset.
  destruct (configured (openai_api_key self)) eqn:Ho,
           (configured (stability_api_key self)) eqn:Hs,
           (String.eqb (model_preference request) "dalle"),
           (String.eqb (model_preference request) "stable_diffusion");
    simpl; auto.
Qed.

Example both_keys_unknown_preference :
  generate_asset (mkGenerator (Some "sk-a") (Some "sk-b"))
                 (mkRequest "sword" "realistic" "512x512" "midjourney" "standard")
  = generate_with_dalle
      (mkRequest "sword" "realistic" "512x512" "midjourney" "standard").
Proof. reflexivity. Qed.

Example empty_key_counts_as_missing :
  generate_asset (mkGenerator (Some "") None)
                 (mkRequest "sword" "pixel" "64x64" "dalle" "standard")
  = procedural_fallback "sword" "texture" "pixel" "64x64".
Proof. reflexivity. Qed.

End RouterFacts.

(** C9. For every generation request the router hands the request to the
    backend named by the preference when that backend's key is configured;
    otherwise to DALL-E when its key is configured, else to Stable Diffusion
    when its key is configured; and it falls back to the procedural
    synthesizer exactly when neither key is configured. *)
Theorem generate_asset_selection_policy
        (self : RealAIAssetGenerator.generator)
        (request : RealAIAssetGenerator.AIGenerationRequest) :
  (RealAIAssetGenerator.model_preference request = "dalle" /\
   RealAIAssetGenerator.configured
     (RealAIAssetGenerator.openai_api_key self) = true ->
   RealAIAssetGenerator.generate_asset self request
   = RealAIAssetGenerator.generate_with_dalle request) /\
  (RealAIAssetGenerator.model_preference request = "stable_diffusion" /\
   RealAIAssetGenerator.configured
     (RealAIAssetGenerator.stability_api_key self) = true ->
   RealAIAssetGenerator.generate_asset self request
   = RealAIAssetGenerator.generate_with_stable_diffusion request) /\
  (~ (RealAIAssetGenerator.model_preference request = "dalle" /\
      RealAIAssetGenerator.configured
        (RealAIAssetGenerator.openai_api_key self) = true) ->
   ~ (RealAIAssetGenerator.model_preference request = "stable_diffusion" /\
      RealAIAssetGenerator.configured
        (RealAIAssetGenerator.stability_api_key self) = true) ->
   (RealAIAssetGenerator.configured
      (RealAIAssetGenerator.openai_api_key self) = true ->
    RealAIAssetGenerator.generate_asset self request
    = RealAIAssetGenerator.generate_with_dalle request) /\
   (RealAIAssetGenerator.configured
      (RealAIAssetGenerator.openai_api_key self) = false ->
    RealAIAssetGenerator.configured
      (RealAIAssetGenerator.stability_api_key self) = true ->
    RealAIAssetGenerator.generate_asset self request
    = RealAIAssetGenerator.generate_with_stable_diffusion request)) /\
  (RealAIAssetGenerator.generate_asset self request
   = RealAIAssetGenerator.procedural_fallback
       (RealAIAssetGenerator.prompt request) "texture"
       (RealAIAssetGenerator.style request)
       (RealAIAssetGenerator.dimensions request)
   <->
   RealAIAssetGenerator.configured
     (RealAIAssetGenerator.openai_api_key self) = false /\
   RealAIAssetGenerator.configured
     (RealAIAssetGenerator.stability_api_key self) = false).
Proof.
  unfold RealAIAssetGenerator.generate_asset.
  destruct (String.eqb_spec (RealAIAssetGenerator.model_preference request)
                            "dalle") as [Hd|Hd];
    destruct (String.eqb_spec (RealAIAssetGenerator.model_preference request)
                              "stable_diffusion") as [Hs|Hs];
    destruct (RealAIAssetGenerator.configured
                (RealAIAssetGenerator.openai_api_key self));
    destruct (RealAIAssetGenerator.configured
                (RealAIAssetGenerator.stability_api_key self));
    simpl; repeat split; intros; intuition (try congruence; try discriminate).
Qed.

(** ** The dispatcher *)

Module DispatchFacts.
Import PIL AIAssetGenerator.


(** What [Image.new] does at every size. *)
Lemma Image_new_cases {Mem : Memory} (width height : Z) (color : Pixel) :
  Image_new width height color
  = if (width <? 0) || (height <? 0) then Raise ValueError
    else if (2 ^ 31 <=? width) || (2 ^ 31 <=? height) then Raise OverflowError
    else if fits width height then Ok (mkImage width height color [])
    else Raise MemoryError.
Proof. reflexivity. Qed.




Lemma eqb_neq (a b : string) : a <> b -> String.eqb a b = false.
Proof. intros H. now apply String.eqb_neq. Qed.

End DispatchFacts.



(** C6 as stated fails: a width of [2 ** 31], which the dimension string
    "2147483648x1" supplies, does not fit the C [int] the image constructor
    reads, and the call raises [OverflowError] whatever the category. *)
Lemma unknown_category_raises_on_wide_canvas :
  AIAssetGenerator._create_procedural_asset (Mem := roomy)
    "test prompt" "invalid_type" "realistic" 2147483648 1 counting
  = Raise OverflowError.
Proof. reflexivity. Qed.

(** ** The icon routine *)

(** C3 (as the code has it). On the single-entry palette [(255,0,0)] at
    64 x 64 the icon routine paints one ellipse in box (11,11,53,53) with
    fill and outline (255,0,0), the outline falling back to the first
    colour, and then one square in box (22,22,42,42) filled with the fixed
    colour (255,255,255): the inner square falls back to white, not to the
    first colour, and its pixels are opaque white. *)
Theorem icon_single_color_falls_back {R : PIL.Rasterizer}
        (draw : PIL.Image) (style_config : AIAssetGenerator.StyleConfig)
        (st : RandomState) :
  exists image,
    AIAssetGenerator._generate_icon draw 64 64 [ (255, 0, 0) ] style_config st
    = Ok (image, st) /\
    image
    = painted_with draw
        [ PIL.Ellipse (11, 11, 53, 53) (255, 0, 0) (Some (255, 0, 0));
          PIL.Rectangle (22, 22, 42, 42) (255, 255, 255) ] /\
    ellipse_outlines image
    = ellipse_outlines draw ++ [ Some (255, 0, 0) ] /\
    rectangle_fills image = rectangle_fills draw ++ [ (255, 255, 255) ] /\
    forall x y, 22 <= x <= 42 -> 22 <= y <= 42 ->
                PIL.pixel_at image x y = (255, 255, 255, 255).
Proof.
  eexists. split; [|split; [reflexivity|]].
  - unfold AIAssetGenerator._generate_icon, bind, lift. simpl.
    unfold PIL.record, painted_with. simpl. now rewrite <- app_assoc.
  - split; [|split].
    + unfold ellipse_outlines, painted_with. simpl.
      now rewrite flat_map_app.
    + unfold rectangle_fills, painted_with. simpl.
      now rewrite flat_map_app.
    + intros x y Hx Hy. unfold PIL.pixel_at, painted_with. simpl.
      rewrite fold_left_app. simpl. unfold PIL.in_rectangle.
      destruct (Z.leb_spec 22 x); [|lia]. destruct (Z.leb_spec x 42); [|lia].
      destruct (Z.leb_spec 22 y); [|lia]. destruct (Z.leb_spec y 42); [|lia].
      reflexivity.
Qed.

(** C3 as stated fails: the inner square is not filled with (255,0,0). *)
Lemma icon_inner_square_is_not_red :
  exists image,
    AIAssetGenerator._generate_icon (blank 64 64) 64 64 [ (255, 0, 0) ]
                                    AIAssetGenerator.realistic counting
    = Ok (image, counting) /\
    rectangle_fills image <> [ (255, 0, 0) ].
Proof.
  exists (PIL.mkImage 64 64 (255, 255, 255, 0)
            [ PIL.Ellipse (11, 11, 53, 53) (255, 0, 0) (Some (255, 0, 0));
              PIL.Rectangle (22, 22, 42, 42) (255, 255, 255) ]).
  split; [reflexivity | discriminate].
Qed.

(** ** Use of the random source *)

Module RandomFacts.
Import PIL AIAssetGenerator.

Lemma deterministic_lift {A} (r : result A) : deterministic (lift r).
Proof. now exists r. Qed.

Lemma deterministic_ret {A} (a : A) : deterministic (ret a).
Proof. now exists (Ok a). Qed.

Lemma deterministic_bind {A B} (m : M A) (k : A -> M B) :
  deterministic m -> (forall a, deterministic (k a)) ->
  deterministic (bind m k).
Proof.
  intros [r Hr] Hk. destruct r as [a|e].
  - destruct (Hk a) as [rb Hb]. exists rb. intros st.
    unfold bind. rewrite Hr. simpl. apply Hb.
  - exists (Raise e). intros st. unfold bind. now rewrite Hr.
Qed.

Lemma deterministic_for_each {A S} (xs : list A) (body : S -> A -> M S) :
  (forall s x, deterministic (body s x)) ->
  forall s, deterministic (for_each xs s body).
Proof.
  intros Hbody. induction xs as [|x xs IH]; intros s; simpl.
  - apply deterministic_ret.
  - apply deterministic_bind; [apply Hbody | exact IH].
Qed.

Lemma deterministic_icon draw width height colors style_config :
  deterministic (_generate_icon draw width height colors style_config).
Proof.
  unfold _generate_icon.
  repeat first [ apply deterministic_lift
               | apply deterministic_bind; [|intros ?] ].
Qed.

Lemma deterministic_background draw width height colors style_config :
  deterministic (_generate_background draw width height colors style_config).
Proof.
  unfold _generate_background. apply deterministic_for_each. intros s y.
  apply deterministic_bind; [apply deterministic_lift | intros ratio].
  apply deterministic_bind; [apply deterministic_lift | intros [[r1 g1] b1]].
  apply deterministic_bind; [apply deterministic_lift | intros [[r2 g2] b2]].
  repeat first [ apply deterministic_lift
               | apply deterministic_bind; [|intros ?] ].
Qed.

End RandomFacts.

(** C10. The texture and the sprite routine take their fill colours from the
    process-global random source: for a fixed prompt, category, style and
    size, two runs that find the source in different states can return
    images that differ in a pixel.  The icon and the background routine do
    not touch the source: for these two categories the outcome of
    procedural asset creation is a function of its arguments alone, and the
    source is left as it was. *)
Theorem random_source_use {R : PIL.Rasterizer} :
  (exists st1 st2 image1 image2 st1' st2',
      AIAssetGenerator._create_procedural_asset (Mem := roomy)
        "red blue" "texture" "pixel" 20 20 st1 = Ok (image1, st1') /\
      AIAssetGenerator._create_procedural_asset (Mem := roomy)
        "red blue" "texture" "pixel" 20 20 st2 = Ok (image2, st2') /\
      PIL.getpixel image1 0 0 <> PIL.getpixel image2 0 0) /\
  (exists st1 st2 image1 image2 st1' st2',
      AIAssetGenerator._create_procedural_asset (Mem := roomy)
        "red blue rectangle" "sprite" "pixel" 64 64 st1 = Ok (image1, st1') /\
      AIAssetGenerator._create_procedural_asset (Mem := roomy)
        "red blue rectangle" "sprite" "pixel" 64 64 st2 = Ok (image2, st2') /\
      PIL.getpixel image1 32 32 <> PIL.getpixel image2 32 32) /\
  (forall (Mem : PIL.Memory) prompt style width height,
      deterministic (AIAssetGenerator._create_procedural_asset
                       prompt "icon" style width height)) /\
  (forall (Mem : PIL.Memory) prompt style width height,
      deterministic (AIAssetGenerator._create_procedural_asset
                       prompt "background" style width height)).
Proof.
  split; [|split; [|split]].
  - exists (constant 0), (constant 1).
    do 4 eexists. split; [vm_compute; reflexivity|].
    split; [vm_compute; reflexivity|]. vm_compute. discriminate.
  - exists (constant 0), (constant 1).
    do 4 eexists. split; [vm_compute; reflexivity|].
    split; [vm_compute; reflexivity|]. vm_compute. discriminate.
  - intros Mem prompt style width height.
    unfold AIAssetGenerator._create_procedural_asset.
    apply RandomFacts.deterministic_bind;
      [apply RandomFacts.deterministic_lift | intros image].
    simpl. apply RandomFacts.deterministic_icon.
  - intros Mem prompt style width height.
    unfold AIAssetGenerator._create_procedural_asset.
    apply RandomFacts.deterministic_bind;
      [apply RandomFacts.deterministic_lift | intros image].
    simpl. apply RandomFacts.deterministic_background.
Qed.

(** ** Loops over the random source *)

Module LoopFacts.
Import PIL.

Lemma advance_advance (j k : nat) (st : RandomState) :
  advance j (advance k st) = advance (k + j) st.
Proof. unfold advance; simpl. f_equal. lia. Qed.

Lemma advance_0 (st : RandomState) : advance 0 st = st.
Proof. destruct st as [t c]. unfold advance; simpl. f_equal. lia. Qed.

(** On a non-empty sequence [random.choice] returns one of its elements and
    consumes one draw. *)
Lemma random_choice_picks {A} (seq : list A) (st : RandomState) (k : nat) :
  seq <> [] ->
  exists a, picked seq st k = Some a /\ In a seq /\
            random_choice seq (advance k st) = Ok (a, advance (S k) st).
Proof.
  intros Hne. unfold picked, random_choice, randbelow.
  assert (Hlen : (List.length seq <> 0)%nat) by (destruct seq; simpl; congruence).
  pose proof (Nat.mod_upper_bound (tape st (cursor st + k)) _ Hlen) as Hlt.
  destruct (nth_error seq (tape st (cursor st + k) mod List.length seq)%nat)
    as [a|] eqn:E.
  - exists a. split; [reflexivity|]. split; [eapply nth_error_In; eauto|].
    simpl. rewrite E. rewrite advance_advance. do 2 f_equal. f_equal. lia.
  - apply nth_error_None in E. lia.
Qed.

Lemma painted_with_nil (draw : Image) : painted_with draw [] = draw.
Proof. destruct draw. unfold painted_with; simpl. now rewrite app_nil_r. Qed.

Lemma painted_with_app (draw : Image) (a b : list draw_call) :
  painted_with (painted_with draw a) b = painted_with draw (a ++ b).
Proof. unfold painted_with; simpl. now rewrite app_assoc. Qed.

Lemma record_painted_with (draw : Image) (c : draw_call) :
  record draw c = painted_with draw [c].
Proof. reflexivity. Qed.

Lemma valid_centered_box (cx cy size : Z) :
  0 <= size -> valid_box (cx - size, cy - size, cx + size, cy + size) = true.
Proof.
  intros H. unfold valid_box. apply andb_true_iff. split; apply Z.leb_le; lia.
Qed.

End LoopFacts.

(** ** The sprite routine *)

Module SpriteFacts.
Import PIL AIAssetGenerator LoopFacts.

(** The loop of [_generate_sprite], entered at its [k]-th iteration. *)
Lemma sprite_loop (width height : Z) (colors : list Color) (st0 : RandomState) :
  colors <> [] ->
  forall (shapes : list string) (k : nat) (draw : Image),
    (forall j, (j < List.length shapes)%nat ->
               0 <= Z.min width height / 3 - 10 * Z.of_nat (k + j)) ->
    for_each shapes (draw, Z.min width height / 3 - 10 * Z.of_nat k)
      (fun (st : Image * Z) shape =>
         let '(draw, size) := st in
         color <- random_choice colors ;;
         let xy := (width / 2 - size, height / 2 - size,
                    width / 2 + size, height / 2 + size) in
         draw' <- (if String.eqb shape "circle"
                   then lift (draw_ellipse draw xy color None)
                   else if String.eqb shape "rectangle"
                   then lift (draw_rectangle draw xy color)
                   else ret draw) ;;
         ret (draw', size - 10))
      (advance k st0)
    = Ok ((painted_with draw (sprite_calls_from width height colors st0 k shapes),
           Z.min width height / 3 - 10 * Z.of_nat (k + List.length shapes)),
          advance (k + List.length shapes) st0).
Proof.
  intros Hne shapes. induction shapes as [|shape rest IH]; intros k draw Hsize.
  - simpl. unfold ret. now rewrite painted_with_nil, Nat.add_0_r.
  - cbn [for_each sprite_calls_from]. unfold bind at 1. unfold bind at 1.
    destruct (random_choice_picks colors st0 k Hne) as [a [Hpick [_ Hrun]]].
    rewrite Hrun. unfold sprite_call. rewrite Hpick.
    assert (H0 : 0 <= Z.min width height / 3 - 10 * Z.of_nat k).
    { specialize (Hsize 0%nat). rewrite Nat.add_0_r in Hsize.
      apply Hsize. simpl. lia. }
    assert (Hrest : forall j, (j < List.length rest)%nat ->
                0 <= Z.min width height / 3 - 10 * Z.of_nat (S k + j)).
    { intros j Hj. specialize (Hsize (S j)).
      replace (S k + j)%nat with (k + S j)%nat by lia. apply Hsize. simpl. lia. }
    replace (Z.min width height / 3 - 10 * Z.of_nat k - 10)
      with (Z.min width height / 3 - 10 * Z.of_nat (S k)) by lia.
    replace (k + List.length (shape :: rest))%nat
      with (S k + List.length rest)%nat by (simpl; lia).
    destruct (String.eqb shape "circle").
    + unfold bind, lift, draw_ellipse, ret.
      rewrite valid_centered_box by exact H0.
      rewrite record_painted_with.
      rewrite (IH (S k) _ Hrest). now rewrite painted_with_app.
    + destruct (String.eqb shape "rectangle").
      * unfold bind, lift, draw_rectangle, ret.
        rewrite valid_centered_box by exact H0.
        rewrite record_painted_with.
        rewrite (IH (S k) _ Hrest). now rewrite painted_with_app.
      * unfold bind, ret. now rewrite (IH (S k) _ Hrest).
Qed.

Lemma length_firstn_3 {A} (l : list A) :
  List.length (firstn 3 l) = Nat.min 3 (List.length l).
Proof. apply length_firstn. Qed.

End SpriteFacts.

(** C1 (as the code has it). For every non-empty palette, shape set and
    style adjustment, the sprite routine processes only the first 3 shapes.
    The [k]-th of them (k = 0, 1, 2) has half-extent
    [min(width, height) // 3 - 10 * k] around the centre; it paints a filled
    ellipse when its name is "circle", a filled square when its name is
    "rectangle", and nothing for any other name, which still consumes a
    draw and shrinks the next shape.  Every fill is the palette colour
    [random.choice] returns at that draw.  Shapes beyond the third are
    ignored.  The statement covers canvases on which every processed
    half-extent is non-negative. *)
Theorem sprite_paints_first_three
        (draw : PIL.Image) (width height : Z) (colors : list PIL.Color)
        (shapes : list string) (style_config : AIAssetGenerator.StyleConfig)
        (st : RandomState) :
  colors <> [] ->
  10 * (Z.of_nat (Nat.min 3 (List.length shapes)) - 1)
  <= Z.min width height / 3 ->
  AIAssetGenerator._generate_sprite draw width height colors shapes
                                    style_config st
  = Ok (painted_with draw (sprite_calls width height colors st shapes),
        advance (Nat.min 3 (List.length shapes)) st) /\
  (forall k, (k < Nat.min 3 (List.length shapes))%nat ->
             exists color, picked colors st k = Some color /\ In color colors) /\
  AIAssetGenerator._generate_sprite draw width height colors shapes
                                    style_config st
  = AIAssetGenerator._generate_sprite draw width height colors
                                      (firstn 3 shapes) style_config st.
Proof.
  intros Hne Hsize. split; [|split].
  - unfold AIAssetGenerator._generate_sprite, sprite_calls.
    cbv zeta. unfold bind at 1.
    pose proof (SpriteFacts.sprite_loop width height colors st Hne
                  (firstn 3 shapes) 0 draw) as Hloop.
    cbv zeta in Hloop. rewrite LoopFacts.advance_0 in Hloop.
    replace (Z.min width height / 3 - 10 * Z.of_nat 0)
      with (Z.min width height / 3) in Hloop by (simpl; lia).
    rewrite Hloop.
    + unfold ret. simpl fst. now rewrite SpriteFacts.length_firstn_3.
    + intros j Hj. rewrite SpriteFacts.length_firstn_3 in Hj.
      rewrite Nat.add_0_l. lia.
  - intros k _.
    destruct (LoopFacts.random_choice_picks colors st k Hne) as [a [Ha [Hin _]]].
    now exists a.
  - unfold AIAssetGenerator._generate_sprite. now rewrite firstn_firstn.
Qed.

Lemma sprite_paints_first_three_witness :
  AIAssetGenerator._generate_sprite
    (blank 64 64) 64 64 [ (255, 0, 0); (0, 0, 255) ]
    [ "circle"; "rectangle"; "star"; "diamond" ]
    AIAssetGenerator.realistic counting
  = Ok (painted_with (blank 64 64)
          (sprite_calls 64 64 [ (255, 0, 0); (0, 0, 255) ] counting
                        [ "circle"; "rectangle"; "star"; "diamond" ]),
        advance (Nat.min 3 (List.length
                   [ "circle"; "rectangle"; "star"; "diamond" ])) counting) /\
  (forall k, (k < Nat.min 3 (List.length
                               [ "circle"; "rectangle"; "star"; "diamond" ]))%nat ->
             exists color,
               picked [ (255, 0, 0); (0, 0, 255) ] counting k = Some color /\
               In color [ (255, 0, 0); (0, 0, 255) ]) /\
  AIAssetGenerator._generate_sprite
    (blank 64 64) 64 64 [ (255, 0, 0); (0, 0, 255) ]
    [ "circle"; "rectangle"; "star"; "diamond" ]
    AIAssetGenerator.realistic counting
  = AIAssetGenerator._generate_sprite
      (blank 64 64) 64 64 [ (255, 0, 0); (0, 0, 255) ]
      (firstn 3 [ "circle"; "rectangle"; "star"; "diamond" ])
      AIAssetGenerator.realistic counting.
Proof.
  apply (sprite_paints_first_three
           (blank 64 64) 64 64 [ (255, 0, 0); (0, 0, 255) ]
           [ "circle"; "rectangle"; "star"; "diamond" ]
           AIAssetGenerator.realistic counting).
  - discriminate.
  - vm_compute. discriminate.
Defined.

(** What the witness input paints: the ellipse of the circle at half-extent
    21, the square of the rectangle at half-extent 11, nothing for the star
    and nothing for the diamond beyond the third place. *)
Example sprite_four_shapes :
  sprite_calls 64 64 [ (255, 0, 0); (0, 0, 255) ] counting
               [ "circle"; "rectangle"; "star"; "diamond" ]
  = [ PIL.Ellipse (11, 11, 53, 53) (255, 0, 0) None;
      PIL.Rectangle (21, 21, 43, 43) (0, 0, 255) ].
Proof. reflexivity. Qed.

(** C1 as stated fails: a shape named "square" is processed but no filled
    square is painted for it; the canvas stays as it was. *)
Lemma sprite_square_paints_nothing :
  AIAssetGenerator._generate_sprite
    (blank 64 64) 64 64 [ (255, 0, 0) ] [ "square" ]
    AIAssetGenerator.realistic counting
  = Ok (blank 64 64, advance 1 counting) /\
  PIL.getpixel (R := lattice) (blank 64 64) 32 32 = Ok (255, 255, 255, 0).
Proof. split; reflexivity. Qed.

(** ** Nested loops *)

Module NestFacts.

Lemma bind_ext {A B} (m : M A) (k1 k2 : A -> M B) (st : RandomState) :
  (forall a st', k1 a st' = k2 a st') -> bind m k1 st = bind m k2 st.
Proof.
  intros H. unfold bind. destruct (m st) as [[a st']|e]; [apply H | reflexivity].
Qed.

Lemma for_each_ext {A S} (xs : list A) (body1 body2 : S -> A -> M S) :
  (forall s x st, body1 s x st = body2 s x st) ->
  forall s st, for_each xs s body1 st = for_each xs s body2 st.
Proof.
  intros H. induction xs as [|x xs IH]; intros s st; simpl; [reflexivity|].
  unfold bind. rewrite H. destruct (body2 s x st) as [[s' st']|e]; auto.
Qed.

Lemma for_each_app {A S} (xs ys : list A) (body : S -> A -> M S) :
  forall s st,
    for_each (xs ++ ys) s body st
    = bind (for_each xs s body) (fun s' => for_each ys s' body) st.
Proof.
  induction xs as [|x xs IH]; intros s st; simpl; [reflexivity|].
  unfold bind.
  destruct (body s x st) as [[s' st']|e]; [|reflexivity].
  rewrite IH. reflexivity.
Qed.

Lemma for_each_map {A B S} (f : A -> B) (xs : list A) (body : S -> B -> M S) :
  forall s st,
    for_each (map f xs) s body st = for_each xs s (fun s x => body s (f x)) st.
Proof.
  induction xs as [|x xs IH]; intros s st; simpl; [reflexivity|].
  apply bind_ext. intros; apply IH.
Qed.

(** Two nested [for] loops are one loop over the pairs, the outer index
    varying slowest. *)
Lemma for_each_nested {A B S} (xs : list A) (ys : list B)
      (body : S -> A * B -> M S) :
  forall s st,
    for_each xs s (fun s i => for_each ys s (fun s j => body s (i, j))) st
    = for_each (list_prod xs ys) s body st.
Proof.
  induction xs as [|x xs IH]; intros s st; simpl; [reflexivity|].
  rewrite for_each_app. unfold bind. rewrite for_each_map.
  destruct (for_each ys s (fun s j => body s (x, j)) st) as [[s' st']|e];
    [apply IH | reflexivity].
Qed.

Lemma length_py_range (stop step : Z) :
  Z.of_nat (List.length (py_range 0 stop step))
  = Z.max 0 ((stop - 0 + step - 1) / step).
Proof.
  unfold py_range. rewrite length_map, length_seq. lia.
Qed.

End NestFacts.

(** ** Channel arithmetic *)

Module ChannelFacts.
Import PIL PyFloat AIAssetGenerator.

Lemma channel_in_bytes (c : Z) : channel c -> In c bytes.
Proof.
  intros [Hlo Hhi]. unfold bytes. apply in_map_iff.
  exists (Z.to_nat c). split; [lia | apply in_seq; lia].
Qed.

Lemma preset_contrast (style_config : StyleConfig) :
  preset style_config -> In (contrast style_config) preset_contrasts.
Proof.
  intros [name Hin]. unfold preset_contrasts. apply in_map_iff.
  now exists (name, style_config).
Qed.

Lemma succeeds_ok {A} (r : result A) : succeeds r = true -> exists a, r = Ok a.
Proof. destruct r as [a|e]; [now exists a | discriminate]. Qed.

(** [int(c * contrast)] raises nothing on a channel of 0..255 for the
    contrast of any preset (checked on all 4 x 256 cases). *)
Lemma scale_channel_table :
  forallb (fun k => forallb (fun c => succeeds (scale_channel k c)) bytes)
          preset_contrasts = true.
Proof. vm_compute. reflexivity. Qed.

Lemma scale_channel_total (style_config : StyleConfig) (c : Z) :
  preset style_config -> channel c ->
  exists z, scale_channel (contrast style_config) c = Ok z.
Proof.
  intros Hp Hc. apply succeeds_ok.
  pose proof scale_channel_table as H.
  rewrite forallb_forall in H.
  specialize (H _ (preset_contrast _ Hp)).
  rewrite forallb_forall in H. apply H. now apply channel_in_bytes.
Qed.

Lemma scale_color_total (style_config : StyleConfig) (color : Color) :
  preset style_config -> rgb color ->
  exists m, scale_color (contrast style_config) color = Ok m.
Proof.
  intros Hp. destruct color as [[r g] b]. intros [Hr [Hg Hb]].
  destruct (scale_channel_total _ r Hp Hr) as [r' Er].
  destruct (scale_channel_total _ g Hp Hg) as [g' Eg].
  destruct (scale_channel_total _ b Hp Hb) as [b' Eb].
  exists (r', g', b'). unfold scale_color. now rewrite Er, Eg, Eb.
Qed.

(** The product is not clamped: full red under the "realistic" contrast 1.2
    becomes 306. *)
Example scale_channel_exceeds_255 :
  scale_channel (contrast realistic) 255 = Ok 306.
Proof. reflexivity. Qed.

End ChannelFacts.

(** ** The texture routine *)

Module TextureFacts.
Import PIL PyFloat AIAssetGenerator LoopFacts NestFacts ChannelFacts.

Lemma texture_as_one_loop draw width height colors style_config st :
  _generate_texture draw width height colors style_config st
  = for_each (texture_cells width height) draw
             (cell_body colors style_config) st.
Proof.
  exact (for_each_nested (py_range 0 width 20) (py_range 0 height 20)
                         (cell_body colors style_config) draw st).
Qed.

Lemma valid_cell_box (i j : Z) : valid_box (i, j, i + 15, j + 15) = true.
Proof. unfold valid_box. apply andb_true_iff. split; apply Z.leb_le; lia. Qed.

Lemma texture_loop (colors : list Color) (style_config : StyleConfig)
      (st0 : RandomState) :
  colors <> [] -> Forall rgb colors -> preset style_config ->
  forall (cells : list (Z * Z)) (k : nat) (draw : Image),
    for_each cells draw (cell_body colors style_config) (advance k st0)
    = Ok (painted_with draw
            (texture_calls_from colors (contrast style_config) st0 k cells),
          advance (k + List.length cells) st0).
Proof.
  intros Hne Hrgb Hp cells.
  induction cells as [|[i j] rest IH]; intros k draw.
  - simpl. unfold ret. now rewrite painted_with_nil, Nat.add_0_r.
  - cbn [for_each texture_calls_from]. unfold bind at 1. unfold cell_body at 1.
    unfold bind at 1.
    destruct (random_choice_picks colors st0 k Hne) as [a [Hpick [Hin Hrun]]].
    rewrite Hrun. unfold texture_call. rewrite Hpick.
    rewrite Forall_forall in Hrgb.
    destruct (scale_color_total style_config a Hp (Hrgb a Hin)) as [m Hm].
    rewrite Hm. unfold bind, lift, draw_rectangle.
    rewrite valid_cell_box, record_painted_with.
    rewrite (IH (S k)). rewrite painted_with_app.
    do 2 f_equal. f_equal. simpl. lia.
Qed.

Lemma texture_call_nth (colors : list Color) (style_config : StyleConfig)
      (st0 : RandomState) :
  colors <> [] -> Forall rgb colors -> preset style_config ->
  forall (cells : list (Z * Z)) (k0 k : nat) (cell : Z * Z),
    nth_error cells k = Some cell ->
    exists color modified_color,
      picked colors st0 (k0 + k) = Some color /\ In color colors /\
      scale_color (contrast style_config) color = Ok modified_color /\
      nth_error (texture_calls_from colors (contrast style_config) st0 k0 cells) k
      = Some (Rectangle (fst cell, snd cell, fst cell + 15, snd cell + 15)
                        modified_color).
Proof.
  intros Hne Hrgb Hp cells.
  induction cells as [|[i j] rest IH]; intros k0 k cell Hnth.
  - destruct k; discriminate.
  - destruct (random_choice_picks colors st0 k0 Hne) as [a [Hpick [Hin _]]].
    rewrite Forall_forall in Hrgb.
    destruct (scale_color_total style_config a Hp (Hrgb a Hin)) as [m Hm].
    cbn [texture_calls_from]. unfold texture_call. rewrite Hpick, Hm.
    destruct k as [|k]; simpl in Hnth.
    + injection Hnth as <-. exists a, m. rewrite Nat.add_0_r. now simpl.
    + rewrite <- Forall_forall in Hrgb.
      destruct (IH (S k0) k cell Hnth) as [c [m' [H1 [H2 [H3 H4]]]]].
      exists c, m'. replace (k0 + S k)%nat with (S k0 + k)%nat by lia.
      now simpl.
Qed.

Lemma length_texture_cells (width height : Z) :
  0 < width -> 0 < height ->
  Z.of_nat (List.length (texture_cells width height))
  = ceil_div20 width * ceil_div20 height.
Proof.
  intros Hw Hh. unfold texture_cells, ceil_div20.
  rewrite length_prod, Nat2Z.inj_mul, !length_py_range.
  assert (0 <= (width - 0 + 20 - 1) / 20) by (apply Z.div_pos; lia).
  assert (0 <= (height - 0 + 20 - 1) / 20) by (apply Z.div_pos; lia).
  rewrite !Z.max_r by lia.
  now replace (width - 0 + 20 - 1) with (width + 19) by lia;
      replace (height - 0 + 20 - 1) with (height + 19) by lia.
Qed.

End TextureFacts.

(** ** Rounding keeps small numbers finite *)

Module FloatFacts.
Import PyFloat.



























End FloatFacts.

(** ** The background routine *)

Module BackgroundFacts.
Import PIL PyFloat AIAssetGenerator FloatFacts LoopFacts.










Lemma in_py_range_1 (height y : Z) :
  In y (py_range 0 height 1) <-> 0 <= y < height.
Proof.
  unfold py_range. rewrite in_map_iff. split.
  - intros [k [<- Hk]]. apply in_seq in Hk.
    replace ((height - 0 + 1 - 1) / 1) with height in Hk
      by (rewrite Z.div_1_r; lia). lia.
  - intros Hy. exists (Z.to_nat y). split; [lia|]. apply in_seq.
    replace ((height - 0 + 1 - 1) / 1) with height by (rewrite Z.div_1_r; lia).
    lia.
Qed.



End BackgroundFacts.



(** The rows of the black-to-white gradient of height 100 named in the
    specification: black at the top, 127 in the middle, 252 at the bottom. *)
Example gradient_black_to_white :
  map (gradient_color (0, 0, 0) (255, 255, 255) 100) [ 0; 50; 99 ]
  = [ Ok (0, 0, 0); Ok (127, 127, 127); Ok (252, 252, 252) ].
Proof. reflexivity. Qed.


(** ** The colour palette summary *)

Module PaletteFacts.
Import PIL AIAssetGenerator.

Lemma insert_desc_perm (x : Z * Pixel) (l : list (Z * Pixel)) :
  Permutation (insert_desc x l) (x :: l).
Proof.
  induction l as [|y l IH]; simpl; [reflexivity|].
  destruct (fst y <=? fst x); [reflexivity|].
  rewrite IH. apply perm_swap.
Qed.

Lemma sorted_reverse_perm (l : list (Z * Pixel)) :
  Permutation (sorted_reverse l) l.
Proof.
  induction l as [|x l IH]; simpl; [reflexivity|].
  rewrite insert_desc_perm. now constructor.
Qed.

Lemma insert_desc_descending (x : Z * Pixel) (l : list (Z * Pixel)) :
  descending l -> descending (insert_desc x l).
Proof.
  unfold descending. induction l as [|y l IH]; intros Hs; simpl.
  - repeat constructor.
  - inversion Hs as [|? ? Hl Hy]; subst.
    destruct (Z.leb_spec (fst y) (fst x)) as [Hle|Hgt].
    + constructor; [exact Hs|]. constructor; [exact Hle|].
      rewrite Forall_forall in *. intros b Hb. specialize (Hy b Hb). lia.
    + constructor; [now apply IH|].
      rewrite Forall_forall in *. intros b Hb.
      apply (Permutation_in _ (insert_desc_perm x l)) in Hb.
      destruct Hb as [<-|Hb]; [lia | now apply Hy].
Qed.

Lemma sorted_reverse_descending (l : list (Z * Pixel)) :
  descending (sorted_reverse l).
Proof.
  induction l as [|x l IH]; simpl; [constructor|].
  now apply insert_desc_descending.
Qed.

Lemma descending_filter (f : Z * Pixel -> bool) (l : list (Z * Pixel)) :
  descending l -> descending (filter f l).
Proof.
  unfold descending. induction 1 as [|a l Hl IH Ha]; simpl; [constructor|].
  destruct (f a); [|exact IH]. constructor; [exact IH|].
  rewrite Forall_forall in *. intros b Hb. apply Ha.
  now apply filter_In in Hb.
Qed.

Lemma firstn_In {A} (n : nat) (l : list A) (x : A) :
  In x (firstn n l) -> In x l.
Proof.
  revert n; induction l as [|a l IH]; intros [|n]; simpl; try tauto.
  intros [H|H]; [now left | right; eauto].
Qed.

Lemma descending_firstn (n : nat) (l : list (Z * Pixel)) :
  descending l -> descending (firstn n l).
Proof.
  unfold descending. intros Hs. revert n.
  induction Hs as [|a l Hl IH Ha]; intros [|n]; simpl; try constructor.
  - apply IH.
  - rewrite Forall_forall in *. intros b Hb. apply Ha.
    eapply firstn_In; eauto.
Qed.

Lemma filter_length_perm {A} (f : A -> bool) (l l' : list A) :
  Permutation l l' ->
  List.length (filter f l) = List.length (filter f l').
Proof.
  induction 1 as [|x l l' _ IH|x y l|l l' l'' _ IH1 _ IH2]; simpl.
  - reflexivity.
  - destruct (f x); simpl; congruence.
  - destruct (f x), (f y); reflexivity.
  - congruence.
Qed.

(** An entry among the first [n] of a descending listing has fewer than
    [n] entries above it. *)
Lemma firstn_rank (l : list (Z * Pixel)) :
  descending l ->
  forall n e, In e (firstn n l) -> (more_frequent e l < n)%nat.
Proof.
  unfold descending, more_frequent.
  induction 1 as [|a l Hl IH Ha]; intros [|n] e Hin; simpl in *;
    try contradiction.
  destruct Hin as [<-|Hin].
  - rewrite Z.ltb_irrefl.
    replace (filter (fun e' => fst a <? fst e') l) with (@nil (Z * Pixel));
      [simpl; lia|].
    symmetry. clear IH Hl. induction l as [|b l IHl]; simpl; [reflexivity|].
    inversion Ha; subst.
    destruct (Z.ltb_spec (fst a) (fst b)); [lia | now apply IHl].
  - specialize (IH n e Hin).
    destruct (fst e <? fst a); simpl; lia.
Qed.

(** An entry of a descending listing that is not among the first [n] has
    more than [n] entries that are at least as frequent. *)
Lemma beyond_firstn_rank (l : list (Z * Pixel)) :
  descending l ->
  forall n e, In e l -> ~ In e (firstn n l) -> (n < as_frequent e l)%nat.
Proof.
  unfold descending, as_frequent.
  induction 1 as [|a l Hl IH Ha]; intros n e Hin Hout; simpl in *;
    [contradiction|].
  destruct n as [|n]; simpl in Hout.
  - destruct Hin as [<-|Hin].
    + rewrite Z.leb_refl. simpl. lia.
    + rewrite Forall_forall in Ha. specialize (Ha e Hin).
      destruct (Z.leb_spec (fst e) (fst a)); [simpl; lia | lia].
  - destruct Hin as [<-|Hin]; [exfalso; apply Hout; now left|].
    assert (Hout' : ~ In e (firstn n l)) by (intros H; apply Hout; now right).
    specialize (IH n e Hin Hout').
    rewrite Forall_forall in Ha. specialize (Ha e Hin).
    destruct (Z.leb_spec (fst e) (fst a)); [simpl; lia | lia].
Qed.

Lemma pixel_eqb_spec (p q : Pixel) : reflect (p = q) (pixel_eqb p q).
Proof.
  destruct p as [[[r1 g1] b1] a1], q as [[[r2 g2] b2] a2]. unfold pixel_eqb.
  destruct (Z.eqb_spec r1 r2), (Z.eqb_spec g1 g2), (Z.eqb_spec b1 b2),
           (Z.eqb_spec a1 a2); simpl; constructor; congruence.
Qed.

Lemma lookup_tally (p q : Pixel) (h : list (Z * Pixel)) :
  lookup q (tally p h)
  = if pixel_eqb p q then lookup q h + 1 else lookup q h.
Proof.
  induction h as [|[n r] h IH]; simpl.
  - destruct (pixel_eqb_spec q p), (pixel_eqb_spec p q); congruence.
  - destruct (pixel_eqb_spec p r) as [->|Hpr]; simpl.
    + destruct (pixel_eqb_spec q r) as [->|Hqr].
      * destruct (pixel_eqb_spec r r); congruence.
      * destruct (pixel_eqb_spec r q); congruence.
    + destruct (pixel_eqb_spec q r) as [->|Hqr]; [|exact IH].
      destruct (pixel_eqb_spec p r); congruence.
Qed.

Lemma keys_tally (p r : Pixel) (h : list (Z * Pixel)) :
  In r (map snd (tally p h)) -> r = p \/ In r (map snd h).
Proof.
  induction h as [|[n q] h IH]; simpl.
  - intros [<-|[]]. now left.
  - destruct (pixel_eqb_spec p q) as [->|_]; simpl; [tauto|].
    intros [<-|H]; [tauto|]. destruct (IH H); tauto.
Qed.

Lemma tally_well_formed (p : Pixel) (h : list (Z * Pixel)) :
  well_formed h -> well_formed (tally p h).
Proof.
  unfold well_formed. induction h as [|[n q] h IH]; simpl; intros [Hnd Hpos].
  - split; repeat constructor; auto.
  - inversion Hnd as [|? ? Hq Hnd']; inversion Hpos as [|? ? Hn Hpos']; subst.
    simpl in Hn. destruct (pixel_eqb_spec p q) as [->|Hpq]; simpl.
    + split; constructor; auto. simpl. lia.
    + destruct (IH (conj Hnd' Hpos')) as [IH1 IH2].
      split; constructor; auto.
      intros Hin. apply keys_tally in Hin. destruct Hin; congruence.
Qed.

Lemma lookup_In (h : list (Z * Pixel)) (n : Z) (p : Pixel) :
  NoDup (map snd h) -> In (n, p) h -> lookup p h = n.
Proof.
  induction h as [|[m q] h IH]; simpl; intros Hnd Hin; [contradiction|].
  inversion Hnd as [|? ? Hq Hnd']; subst.
  destruct Hin as [E|Hin].
  - injection E as -> ->. destruct (pixel_eqb_spec p p); congruence.
  - destruct (pixel_eqb_spec p q) as [->|_]; [|now apply IH].
    exfalso. apply Hq. apply in_map_iff. now exists (n, q).
Qed.

Lemma In_lookup (h : list (Z * Pixel)) (p : Pixel) :
  lookup p h <> 0 -> In (lookup p h, p) h.
Proof.
  induction h as [|[m q] h IH]; simpl; intros H; [congruence|].
  destruct (pixel_eqb_spec p q) as [->|_]; [now left | right; auto].
Qed.

Lemma lookup_fold (q : Pixel) (pxs : list Pixel) :
  forall h,
    lookup q (fold_left (fun h p => tally p h) pxs h)
    = lookup q h + Z.of_nat (List.length (filter (pixel_eqb q) pxs)).
Proof.
  induction pxs as [|p pxs IH]; intros h; simpl; [lia|].
  rewrite IH, lookup_tally.
  destruct (pixel_eqb_spec p q) as [->|Hpq].
  - destruct (pixel_eqb_spec q q); [simpl; lia | congruence].
  - destruct (pixel_eqb_spec q p); [congruence | lia].
Qed.

Lemma fold_well_formed (pxs : list Pixel) :
  forall h, well_formed h ->
            well_formed (fold_left (fun h p => tally p h) pxs h).
Proof.
  induction pxs as [|p pxs IH]; intros h Hh; simpl; [exact Hh|].
  apply IH. now apply tally_well_formed.
Qed.

(** [getcolors] lists each pixel value of the image once, with the number
    of pixels that have it. *)
Lemma getcolors_counts {R : Rasterizer} (im : Image) (maxcolors : Z)
      (l : list (Z * Pixel)) :
  getcolors im maxcolors = Some l ->
  forall n p, In (n, p) l <-> n = occurrences p im /\ 0 < n.
Proof.
  unfold getcolors, occurrences.
  set (h := fold_left (fun h p => tally p h) (pixels im) []).
  destruct (Z.of_nat (List.length h) >? maxcolors); [discriminate|].
  intros E; injection E as <-. intros n p.
  assert (Hwf : well_formed h).
  { apply fold_well_formed. split; constructor. }
  destruct Hwf as [Hnd Hpos].
  pose proof (lookup_fold p (pixels im) []) as Hl. simpl in Hl. fold h in Hl.
  split.
  - intros Hin. rewrite <- Hl, (lookup_In h n p Hnd Hin).
    split; [reflexivity|]. rewrite Forall_forall in Hpos.
    exact (Hpos _ Hin).
  - intros [-> Hn]. rewrite <- Hl in *. apply In_lookup. lia.
Qed.

End PaletteFacts.

(** What the summary reports of a non-empty listing, in whatever order the
    listing comes. *)
Lemma palette_of_listing (l : list (Z * PIL.Pixel)) :
  l <> [] ->
  exists entries,
    AIAssetGenerator.palette_of (Some l)
    = map AIAssetGenerator.hex_color entries /\
    descending entries /\
    (forall e, In e entries ->
               In e l /\ 0 < AIAssetGenerator.alpha e /\
               (more_frequent e l < 5)%nat) /\
    (forall e, In e l -> 0 < AIAssetGenerator.alpha e ->
               (as_frequent e l <= 5)%nat -> In e entries).
Proof.
  intros Hne.
  set (S := AIAssetGenerator.sorted_reverse l).
  pose proof (PaletteFacts.sorted_reverse_perm l) as Hperm.
  pose proof (PaletteFacts.sorted_reverse_descending l) as Hdesc.
  fold S in Hperm, Hdesc.
  exists (filter (fun entry => 0 <? AIAssetGenerator.alpha entry) (firstn 5 S)).
  split; [|split; [|split]].
  - destruct l; [congruence | reflexivity].
  - apply PaletteFacts.descending_filter.
    now apply PaletteFacts.descending_firstn.
  - intros e He. apply filter_In in He. destruct He as [He Ha].
    apply Z.ltb_lt in Ha. repeat split; [|exact Ha|].
    + apply (Permutation_in _ Hperm). eapply PaletteFacts.firstn_In; eauto.
    + unfold more_frequent.
      rewrite <- (PaletteFacts.filter_length_perm _ _ _ Hperm).
      now apply PaletteFacts.firstn_rank.
  - intros e He Ha Hrank. apply filter_In. split; [|now apply Z.ltb_lt].
    assert (Hdec : forall a b : Z * PIL.Pixel, {a = b} + {a <> b})
      by (repeat decide equality).
    destruct (in_dec Hdec e (firstn 5 S)) as [Hin|Hout]; [exact Hin|].
    exfalso.
    assert (HeS : In e S) by (apply (Permutation_in _ (Permutation_sym Hperm)), He).
    pose proof (PaletteFacts.beyond_firstn_rank S Hdesc 5 e HeS Hout) as H.
    unfold as_frequent in *.
    rewrite (PaletteFacts.filter_length_perm _ _ _ Hperm) in H. lia.
Qed.

(** C2 (as the code has it). For every finished image the summary is the
    body [palette_of] applied to the listing of [getcolors], and it has at
    most 5 entries.  The listing holds each pixel value of the image once,
    with the number of pixels that have it; in whatever order it comes, the
    summary is the hexadecimal RGB strings of those entries with alpha above
    0 that are among the first 5 of the listing sorted by descending count:
    fully transparent values take part in the selection of the 5 and are
    dropped after it.  The entries reported are in order of descending
    count; an entry reported has fewer than 5 entries above it, and an
    opaque entry with at most 5 entries at or above it is reported.  The
    summary is ["#000000"] when [getcolors] has nothing to list. *)
Theorem extract_color_palette_reports {R : PIL.Rasterizer} (image : PIL.Image) :
  AIAssetGenerator._extract_color_palette image
  = AIAssetGenerator.palette_of (PIL.getcolors image (256 * 256 * 256)) /\
  (List.length (AIAssetGenerator._extract_color_palette image) <= 5)%nat /\
  (forall listed,
      PIL.getcolors image (256 * 256 * 256) = Some listed -> listed <> [] ->
      forall l,
        Permutation listed l ->
        (forall n p, In (n, p) l <-> n = occurrences p image /\ 0 < n) /\
        exists entries,
          AIAssetGenerator.palette_of (Some l)
          = map AIAssetGenerator.hex_color entries /\
          (List.length entries <= 5)%nat /\
          descending entries /\
          (forall e, In e entries ->
                     In e l /\ 0 < AIAssetGenerator.alpha e /\
                     (more_frequent e l < 5)%nat) /\
          (forall e, In e l -> 0 < AIAssetGenerator.alpha e ->
                     (as_frequent e l <= 5)%nat -> In e entries)) /\
  (PIL.getcolors image (256 * 256 * 256) = None \/
   PIL.getcolors image (256 * 256 * 256) = Some [] ->
   AIAssetGenerator._extract_color_palette image = [ "#000000" ]).
Proof.
  unfold AIAssetGenerator._extract_color_palette.
  split; [reflexivity|]. split; [|split].
  - destruct (PIL.getcolors image (256 * 256 * 256)) as [[|e l]|];
      [simpl; lia | | simpl; lia].
    cbv beta iota zeta delta [AIAssetGenerator.palette_of].
    rewrite length_map.
    etransitivity; [apply filter_length_le|]. apply firstn_le_length.
  - intros listed Hl Hne l Hperm. split.
    + intros n p.
      rewrite <- (PaletteFacts.getcolors_counts image _ listed Hl n p).
      split; apply Permutation_in; [now symmetry | exact Hperm].
    + assert (Hne' : l <> []).
      { intros ->. apply Permutation_sym, Permutation_nil in Hperm.
        contradiction. }
      destruct (palette_of_listing l Hne') as [entries [H1 [H2 [H3 H4]]]].
      exists entries. repeat split; try assumption.
      * apply (f_equal (@List.length string)) in H1.
        rewrite length_map in H1. rewrite <- H1.
        destruct l; [congruence|].
        cbv beta iota zeta delta [AIAssetGenerator.palette_of].
        rewrite length_map.
        etransitivity; [apply filter_length_le|]. apply firstn_le_length.
      * now apply H3.
      * now apply H3.
      * now apply H3.
  - intros [-> | ->]; reflexivity.
Qed.

(** C2 as stated fails twice.  A 2 x 2 image all of whose pixels are
    transparent is summarized as the empty list, not as ["#000000"].  And on
    a 6 x 6 canvas with 21 transparent pixels and five colours on 5, 4, 3, 2
    and 1 pixels, the transparent value takes one of the five places: the
    summary has four entries and omits the fifth colour. *)
Lemma palette_filters_after_top_five :
  AIAssetGenerator._extract_color_palette (R := lattice) (blank 2 2) = [] /\
  AIAssetGenerator._extract_color_palette (R := lattice)
    (painted_with (blank 6 6)
       [ PIL.Rectangle (0, 0, 4, 0) (10, 0, 0);
         PIL.Rectangle (0, 1, 3, 1) (20, 0, 0);
         PIL.Rectangle (0, 2, 2, 2) (30, 0, 0);
         PIL.Rectangle (0, 3, 1, 3) (40, 0, 0);
         PIL.Rectangle (0, 4, 0, 4) (50, 0, 0) ])
  = [ "#0a0000"; "#140000"; "#1e0000"; "#280000" ].
Proof. split; vm_compute; reflexivity. Qed.

(** ** Exceptions *)

Module TotalFacts.
Import PIL AIAssetGenerator LoopFacts.


(** On a 16 x 16 canvas the second shape of the sprite routine has
    half-extent 5 - 10 = -5: its box (13, 13, 3, 3) is rejected, whatever
    the palette and the state of the random source. *)
Lemma sprite_second_shape_rejected (draw : Image) (colors : list Color)
      (style_config : StyleConfig) (st : RandomState) :
  colors <> [] ->
  _generate_sprite draw 16 16 colors [ "circle"; "rectangle" ] style_config st
  = Raise ValueError.
Proof.
  intros Hne. unfold _generate_sprite. cbv zeta. simpl firstn.
  cbn [for_each]. unfold bind.
  destruct (random_choice_picks colors st 0 Hne) as [a [_ [_ H0]]].
  rewrite advance_0 in H0. rewrite H0.
  destruct (random_choice_picks colors st 1 Hne) as [b [_ [_ H1]]].
  simpl. rewrite H1. reflexivity.
Qed.

(** The palette extracted from a prompt is never empty and holds RGB
    triples only. *)
Lemma prompt_colors_nonempty (prompt : string) :
  _analyze_prompt_colors prompt <> [].
Proof.
  unfold _analyze_prompt_colors.
  destruct (fold_left _ color_keywords []); discriminate.
Qed.

Lemma table_colors_rgb : Forall rgb (map snd color_keywords).
Proof. repeat constructor; unfold channel; lia. Qed.

Lemma prompt_colors_rgb (prompt : string) :
  Forall rgb (_analyze_prompt_colors prompt).
Proof.
  unfold _analyze_prompt_colors.
  rewrite (PromptFacts.found_colors_loop
             (fun name => Str.contains name (Str.lower prompt))).
  rewrite app_nil_l.
  destruct (map snd (filter (fun e : string * Color =>
                                Str.contains (fst e) (Str.lower prompt))
                            color_keywords)) as [|c l] eqn:E.
  - repeat constructor; unfold channel; lia.
  - rewrite <- E. rewrite Forall_forall. intros color Hin.
    apply in_map_iff in Hin. destruct Hin as [entry [<- Hin]].
    apply filter_In in Hin. destruct Hin as [Hin _].
    pose proof table_colors_rgb as H. rewrite Forall_forall in H.
    apply H. now apply in_map.
Qed.




End TotalFacts.

(** C7, at the input on which the code departs from it: the prompt names a
    circle and a rectangle, the canvas is 16 x 16, and the sprite routine
    raises [ValueError]. *)
Theorem sprite_raises_on_small_canvas :
  AIAssetGenerator._analyze_prompt_shapes "circle rectangle"
  = [ "circle"; "rectangle" ] /\
  AIAssetGenerator._create_procedural_asset (Mem := roomy)
    "circle rectangle" "sprite" "realistic" 16 16 counting
  = Raise ValueError.
Proof. split; reflexivity. Qed.

(** ** The pixels of a texture *)

Module TexturePixels.
Import PIL PyFloat AIAssetGenerator LoopFacts ChannelFacts.

Lemma rectangles_miss {R : Rasterizer} (x y : Z) (calls : list draw_call) :
  (forall c, In c calls ->
             exists xy m, c = Rectangle xy m /\ in_rectangle xy x y = false) ->
  forall px, fold_left (fun px c => paint px c x y) calls px = px.
Proof.
  induction calls as [|c calls IH]; intros Hall px; simpl; [reflexivity|].
  destruct (Hall c (or_introl eq_refl)) as [xy [m [-> Hout]]].
  simpl. rewrite Hout. apply IH. intros c' Hc'. apply Hall. now right.
Qed.

Lemma texture_calls_from_app colors k_contrast st (a b : list (Z * Z)) :
  forall k,
    texture_calls_from colors k_contrast st k (a ++ b)
    = texture_calls_from colors k_contrast st k a
      ++ texture_calls_from colors k_contrast st (k + List.length a) b.
Proof.
  induction a as [|cell a IH]; intros k; simpl.
  - now rewrite Nat.add_0_r.
  - rewrite IH, <- app_assoc. do 3 f_equal. lia.
Qed.

Lemma texture_calls_shape colors k_contrast st (cells : list (Z * Z)) :
  forall k c,
    In c (texture_calls_from colors k_contrast st k cells) ->
    exists i j m, In (i, j) cells /\ c = Rectangle (i, j, i + 15, j + 15) m.
Proof.
  induction cells as [|[i j] cells IH]; intros k c Hin; simpl in Hin;
    [contradiction|].
  apply in_app_or in Hin. destruct Hin as [Hin|Hin].
  - unfold texture_call in Hin.
    destruct (picked colors st k) as [color|]; [|contradiction].
    destruct (scale_color k_contrast color) as [m|]; [|contradiction].
    destruct Hin as [<-|[]]. exists i, j, m. split; [now left | reflexivity].
  - destruct (IH _ _ Hin) as [i' [j' [m [H1 H2]]]].
    exists i', j', m. split; [now right | exact H2].
Qed.

Lemma texture_call_one colors style_config st (k : nat) (i j : Z) :
  colors <> [] -> Forall rgb colors -> preset style_config ->
  exists color m,
    picked colors st k = Some color /\ In color colors /\
    scale_color (contrast style_config) color = Ok m /\
    texture_call colors (contrast style_config) st k (i, j)
    = [ Rectangle (i, j, i + 15, j + 15) m ].
Proof.
  intros Hne Hrgb Hp.
  destruct (random_choice_picks colors st k Hne) as [a [Hpick [Hin _]]].
  rewrite Forall_forall in Hrgb.
  destruct (scale_color_total style_config a Hp (Hrgb a Hin)) as [m Hm].
  exists a, m. unfold texture_call. now rewrite Hpick, Hm.
Qed.

Lemma in_py_range_20 (stop i : Z) :
  In i (py_range 0 stop 20) <-> i mod 20 = 0 /\ 0 <= i < stop.
Proof.
  unfold py_range. rewrite in_map_iff. split.
  - intros [k [<- Hk]]. apply in_seq in Hk.
    destruct Hk as [_ Hk]. simpl in Hk.
    assert (Hlt : Z.of_nat k < (stop - 0 + 20 - 1) / 20) by lia.
    clear Hk. Z.to_euclidean_division_equations. lia.
  - intros [Hm [H0 H1]]. exists (Z.to_nat (i / 20)). split.
    + rewrite Z2Nat.id by (apply Z.div_pos; lia).
      Z.to_euclidean_division_equations. lia.
    + apply in_seq. split; [lia|]. simpl.
      apply Z2Nat.inj_lt; [apply Z.div_pos; lia | apply Z.div_pos; lia |].
      Z.to_euclidean_division_equations. lia.
Qed.

Lemma in_texture_cells (width height i j : Z) :
  In (i, j) (texture_cells width height) <->
  (i mod 20 = 0 /\ 0 <= i < width) /\ (j mod 20 = 0 /\ 0 <= j < height).
Proof.
  unfold texture_cells. now rewrite in_prod_iff, !in_py_range_20.
Qed.

Lemma in_split_last (cell : Z * Z) (cells : list (Z * Z)) :
  In cell cells ->
  exists before after, cells = before ++ cell :: after /\ ~ In cell after.
Proof.
  assert (Hdec : forall a b : Z * Z, {a = b} + {a <> b})
    by (repeat decide equality).
  induction cells as [|c cells IH]; intros Hin; [contradiction|].
  destruct (in_dec Hdec cell cells) as [Hlater|Hnot].
  - destruct (IH Hlater) as [before [after [-> Hafter]]].
    now exists (c :: before), after.
  - destruct Hin as [->|Hin]; [|contradiction].
    now exists [], cells.
Qed.

(** A box that covers [(x, y)] sits at the corner of the cell of [(x, y)]. *)
Lemma covering_cell (i j x y : Z) :
  i mod 20 = 0 -> j mod 20 = 0 ->
  in_rectangle (i, j, i + 15, j + 15) x y = true ->
  i = 20 * (x / 20) /\ j = 20 * (y / 20) /\ x mod 20 <= 15 /\ y mod 20 <= 15.
Proof.
  intros Hi Hj Hin. unfold in_rectangle in Hin.
  rewrite !andb_true_iff, !Z.leb_le in Hin.
  Z.to_euclidean_division_equations. lia.
Qed.

(** A pixel outside every block keeps its value. *)
Lemma texture_gutter {R : Rasterizer} (draw : Image) (width height : Z)
      colors style_config st (x y : Z) :
  15 < x mod 20 \/ 15 < y mod 20 ->
  pixel_at (painted_with draw
              (texture_calls width height colors style_config st)) x y
  = pixel_at draw x y.
Proof.
  intros Hgut. unfold pixel_at, painted_with. simpl.
  rewrite fold_left_app. apply rectangles_miss. intros c Hc.
  destruct (texture_calls_shape _ _ _ _ _ _ Hc) as [i [j [m [Hcell ->]]]].
  exists (i, j, i + 15, j + 15), m. split; [reflexivity|].
  apply in_texture_cells in Hcell. destruct Hcell as [[Hi _] [Hj _]].
  destruct (in_rectangle (i, j, i + 15, j + 15) x y) eqn:E; [|reflexivity].
  destruct (covering_cell i j x y Hi Hj E) as [_ [_ [Hx Hy]]]. lia.
Qed.

(** A pixel inside a block carries the fill of its cell. *)
Lemma texture_block {R : Rasterizer} (draw : Image) (width height : Z)
      colors style_config st (x y : Z) :
  colors <> [] -> Forall rgb colors -> preset style_config ->
  0 <= x < width -> 0 <= y < height ->
  x mod 20 <= 15 -> y mod 20 <= 15 ->
  exists k color m,
    nth_error (texture_cells width height) k
    = Some (20 * (x / 20), 20 * (y / 20)) /\
    picked colors st k = Some color /\ In color colors /\
    scale_color (contrast style_config) color = Ok m /\
    pixel_at (painted_with draw
                (texture_calls width height colors style_config st)) x y
    = ink m.
Proof.
  intros Hne Hrgb Hp Hx Hy Hxm Hym.
  set (i := 20 * (x / 20)). set (j := 20 * (y / 20)).
  assert (Hi : i mod 20 = 0 /\ 0 <= i < width)
    by (unfold i; Z.to_euclidean_division_equations; lia).
  assert (Hj : j mod 20 = 0 /\ 0 <= j < height)
    by (unfold j; Z.to_euclidean_division_equations; lia).
  assert (Hcell : In (i, j) (texture_cells width height))
    by (apply in_texture_cells; now split).
  destruct (in_split_last _ _ Hcell) as [before [after [Hsplit Hlast]]].
  set (k := List.length before).
  destruct (texture_call_one colors style_config st k i j Hne Hrgb Hp)
    as [color [m [Hpick [Hin [Hm Hcall]]]]].
  exists k, color, m. repeat split; try assumption.
  - rewrite Hsplit. unfold k.
    rewrite nth_error_app2 by lia. now rewrite Nat.sub_diag.
  - unfold pixel_at, painted_with, texture_calls. simpl.
    rewrite Hsplit, texture_calls_from_app. cbn [texture_calls_from].
    fold k. rewrite Nat.add_0_l, Hcall.
    rewrite !fold_left_app. cbn [fold_left app].
    rewrite rectangles_miss.
    + simpl. unfold in_rectangle.
      replace ((i <=? x) && (x <=? i + 15) && (j <=? y) && (y <=? j + 15))
        with true; [reflexivity|].
      symmetry. rewrite !andb_true_iff, !Z.leb_le.
      unfold i, j. Z.to_euclidean_division_equations. lia.
    + intros c Hc.
      destruct (texture_calls_shape _ _ _ _ _ _ Hc) as [i' [j' [m' [Hc' ->]]]].
      exists (i', j', i' + 15, j' + 15), m'. split; [reflexivity|].
      assert (Hin' : In (i', j') (texture_cells width height))
        by (rewrite Hsplit; apply in_or_app; right; now right).
      apply in_texture_cells in Hin'. destruct Hin' as [[Hi' _] [Hj' _]].
      destruct (in_rectangle (i', j', i' + 15, j' + 15) x y) eqn:E;
        [|reflexivity].
      destruct (covering_cell i' j' x y Hi' Hj' E) as [Ei [Ej _]].
      exfalso. apply Hlast. fold i in Ei. fold j in Ej. now subst.
Qed.

End TexturePixels.

(** ** The fill of a texture, in the integers *)

Module TileFacts.
Import PIL PyFloat AIAssetGenerator ChannelFacts.

(** A preset and its contrast in tenths. *)
Lemma preset_tenths (name : string) (style_config : StyleConfig) (tenths : Z) :
  In (name, style_config) style_presets -> In (name, tenths) contrast_tenths ->
  contrast style_config = literal tenths 10 /\ In tenths [ 12; 8; 10; 11 ].
Proof.
  unfold style_presets, contrast_tenths. simpl.
  intros [H|[H|[H|[H|[]]]]] [H'|[H'|[H'|[H'|[]]]]];
    injection H as <- <-;
    first [ discriminate H'
          | injection H' as <-; split; [reflexivity | simpl; tauto] ].
Qed.

(** [int(c * contrast)] is [c * tenths / 10] rounded down, on every channel
    of 0..255 and for each of the four contrasts (checked on all 4 x 256
    cases). *)
Lemma scale_channel_tenths_table :
  forallb (fun tenths =>
             forallb (fun c =>
                        match scale_channel (literal tenths 10) c with
                        | Ok z => z =? c * tenths / 10
                        | Raise _ => false
                        end) bytes)
          [ 12; 8; 10; 11 ] = true.
Proof. vm_compute. reflexivity. Qed.

Lemma scale_channel_tenths (tenths c : Z) :
  In tenths [ 12; 8; 10; 11 ] -> channel c ->
  scale_channel (literal tenths 10) c = Ok (c * tenths / 10).
Proof.
  intros Ht Hc. pose proof scale_channel_tenths_table as H.
  rewrite forallb_forall in H. specialize (H _ Ht).
  rewrite forallb_forall in H. specialize (H _ (channel_in_bytes _ Hc)).
  destruct (scale_channel (literal tenths 10) c) as [z|e]; [|discriminate].
  apply Z.eqb_eq in H. now subst.
Qed.

Lemma scale_color_tenths (tenths : Z) (color : Color) :
  In tenths [ 12; 8; 10; 11 ] -> rgb color ->
  scale_color (literal tenths 10) color = Ok (scaled tenths color).
Proof.
  intros Ht. destruct color as [[r g] b]. intros [Hr [Hg Hb]].
  unfold scale_color, scaled.
  now rewrite !scale_channel_tenths by assumption.
Qed.

(** The rectangles the routine paints are those of the claim. *)
Lemma texture_calls_tiles (colors : list Color) (tenths : Z)
      (st : RandomState) :
  In tenths [ 12; 8; 10; 11 ] -> Forall rgb colors ->
  forall (cells : list (Z * Z)) (k : nat),
    texture_calls_from colors (literal tenths 10) st k cells
    = tiles_from colors tenths st k cells.
Proof.
  intros Ht Hrgb cells.
  induction cells as [|[x y] rest IH]; intros k; [reflexivity|].
  cbn [texture_calls_from tiles_from]. rewrite IH. f_equal.
  unfold texture_call. destruct (picked colors st k) as [color|] eqn:E;
    [|reflexivity].
  rewrite scale_color_tenths; [reflexivity | exact Ht |].
  rewrite Forall_forall in Hrgb. apply Hrgb.
  unfold picked in E. now apply nth_error_In in E.
Qed.

End TileFacts.

(** C4 (as the code has it). For every non-empty palette of RGB triples,
    every style adjustment of the preset table, its contrast being
    [tenths / 10] (1.2, 0.8, 1.0 or 1.1), and positive width and height,
    the texture routine raises nothing and paints one rectangle per cell of
    the grid of ceil(width/20) x ceil(height/20) cells of 20 x 20 pixels,
    the outer loop running over x and the inner one over y.  The cell at
    (x, y) gets the box (x, y, x + 15, y + 15), both corners included: a
    pixel of the canvas is painted exactly when its offsets in its cell are
    both at most 15, which makes a block of 16 x 16 pixels where it fits the
    canvas and leaves a gutter of 4.  The fill of the [k]-th cell is the
    palette colour of the [k]-th draw with each channel [c] multiplied by
    the contrast and truncated to an integer, which is [c * tenths / 10]
    rounded down; the routine does not clamp it to 255, so that 255 at
    contrast 1.2 is handed on as 306. *)
Theorem texture_paints_cells {R : PIL.Rasterizer}
        (draw : PIL.Image) (width height : Z) (colors : list PIL.Color)
        (name : string) (style_config : AIAssetGenerator.StyleConfig)
        (tenths : Z) (st : RandomState) :
  0 < width -> 0 < height ->
  colors <> [] -> Forall rgb colors ->
  In (name, style_config) AIAssetGenerator.style_presets ->
  In (name, tenths) contrast_tenths ->
  AIAssetGenerator._generate_texture draw width height colors style_config st
  = Ok (painted_with draw (tiles width height colors tenths st),
        advance (List.length (texture_cells width height)) st) /\
  texture_cells width height
  = list_prod (py_range 0 width 20) (py_range 0 height 20) /\
  Z.of_nat (List.length (texture_cells width height))
  = ceil_div20 width * ceil_div20 height /\
  (forall k cell,
      nth_error (texture_cells width height) k = Some cell ->
      exists color,
        picked colors st k = Some color /\ In color colors /\
        nth_error (tiles width height colors tenths st) k
        = Some (PIL.Rectangle
                  (fst cell, snd cell, fst cell + 15, snd cell + 15)
                  (scaled tenths color))) /\
  (forall x y,
      0 <= x < width -> 0 <= y < height ->
      (x mod 20 <= 15 /\ y mod 20 <= 15 ->
       exists k color,
         nth_error (texture_cells width height) k
         = Some (20 * (x / 20), 20 * (y / 20)) /\
         picked colors st k = Some color /\ In color colors /\
         PIL.pixel_at
           (painted_with draw (tiles width height colors tenths st)) x y
         = PIL.ink (scaled tenths color)) /\
      (15 < x mod 20 \/ 15 < y mod 20 ->
       PIL.pixel_at
         (painted_with draw (tiles width height colors tenths st)) x y
       = PIL.pixel_at draw x y)) /\
  scaled 12 (255, 0, 0) = (306, 0, 0).
Proof.
  intros Hw Hh Hne Hrgb Hname Htenths.
  assert (Hp : preset style_config) by (now exists name).
  destruct (TileFacts.preset_tenths _ _ _ Hname Htenths) as [Hk Ht].
  assert (Hcalls : texture_calls width height colors style_config st
                   = tiles width height colors tenths st).
  { unfold texture_calls, tiles. rewrite Hk.
    now apply TileFacts.texture_calls_tiles. }
  assert (Hfill : forall color modified_color,
             In color colors ->
             AIAssetGenerator.scale_color
               (AIAssetGenerator.contrast style_config) color
             = Ok modified_color ->
             modified_color = scaled tenths color).
  { intros color m Hin Hm. rewrite Hk in Hm.
    rewrite TileFacts.scale_color_tenths in Hm.
    - now injection Hm as <-.
    - exact Ht.
    - rewrite Forall_forall in Hrgb. now apply Hrgb. }
  rewrite <- Hcalls.
  split; [|split; [|split; [|split; [|split; [|reflexivity]]]]].
  - rewrite TextureFacts.texture_as_one_loop.
    pose proof (TextureFacts.texture_loop colors style_config st Hne Hrgb Hp
                  (texture_cells width height) 0 draw) as H.
    now rewrite LoopFacts.advance_0 in H.
  - reflexivity.
  - now apply TextureFacts.length_texture_cells.
  - intros k cell Hnth.
    destruct (TextureFacts.texture_call_nth colors style_config st Hne Hrgb Hp
                (texture_cells width height) 0 k cell Hnth)
      as [color [m [Hpick [Hin [Hm Hcall]]]]].
    exists color. rewrite <- (Hfill color m Hin Hm). now repeat split.
  - intros x y Hx Hy. split.
    + intros [Hxm Hym].
      destruct (TexturePixels.texture_block draw width height colors
                  style_config st x y Hne Hrgb Hp Hx Hy Hxm Hym)
        as [k [color [m [Hnth [Hpick [Hin [Hm Hpx]]]]]]].
      exists k, color. rewrite <- (Hfill color m Hin Hm). now repeat split.
    + intros Hgut. now apply TexturePixels.texture_gutter.
Qed.

Lemma texture_paints_cells_witness :
  AIAssetGenerator._generate_texture
    (blank 45 30) 45 30 [ (255, 0, 0); (0, 0, 255) ]
    AIAssetGenerator.realistic counting
  = Ok (painted_with (blank 45 30)
          (tiles 45 30 [ (255, 0, 0); (0, 0, 255) ] 12 counting),
        advance (List.length (texture_cells 45 30)) counting) /\
  texture_cells 45 30 = list_prod (py_range 0 45 20) (py_range 0 30 20) /\
  Z.of_nat (List.length (texture_cells 45 30))
  = ceil_div20 45 * ceil_div20 30 /\
  (forall k cell,
      nth_error (texture_cells 45 30) k = Some cell ->
      exists color,
        picked [ (255, 0, 0); (0, 0, 255) ] counting k = Some color /\
        In color [ (255, 0, 0); (0, 0, 255) ] /\
        nth_error (tiles 45 30 [ (255, 0, 0); (0, 0, 255) ] 12 counting) k
        = Some (PIL.Rectangle
                  (fst cell, snd cell, fst cell + 15, snd cell + 15)
                  (scaled 12 color))) /\
  (forall x y,
      0 <= x < 45 -> 0 <= y < 30 ->
      (x mod 20 <= 15 /\ y mod 20 <= 15 ->
       exists k color,
         nth_error (texture_cells 45 30) k
         = Some (20 * (x / 20), 20 * (y / 20)) /\
         picked [ (255, 0, 0); (0, 0, 255) ] counting k = Some color /\
         In color [ (255, 0, 0); (0, 0, 255) ] /\
         PIL.pixel_at (R := lattice)
           (painted_with (blank 45 30)
              (tiles 45 30 [ (255, 0, 0); (0, 0, 255) ] 12 counting)) x y
         = PIL.ink (scaled 12 color)) /\
      (15 < x mod 20 \/ 15 < y mod 20 ->
       PIL.pixel_at (R := lattice)
         (painted_with (blank 45 30)
            (tiles 45 30 [ (255, 0, 0); (0, 0, 255) ] 12 counting)) x y
       = PIL.pixel_at (R := lattice) (blank 45 30) x y)) /\
  scaled 12 (255, 0, 0) = (306, 0, 0).
Proof.
  apply (@texture_paints_cells lattice
           (blank 45 30) 45 30 [ (255, 0, 0); (0, 0, 255) ]
           "realistic" AIAssetGenerator.realistic 12 counting).
  - lia.
  - lia.
  - discriminate.
  - repeat constructor; unfold channel; lia.
  - now left.
  - now left.
Defined.

(** What the witness input paints: six cells, x outermost, the fills
    alternating with the draws and not clamped. *)
Example texture_45_by_30 :
  tiles 45 30 [ (255, 0, 0); (0, 0, 255) ] 12 counting
  = [ PIL.Rectangle (0, 0, 15, 15) (306, 0, 0);
      PIL.Rectangle (0, 20, 15, 35) (0, 0, 306);
      PIL.Rectangle (20, 0, 35, 15) (306, 0, 0);
      PIL.Rectangle (20, 20, 35, 35) (0, 0, 306);
      PIL.Rectangle (40, 0, 55, 15) (306, 0, 0);
      PIL.Rectangle (40, 20, 55, 35) (0, 0, 306) ].
Proof. reflexivity. Qed.

(** C4 as stated fails.  On a 20 x 20 canvas the one cell paints 256
    pixels, not 15 x 15 = 225; on a 10 x 10 canvas it paints all 100
    pixels. *)
Lemma texture_block_is_not_15_by_15 :
  (exists image st',
      AIAssetGenerator._create_procedural_asset (Mem := roomy)
        "red" "texture" "pixel" 20 20 counting = Ok (image, st') /\
      opaque_count (R := lattice) image = 256%nat) /\
  (exists image st',
      AIAssetGenerator._create_procedural_asset (Mem := roomy)
        "red" "texture" "pixel" 10 10 counting = Ok (image, st') /\
      opaque_count (R := lattice) image = 100%nat).
Proof.
  split.
  - do 2 eexists. split; [vm_compute; reflexivity | vm_compute; reflexivity].
  - do 2 eexists. split; [vm_compute; reflexivity | vm_compute; reflexivity].
Qed.

(** * Further properties *)

(** ** Prompt analysis, continued *)

Module ShapeFacts.
Import Str StrFacts AIAssetGenerator.

Lemma keep_by_filter (P : string -> Prop) (f : string -> bool)
      (names : list string) :
  (forall name, f name = true <-> P name) ->
  keep_by P names (filter f names).
Proof.
  intros Hf. induction names as [|name names IH]; simpl; [constructor|].
  destruct (f name) eqn:E.
  - constructor; [now apply Hf | exact IH].
  - constructor; [|exact IH]. intros HP. apply Hf in HP. congruence.
Qed.

Lemma keep_by_unique (P : string -> Prop) (names a b : list string) :
  keep_by P names a -> keep_by P names b -> a = b.
Proof.
  intros Ha; revert b.
  induction Ha as [|n ns k Hn _ IH|n ns k Hn _ IH]; intros b Hb;
    inversion Hb; subst; try contradiction; auto.
  f_equal; auto.
Qed.

Lemma NoDup_filter {A} (f : A -> bool) (l : list A) :
  NoDup l -> NoDup (filter f l).
Proof.
  induction 1 as [|a l Ha _ IH]; simpl; [constructor|].
  destruct (f a); [|exact IH]. constructor; [|exact IH].
  intros Hin. apply filter_In in Hin. tauto.
Qed.

Lemma NoDup_map_filter {A B} (g : A -> B) (f : A -> bool) (l : list A) :
  NoDup (map g l) -> NoDup (map g (filter f l)).
Proof.
  induction l as [|a l IH]; simpl; intros Hnd; [constructor|].
  inversion Hnd as [|? ? Ha Hnd']; subst.
  destruct (f a); simpl; [|now apply IH]. constructor; [|now apply IH].
  intros Hin. apply Ha. apply in_map_iff in Hin.
  destruct Hin as [x [Hx Hin]]. apply filter_In in Hin.
  apply in_map_iff. exists x. tauto.
Qed.

End ShapeFacts.

(** X1. For every prompt the shape extractor returns the names of the
    vocabulary that occur in the prompt when the case of letters is ignored,
    in the order of the vocabulary and without repetition, or the single
    name "rectangle" when none occurs.  The result is never empty and holds
    names of the vocabulary only. *)
Theorem analyze_prompt_shapes_keeps (prompt : string) :
  exists matched : list string,
    keep_by (fun name => Str.occurs_ci name prompt)
            AIAssetGenerator.shape_keywords matched /\
    AIAssetGenerator._analyze_prompt_shapes prompt
    = match matched with
      | [] => [ "rectangle" ]
      | _ => matched
      end /\
    AIAssetGenerator._analyze_prompt_shapes prompt <> [] /\
    NoDup (AIAssetGenerator._analyze_prompt_shapes prompt) /\
    (forall name,
        In name (AIAssetGenerator._analyze_prompt_shapes prompt) ->
        In name AIAssetGenerator.shape_keywords).
Proof.
  set (f := fun shape => Str.contains shape (Str.lower prompt)).
  exists (filter f AIAssetGenerator.shape_keywords).
  assert (Hnd : NoDup AIAssetGenerator.shape_keywords).
  { unfold AIAssetGenerator.shape_keywords.
    repeat (constructor; [simpl; intuition discriminate|]). constructor. }
  split; [|split; [reflexivity|split; [|split]]].
  - apply ShapeFacts.keep_by_filter. intros name.
    apply StrFacts.contains_lower.
  - unfold AIAssetGenerator._analyze_prompt_shapes. fold f.
    destruct (filter f AIAssetGenerator.shape_keywords); discriminate.
  - unfold AIAssetGenerator._analyze_prompt_shapes. fold f.
    pose proof (ShapeFacts.NoDup_filter f _ Hnd) as H.
    destruct (filter f AIAssetGenerator.shape_keywords);
      [repeat constructor; intros [] | exact H].
  - intros name. unfold AIAssetGenerator._analyze_prompt_shapes. fold f.
    destruct (filter f AIAssetGenerator.shape_keywords) as [|s l] eqn:E.
    + intros [<-|[]]. simpl. tauto.
    + rewrite <- E. intros Hin. apply filter_In in Hin. tauto.
Qed.

(** The prompt of the repository's test: "circular" does not contain
    "circle", so only the square is found. *)
Example shapes_of_circular_shield :
  AIAssetGenerator._analyze_prompt_shapes "circular shield with square gems"
  = [ "square" ].
Proof. reflexivity. Qed.

(** X2. The palette extracted from a prompt is never empty, has at most 11
    entries, holds no colour twice, and each of its channels lies in
    0..255. *)
Theorem prompt_palette_invariants (prompt : string) :
  AIAssetGenerator._analyze_prompt_colors prompt <> [] /\
  (List.length (AIAssetGenerator._analyze_prompt_colors prompt) <= 11)%nat /\
  NoDup (AIAssetGenerator._analyze_prompt_colors prompt) /\
  Forall rgb (AIAssetGenerator._analyze_prompt_colors prompt).
Proof.
  split; [apply TotalFacts.prompt_colors_nonempty|].
  split; [|split; [|apply TotalFacts.prompt_colors_rgb]].
  - unfold AIAssetGenerator._analyze_prompt_colors.
    rewrite (PromptFacts.found_colors_loop
               (fun name => Str.contains name (Str.lower prompt))).
    rewrite app_nil_l.
    pose proof (filter_length_le
                  (fun e : string * PIL.Color =>
                     Str.contains (fst e) (Str.lower prompt))
                  AIAssetGenerator.color_keywords) as H.
    rewrite <- (length_map snd) in H.
    destruct (map snd (filter
                (fun e : string * PIL.Color =>
                   Str.contains (fst e) (Str.lower prompt))
                AIAssetGenerator.color_keywords)); simpl in *; lia.
  - unfold AIAssetGenerator._analyze_prompt_colors.
    rewrite (PromptFacts.found_colors_loop
               (fun name => Str.contains name (Str.lower prompt))).
    rewrite app_nil_l.
    assert (Hnd : NoDup (map snd AIAssetGenerator.color_keywords)).
    { unfold AIAssetGenerator.color_keywords. simpl.
      repeat (constructor; [simpl; intuition discriminate|]). constructor. }
    pose proof (ShapeFacts.NoDup_map_filter snd
                  (fun e : string * PIL.Color =>
                     Str.contains (fst e) (Str.lower prompt))
                  _ Hnd) as H.
    destruct (map snd (filter
                (fun e : string * PIL.Color =>
                   Str.contains (fst e) (Str.lower prompt))
                AIAssetGenerator.color_keywords));
      [|exact H].
    unfold AIAssetGenerator.default_colors.
    repeat (constructor; [simpl; intuition discriminate|]). constructor.
Qed.

(** ** Styles *)

(** X3. A style name outside the table ("realistic", "cartoon", "pixel",
    "minimalist") is not an error: procedural asset creation then behaves in
    every respect as for the style "realistic". *)
Theorem unknown_style_draws_as_realistic {Mem : PIL.Memory}
        (prompt asset_type style : string) (width height : Z)
        (st : RandomState) :
  ~ In style style_names ->
  AIAssetGenerator.dict_get AIAssetGenerator.style_presets style
                            AIAssetGenerator.realistic
  = AIAssetGenerator.realistic /\
  AIAssetGenerator._create_procedural_asset
    prompt asset_type style width height st
  = AIAssetGenerator._create_procedural_asset
      prompt asset_type "realistic" width height st.
Proof.
  intros Hout.
  assert (E : AIAssetGenerator.dict_get AIAssetGenerator.style_presets style
                                        AIAssetGenerator.realistic
              = AIAssetGenerator.realistic).
  { unfold AIAssetGenerator.style_presets, AIAssetGenerator.dict_get.
    rewrite !DispatchFacts.eqb_neq;
      [reflexivity | | | |];
      intros <-; apply Hout; simpl; tauto. }
  split; [exact E|].
  unfold AIAssetGenerator._create_procedural_asset. now rewrite E.
Qed.

Lemma unknown_style_draws_as_realistic_witness :
  AIAssetGenerator.dict_get AIAssetGenerator.style_presets "watercolor"
                            AIAssetGenerator.realistic
  = AIAssetGenerator.realistic /\
  AIAssetGenerator._create_procedural_asset (Mem := roomy)
    "red star" "texture" "watercolor" 64 64 counting
  = AIAssetGenerator._create_procedural_asset (Mem := roomy)
      "red star" "texture" "realistic" 64 64 counting.
Proof.
  apply (unknown_style_draws_as_realistic
           "red star" "texture" "watercolor" 64 64 counting).
  simpl. intuition discriminate.
Defined.

(** X4. The style reaches the texture routine only: for every other
    category, known or not, procedural asset creation returns the same
    outcome whatever the style. *)
Theorem style_matters_for_textures_only {Mem : PIL.Memory}
        (prompt asset_type style1 style2 : string) (width height : Z)
        (st : RandomState) :
  asset_type <> "texture" ->
  AIAssetGenerator._create_procedural_asset
    prompt asset_type style1 width height st
  = AIAssetGenerator._create_procedural_asset
      prompt asset_type style2 width height st.
Proof.
  intros Hnt. unfold AIAssetGenerator._create_procedural_asset.
  rewrite (DispatchFacts.eqb_neq _ _ Hnt). reflexivity.
Qed.

Lemma style_matters_for_textures_only_witness :
  AIAssetGenerator._create_procedural_asset (Mem := roomy)
    "blue circle" "sprite" "cartoon" 90 90 counting
  = AIAssetGenerator._create_procedural_asset (Mem := roomy)
      "blue circle" "sprite" "minimalist" 90 90 counting.
Proof.
  apply (style_matters_for_textures_only
           "blue circle" "sprite" "cartoon" "minimalist" 90 90 counting).
  discriminate.
Defined.

(** On textures the style does matter: the contrast of "cartoon" darkens
    full red to 204, that of "realistic" takes it to 306. *)
Example texture_depends_on_style :
  AIAssetGenerator._create_procedural_asset (Mem := roomy)
    "red" "texture" "cartoon" 20 20 counting
  = Ok (painted_with (blank 20 20)
          [ PIL.Rectangle (0, 0, 15, 15) (204, 0, 0) ], advance 1 counting) /\
  AIAssetGenerator._create_procedural_asset (Mem := roomy)
    "red" "texture" "realistic" 20 20 counting
  = Ok (painted_with (blank 20 20)
          [ PIL.Rectangle (0, 0, 15, 15) (306, 0, 0) ], advance 1 counting).
Proof. split; reflexivity. Qed.

(** ** Exceptions, continued *)



(** Without the bound the three categories fail as every category does: a
    side of [2 ** 31] is an [OverflowError] of [Image.new]. *)
Example texture_overflows_on_wide_canvas :
  AIAssetGenerator._create_procedural_asset (Mem := roomy)
    "stone brick wall" "texture" "realistic" 2147483648 1 counting
  = Raise OverflowError.
Proof. reflexivity. Qed.

Module SmallSpriteFacts.
Import PIL AIAssetGenerator LoopFacts.

Lemma invalid_centered_box (cx cy size : Z) :
  size < 0 -> valid_box (cx - size, cy - size, cx + size, cy + size) = false.
Proof.
  intros H. unfold valid_box. destruct (Z.leb_spec (cx - size) (cx + size)); [lia|].
  reflexivity.
Qed.

End SmallSpriteFacts.

(** X6. On a canvas with min(width, height) < 30 the sprite routine raises
    [ValueError] whenever the second shape is a circle or a rectangle,
    whatever the palette, the first shape and the state of the random
    source: the half-extent of the second shape is negative. *)
Theorem sprite_small_canvas_raises
        (draw : PIL.Image) (width height : Z) (colors : list PIL.Color)
        (first second : string) (others : list string)
        (style_config : AIAssetGenerator.StyleConfig) (st : RandomState) :
  0 < width -> 0 < height -> Z.min width height < 30 ->
  colors <> [] ->
  second = "circle" \/ second = "rectangle" ->
  AIAssetGenerator._generate_sprite draw width height colors
    (first :: second :: others) style_config st
  = Raise ValueError.
Proof.
  intros Hw Hh Hsmall Hne Hsecond.
  assert (H0 : 0 <= Z.min width height / 3) by (apply Z.div_pos; lia).
  assert (H1 : Z.min width height / 3 - 10 < 0).
  { assert (Z.min width height / 3 < 10)
      by (apply Z.div_lt_upper_bound; lia). lia. }
  unfold AIAssetGenerator._generate_sprite. cbv zeta.
  assert (Hfirst : firstn 3 (first :: second :: others)
                   = first :: second :: firstn 1 others) by reflexivity.
  rewrite Hfirst. cbn [for_each]. unfold bind.
  destruct (LoopFacts.random_choice_picks colors st 0 Hne) as [a [_ [_ Ha]]].
  rewrite LoopFacts.advance_0 in Ha. rewrite Ha.
  destruct (LoopFacts.random_choice_picks colors st 1 Hne) as [b [_ [_ Hb]]].
  destruct (String.eqb first "circle");
    [|destruct (String.eqb first "rectangle")];
    unfold lift, ret, PIL.draw_ellipse, PIL.draw_rectangle;
    rewrite ?LoopFacts.valid_centered_box by exact H0;
    rewrite Hb;
    unfold lift, PIL.draw_ellipse, PIL.draw_rectangle;
    rewrite SmallSpriteFacts.invalid_centered_box by exact H1;
    destruct Hsecond as [-> | ->]; reflexivity.
Qed.

Lemma sprite_small_canvas_raises_witness :
  AIAssetGenerator._generate_sprite (blank 29 64) 29 64 [ (0, 255, 0) ]
    [ "star"; "circle"; "hexagon" ] AIAssetGenerator.realistic counting
  = Raise ValueError.
Proof.
  apply (sprite_small_canvas_raises
           (blank 29 64) 29 64 [ (0, 255, 0) ] "star" "circle" [ "hexagon" ]
           AIAssetGenerator.realistic counting);
    first [ lia | discriminate | tauto ].
Defined.

(** ** What drawing keeps *)

Module CanvasFacts.
Import PIL AIAssetGenerator LoopFacts.

Lemma extends_refl (im : Image) : extends im im.
Proof. exists []. now rewrite painted_with_nil. Qed.

Lemma extends_trans (a b c : Image) : extends a b -> extends b c -> extends a c.
Proof.
  intros [l1 ->] [l2 ->]. exists (l1 ++ l2). apply painted_with_app.
Qed.

Lemma extends_record (im : Image) (c : draw_call) : extends im (record im c).
Proof. now exists [c]. Qed.

Lemma bind_ok {A B} (m : M A) (k : A -> M B) st r :
  bind m k st = Ok r -> exists a st1, m st = Ok (a, st1) /\ k a st1 = Ok r.
Proof.
  unfold bind. destruct (m st) as [[a st1]|e]; [|discriminate].
  intros H. now exists a, st1.
Qed.

Lemma lift_ok {A} (r : result A) st a st' :
  lift r st = Ok (a, st') -> r = Ok a /\ st' = st.
Proof.
  unfold lift. destruct r; [|discriminate]. intros H. injection H as -> ->.
  now split.
Qed.

Lemma draw_rectangle_extends draw xy fill draw' :
  draw_rectangle draw xy fill = Ok draw' -> extends draw draw'.
Proof.
  unfold draw_rectangle. destruct (valid_box xy); [|discriminate].
  intros H. injection H as <-. apply extends_record.
Qed.

Lemma draw_ellipse_extends draw xy fill outline draw' :
  draw_ellipse draw xy fill outline = Ok draw' -> extends draw draw'.
Proof.
  unfold draw_ellipse. destruct (valid_box xy); [|discriminate].
  intros H. injection H as <-. apply extends_record.
Qed.

Lemma draw_line_extends draw x0 y0 x1 y1 fill draw' :
  draw_line draw x0 y0 x1 y1 fill = Ok draw' -> extends draw draw'.
Proof. unfold draw_line. intros H. injection H as <-. apply extends_record. Qed.

(** A loop whose body keeps a reflexive and transitive relation keeps it. *)
Lemma for_each_keeps {A S} (rel : S -> S -> Prop) (xs : list A)
      (body : S -> A -> M S) :
  (forall s, rel s s) ->
  (forall a b c, rel a b -> rel b c -> rel a c) ->
  (forall s x st s' st', body s x st = Ok (s', st') -> rel s s') ->
  forall s st s' st', for_each xs s body st = Ok (s', st') -> rel s s'.
Proof.
  intros Hrefl Htrans Hbody. induction xs as [|x xs IH]; intros s st s' st' H.
  - simpl in H. unfold ret in H. injection H as <- _. apply Hrefl.
  - simpl in H. apply bind_ok in H. destruct H as [s1 [st1 [H1 H2]]].
    eapply Htrans; [eapply Hbody; eauto | eapply IH; eauto].
Qed.

Lemma texture_extends draw width height colors style_config st image st' :
  _generate_texture draw width height colors style_config st = Ok (image, st') ->
  extends draw image.
Proof.
  unfold _generate_texture.
  apply (for_each_keeps extends); [apply extends_refl | apply extends_trans|].
  intros s i st0 s' st0'.
  apply (for_each_keeps extends); [apply extends_refl | apply extends_trans|].
  intros d j st1 d' st1' H.
  apply bind_ok in H. destruct H as [color [st2 [_ H]]].
  apply bind_ok in H. destruct H as [m [st3 [_ H]]].
  apply lift_ok in H. destruct H as [H _].
  eapply draw_rectangle_extends; eauto.
Qed.

Lemma sprite_extends draw width height colors shapes style_config st image st' :
  _generate_sprite draw width height colors shapes style_config st
  = Ok (image, st') ->
  extends draw image.
Proof.
  unfold _generate_sprite. cbv zeta. intros H.
  apply bind_ok in H. destruct H as [[d size] [st1 [Hloop Hret]]].
  unfold ret in Hret. injection Hret as <- _. simpl.
  revert Hloop.
  apply (for_each_keeps (fun a b : Image * Z => extends (fst a) (fst b))
           (firstn 3 shapes));
    [intros; apply extends_refl | intros; eapply extends_trans; eauto|].
  intros [d0 s0] shape st0 [d1 s1] st2 H. simpl.
  apply bind_ok in H. destruct H as [color [st3 [_ H]]].
  apply bind_ok in H. destruct H as [d2 [st4 [Hdraw Hret]]].
  unfold ret in Hret. injection Hret as <- _ _.
  destruct (String.eqb shape "circle").
  - apply lift_ok in Hdraw. destruct Hdraw as [Hdraw _].
    eapply draw_ellipse_extends; eauto.
  - destruct (String.eqb shape "rectangle").
    + apply lift_ok in Hdraw. destruct Hdraw as [Hdraw _].
      eapply draw_rectangle_extends; eauto.
    + unfold ret in Hdraw. injection Hdraw as <- _. apply extends_refl.
Qed.

Lemma icon_extends draw width height colors style_config st image st' :
  _generate_icon draw width height colors style_config st = Ok (image, st') ->
  extends draw image.
Proof.
  unfold _generate_icon. cbv zeta. intros H.
  apply bind_ok in H. destruct H as [fill [st1 [_ H]]].
  apply bind_ok in H. destruct H as [outline [st2 [_ H]]].
  apply bind_ok in H. destruct H as [d1 [st3 [H1 H]]].
  apply bind_ok in H. destruct H as [inner [st4 [_ H]]].
  apply lift_ok in H1. destruct H1 as [H1 _].
  apply lift_ok in H. destruct H as [H _].
  eapply extends_trans;
    [eapply draw_ellipse_extends | eapply draw_rectangle_extends]; eauto.
Qed.

Lemma background_extends draw width height colors style_config st image st' :
  _generate_background draw width height colors style_config st
  = Ok (image, st') ->
  extends draw image.
Proof.
  unfold _generate_background.
  apply (for_each_keeps extends); [apply extends_refl | apply extends_trans|].
  intros d y st0 d' st0' H.
  apply bind_ok in H. destruct H as [ratio [st1 [_ H]]].
  apply bind_ok in H. destruct H as [[[r1 g1] b1] [st2 [_ H]]].
  apply bind_ok in H. destruct H as [[[r2 g2] b2] [st3 [_ H]]].
  apply bind_ok in H. destruct H as [r [st4 [_ H]]].
  apply bind_ok in H. destruct H as [g [st5 [_ H]]].
  apply bind_ok in H. destruct H as [b [st6 [_ H]]].
  apply lift_ok in H. destruct H as [H _].
  eapply draw_line_extends; eauto.
Qed.

(** Whatever procedural creation returns is the blank canvas of the
    requested size with primitives painted on it. *)
Lemma created_on_blank {Mem : Memory}
        (prompt asset_type style : string) (width height : Z)
        (st st' : RandomState) (image : Image) :
  _create_procedural_asset
    prompt asset_type style width height st = Ok (image, st') ->
  extends (blank width height) image /\
  im_width image = width /\ im_height image = height /\
  im_initial image = (255, 255, 255, 0) /\
  0 <= width /\ 0 <= height.
Proof.
  intros H. unfold AIAssetGenerator._create_procedural_asset in H.
  apply bind_ok in H. destruct H as [canvas [st1 [Hnew H]]].
  apply lift_ok in Hnew. destruct Hnew as [Hnew ->].
  unfold PIL.Image_new in Hnew.
  destruct (Z.ltb_spec width 0); [discriminate|].
  destruct (Z.ltb_spec height 0); [discriminate|].
  cbn [orb] in Hnew.
  destruct ((2 ^ 31 <=? width) || (2 ^ 31 <=? height)); [discriminate|].
  destruct (fits width height); [|discriminate].
  injection Hnew as <-.
  assert (Hext : extends (blank width height) image).
  { destruct (String.eqb asset_type "texture");
      [eapply texture_extends; eauto|].
    destruct (String.eqb asset_type "sprite");
      [eapply sprite_extends; eauto|].
    destruct (String.eqb asset_type "icon");
      [eapply icon_extends; eauto|].
    destruct (String.eqb asset_type "background");
      [eapply background_extends; eauto|].
    unfold ret in H. injection H as <- _. apply extends_refl. }
  split; [exact Hext|]. destruct Hext as [calls ->]. repeat split; auto.
Qed.

End CanvasFacts.

(** X7. Whenever procedural asset creation returns an image, whatever the
    category, the image is the transparent white canvas of the requested
    width and height with primitives painted on it: its size and its
    initial colour (255,255,255,0) are as created. *)
Theorem procedural_asset_has_requested_size {Mem : PIL.Memory}
        (prompt asset_type style : string) (width height : Z)
        (st st' : RandomState) (image : PIL.Image) :
  AIAssetGenerator._create_procedural_asset
    prompt asset_type style width height st = Ok (image, st') ->
  extends (blank width height) image /\
  PIL.im_width image = width /\ PIL.im_height image = height /\
  PIL.im_initial image = (255, 255, 255, 0) /\
  0 <= width /\ 0 <= height.
Proof. apply CanvasFacts.created_on_blank. Qed.

Lemma procedural_asset_has_requested_size_witness :
  extends (blank 40 30)
          (painted_with (blank 40 30)
             [ PIL.Rectangle (10, 5, 30, 25) (0, 0, 255) ]) /\
  PIL.im_width (painted_with (blank 40 30)
                  [ PIL.Rectangle (10, 5, 30, 25) (0, 0, 255) ]) = 40 /\
  PIL.im_height (painted_with (blank 40 30)
                   [ PIL.Rectangle (10, 5, 30, 25) (0, 0, 255) ]) = 30 /\
  PIL.im_initial (painted_with (blank 40 30)
                    [ PIL.Rectangle (10, 5, 30, 25) (0, 0, 255) ])
  = (255, 255, 255, 0) /\
  0 <= 40 /\ 0 <= 30.
Proof.
  apply (procedural_asset_has_requested_size (Mem := roomy)
           "blue rectangle" "sprite" "pixel" 40 30 counting (advance 1 counting)
           (painted_with (blank 40 30)
              [ PIL.Rectangle (10, 5, 30, 25) (0, 0, 255) ])).
  reflexivity.
Defined.

(** ** The palette's strings *)

Module HexFacts.
Import PIL AIAssetGenerator.

(** [f"{c:02x}"] of a byte is two lower-case hexadecimal digits that read
    back as the byte (checked on the 256 cases). *)
Lemma format_02x_table :
  forallb (fun c =>
             match format_02x c with
             | String hi (String lo EmptyString) =>
                 is_hex_digit hi && is_hex_digit lo &&
                 match byte_of_hex hi lo with
                 | Some v => v =? c
                 | None => false
                 end
             | _ => false
             end) bytes = true.
Proof. vm_compute. reflexivity. Qed.

Lemma format_02x_byte (c : Z) :
  channel c ->
  exists hi lo,
    format_02x c = String hi (String lo EmptyString) /\
    is_hex_digit hi = true /\ is_hex_digit lo = true /\
    byte_of_hex hi lo = Some c.
Proof.
  intros Hc. pose proof format_02x_table as H.
  rewrite forallb_forall in H.
  specialize (H c (ChannelFacts.channel_in_bytes c Hc)).
  destruct (format_02x c) as [|hi [|lo [|? ?]]]; try discriminate.
  exists hi, lo.
  apply andb_true_iff in H. destruct H as [H Hv].
  apply andb_true_iff in H. destruct H as [Hhi Hlo].
  destruct (byte_of_hex hi lo) as [v|]; [|discriminate].
  apply Z.eqb_eq in Hv. subst v. auto.
Qed.

Lemma hex_color_in_range (n r g b a : Z) :
  channel r -> channel g -> channel b ->
  is_hex_color (hex_color (n, (r, g, b, a))) = true /\
  rgb_of_hex (hex_color (n, (r, g, b, a))) = Some (r, g, b).
Proof.
  intros Hr Hg Hb.
  destruct (format_02x_byte r Hr) as [r1 [r0 [Er [Hr1 [Hr0 Vr]]]]].
  destruct (format_02x_byte g Hg) as [g1 [g0 [Eg [Hg1 [Hg0 Vg]]]]].
  destruct (format_02x_byte b Hb) as [b1 [b0 [Eb [Hb1 [Hb0 Vb]]]]].
  unfold hex_color. rewrite Er, Eg, Eb.
  cbn [String.append is_hex_color rgb_of_hex String.length
       list_ascii_of_string forallb Nat.eqb].
  rewrite Hr1, Hr0, Hg1, Hg0, Hb1, Hb0, Vr, Vg, Vb. split; reflexivity.
Qed.

Lemma clip8_channel (c : Z) : channel (clip8 c).
Proof. unfold channel, clip8. lia. Qed.

Lemma ink_in_range (c : Color) : pixel_in_range (ink c).
Proof.
  destruct c as [[r g] b]. unfold ink, pixel_in_range.
  repeat split; try apply clip8_channel; lia.
Qed.

Section Range.
Context {R : Rasterizer}.

Lemma paint_in_range (px : Pixel) (c : draw_call) (x y : Z) :
  pixel_in_range px -> pixel_in_range (paint px c x y).
Proof.
  intros Hpx. destruct c as [xy fill|xy fill [o|]|x0 y0 x1 y1 fill];
    cbn [paint].
  - destruct (in_rectangle xy x y); [apply ink_in_range | exact Hpx].
  - destruct (negb (pixel_eqb (ink o) (ink fill)) && ellipse_border xy x y);
      [apply ink_in_range|].
    destruct (ellipse_interior xy x y); [apply ink_in_range | exact Hpx].
  - destruct (ellipse_interior xy x y); [apply ink_in_range | exact Hpx].
  - destruct (on_line x0 y0 x1 y1 x y); [apply ink_in_range | exact Hpx].
Qed.

Lemma pixel_at_in_range (im : Image) (x y : Z) :
  pixel_in_range (im_initial im) -> pixel_in_range (pixel_at im x y).
Proof.
  unfold pixel_at. generalize (im_initial im).
  induction (im_painted im) as [|c cs IH]; intros px Hpx; simpl; [exact Hpx|].
  apply IH. now apply paint_in_range.
Qed.

(** Every value in the list of pixels is the value of a pixel inside the
    image. *)
Lemma in_pixels (im : Image) (p : Pixel) :
  In p (pixels im) -> exists x y, getpixel im x y = Ok p.
Proof.
  unfold pixels. rewrite in_flat_map. intros [y [Hy Hin]].
  apply in_map_iff in Hin. destruct Hin as [x [<- Hx]].
  apply BackgroundFacts.in_py_range_1 in Hx, Hy.
  exists x, y. unfold getpixel.
  destruct (Z.leb_spec 0 x); [|lia]. destruct (Z.ltb_spec x (im_width im)); [|lia].
  destruct (Z.leb_spec 0 y); [|lia]. destruct (Z.ltb_spec y (im_height im)); [|lia].
  reflexivity.
Qed.

(** An entry of the listing of [getcolors] is the value of a pixel. *)
Lemma listed_is_pixel (im : Image) (maxcolors : Z) (l : list (Z * Pixel))
      (n : Z) (p : Pixel) :
  getcolors im maxcolors = Some l -> In (n, p) l ->
  exists x y, getpixel im x y = Ok p.
Proof.
  intros Hl Hin.
  apply (PaletteFacts.getcolors_counts im maxcolors l Hl) in Hin.
  destruct Hin as [-> Hpos]. unfold occurrences in Hpos.
  destruct (filter (pixel_eqb p) (pixels im)) as [|q qs] eqn:E;
    [simpl in Hpos; lia|].
  assert (Hq : In q (filter (pixel_eqb p) (pixels im)))
    by (rewrite E; now left).
  apply filter_In in Hq. destruct Hq as [Hq Heq].
  destruct (PaletteFacts.pixel_eqb_spec p q) as [->|]; [|discriminate].
  now apply in_pixels.
Qed.

(** An entry of the summary comes from an entry of the listing with alpha
    above 0, unless the listing is missing or empty. *)
Lemma palette_entry (colors : option (list (Z * Pixel))) (s : string) :
  In s (palette_of colors) ->
  (s = "#000000" /\ (colors = None \/ colors = Some [])) \/
  exists l e, colors = Some l /\ In e l /\ 0 < alpha e /\ s = hex_color e.
Proof.
  destruct colors as [[|e0 l]|].
  - simpl. intros [<-|[]]. left. auto.
  - cbv beta iota zeta delta [palette_of]. intros Hin.
    apply in_map_iff in Hin. destruct Hin as [e [<- He]].
    apply filter_In in He. destruct He as [He Ha]. apply Z.ltb_lt in Ha.
    apply PaletteFacts.firstn_In in He.
    apply (Permutation_in _ (PaletteFacts.sorted_reverse_perm (e0 :: l))) in He.
    right. exists (e0 :: l), e. auto.
  - simpl. intros [<-|[]]. left. auto.
Qed.

End Range.

(** The entries of the summary are hexadecimal colours. *)
Lemma palette_hex {R : Rasterizer}
        (image : Image) :
  pixel_in_range (im_initial image) ->
  Forall (fun s => is_hex_color s = true)
         (_extract_color_palette image).
Proof.
  intros Hinit. apply Forall_forall. intros s Hs.
  unfold AIAssetGenerator._extract_color_palette in Hs.
  apply palette_entry in Hs.
  destruct Hs as [[-> _]|[l [[n [[[r g] b] a]] [Hl [He [_ ->]]]]]];
    [reflexivity|].
  destruct (listed_is_pixel image _ l n (r, g, b, a) Hl He)
    as [x [y Hxy]].
  unfold PIL.getpixel in Hxy.
  destruct ((0 <=? x) && (x <? PIL.im_width image) && (0 <=? y)
            && (y <? PIL.im_height image)); [|discriminate].
  injection Hxy as Hxy.
  pose proof (pixel_at_in_range image x y Hinit) as Hr.
  rewrite Hxy in Hr. destruct Hr as [Hr [Hg [Hb _]]].
  now apply hex_color_in_range.
Qed.

(** The summary has at most five entries. *)
Lemma palette_length {R : Rasterizer} (image : Image) :
  (List.length (_extract_color_palette image) <= 5)%nat.
Proof.
  unfold _extract_color_palette.
  destruct (getcolors image (256 * 256 * 256)) as [[|e l]|];
    [simpl; lia | | simpl; lia].
  cbv beta iota zeta delta [palette_of].
  rewrite length_map.
  etransitivity; [apply filter_length_le|]. apply firstn_le_length.
Qed.

End HexFacts.

(** X8. For an image whose initial colour has its four channels in 0..255
    (as every image the generator creates), every entry of the colour
    summary is "#" followed by exactly six lower-case hexadecimal digits. *)
Theorem palette_entries_are_hex_colors {R : PIL.Rasterizer}
        (image : PIL.Image) :
  pixel_in_range (PIL.im_initial image) ->
  Forall (fun s => is_hex_color s = true)
         (AIAssetGenerator._extract_color_palette image).
Proof. apply HexFacts.palette_hex. Qed.

Lemma palette_entries_are_hex_colors_witness :
  Forall (fun s => is_hex_color s = true)
         (AIAssetGenerator._extract_color_palette (R := lattice)
            (painted_with (blank 4 4)
               [ PIL.Rectangle (0, 0, 1, 1) (306, 0, 18) ])).
Proof.
  apply (palette_entries_are_hex_colors (R := lattice)
           (painted_with (blank 4 4)
              [ PIL.Rectangle (0, 0, 1, 1) (306, 0, 18) ])).
  simpl. unfold channel. lia.
Defined.

(** X9. Under the same condition every entry of the colour summary, read
    back as hexadecimal, is the red, green and blue of a pixel of the image
    whose alpha is above 0; the only exception is the placeholder
    "#000000", reported when [getcolors] lists nothing. *)
Theorem palette_entries_are_visible_pixels {R : PIL.Rasterizer}
        (image : PIL.Image) :
  pixel_in_range (PIL.im_initial image) ->
  forall s,
    In s (AIAssetGenerator._extract_color_palette image) ->
    (s = "#000000" /\
     (PIL.getcolors image (256 * 256 * 256) = None \/
      PIL.getcolors image (256 * 256 * 256) = Some [])) \/
    exists x y r g b a,
      PIL.getpixel image x y = Ok (r, g, b, a) /\ 0 < a /\
      rgb_of_hex s = Some (r, g, b).
Proof.
  intros Hinit s Hs.
  unfold AIAssetGenerator._extract_color_palette in Hs.
  apply HexFacts.palette_entry in Hs.
  destruct Hs as [H|[l [[n [[[r g] b] a]] [Hl [He [Ha ->]]]]]];
    [now left | right].
  destruct (HexFacts.listed_is_pixel image _ l n (r, g, b, a) Hl He)
    as [x [y Hxy]].
  exists x, y, r, g, b, a. split; [exact Hxy|]. split; [exact Ha|].
  unfold PIL.getpixel in Hxy.
  destruct ((0 <=? x) && (x <? PIL.im_width image) && (0 <=? y)
            && (y <? PIL.im_height image)); [|discriminate].
  injection Hxy as Hxy.
  pose proof (HexFacts.pixel_at_in_range image x y Hinit) as Hr.
  rewrite Hxy in Hr. destruct Hr as [Hr [Hg [Hb _]]].
  now apply HexFacts.hex_color_in_range.
Qed.

Lemma palette_entries_are_visible_pixels_witness :
  ("#ff0012"%string = "#000000"%string /\
   (PIL.getcolors (R := lattice)
      (painted_with (blank 4 4) [ PIL.Rectangle (0, 0, 1, 1) (306, 0, 18) ])
      (256 * 256 * 256) = None \/
    PIL.getcolors (R := lattice)
      (painted_with (blank 4 4) [ PIL.Rectangle (0, 0, 1, 1) (306, 0, 18) ])
      (256 * 256 * 256) = Some [])) \/
  exists x y r g b a,
    PIL.getpixel (R := lattice)
      (painted_with (blank 4 4) [ PIL.Rectangle (0, 0, 1, 1) (306, 0, 18) ])
      x y = Ok (r, g, b, a) /\ 0 < a /\
    rgb_of_hex "#ff0012" = Some (r, g, b).
Proof.
  apply (palette_entries_are_visible_pixels (R := lattice)
           (painted_with (blank 4 4)
              [ PIL.Rectangle (0, 0, 1, 1) (306, 0, 18) ])).
  - simpl. unfold channel. lia.
  - vm_compute. left. reflexivity.
Defined.

(** ** The icon routine in general *)

(** X10. On a palette with first colour [first] and a canvas of any
    non-negative size the icon routine reads no random draw and paints
    exactly two primitives: an ellipse of half-extent min(width, height)
    // 3 around the centre, filled with [first] and outlined with the second
    colour (with [first] when there is none), then a square of half that
    half-extent filled with the second colour (white when there is none).
    Every pixel of the square carries that colour, opaque, whatever the
    rasterizer.  On an empty palette the routine raises IndexError. *)
Theorem icon_paints_disc_and_square {R : PIL.Rasterizer}
        (draw : PIL.Image) (width height : Z)
        (first : PIL.Color) (others : list PIL.Color)
        (style_config : AIAssetGenerator.StyleConfig) (st : RandomState) :
  0 <= width -> 0 <= height ->
  let size := Z.min width height / 3 in
  let outline := match others with [] => first | second :: _ => second end in
  let inner := match others with [] => (255, 255, 255) | second :: _ => second end in
  let image :=
    painted_with draw
      [ PIL.Ellipse (centered_box width height size) first (Some outline);
        PIL.Rectangle (centered_box width height (size / 2)) inner ] in
  AIAssetGenerator._generate_icon draw width height (first :: others)
                                  style_config st
  = Ok (image, st) /\
  (forall x y,
      PIL.in_rectangle (centered_box width height (size / 2)) x y = true ->
      PIL.pixel_at image x y = PIL.ink inner) /\
  AIAssetGenerator._generate_icon draw width height [] style_config st
  = Raise IndexError.
Proof.
  intros Hw Hh size outline inner image.
  assert (Hs : 0 <= size) by (apply Z.div_pos; lia).
  assert (Hi : 0 <= size / 2) by (apply Z.div_pos; lia).
  split; [|split].
  - unfold AIAssetGenerator._generate_icon. cbv zeta. fold size.
    unfold image, outline, inner, centered_box, painted_with.
    destruct others as [|second rest];
      unfold AIAssetGenerator.index;
      cbn [nth_error List.length Nat.ltb Nat.leb];
      unfold bind, lift, PIL.draw_ellipse;
      rewrite LoopFacts.valid_centered_box by assumption;
      unfold PIL.draw_rectangle;
      rewrite LoopFacts.valid_centered_box by assumption;
      unfold PIL.record; simpl; now rewrite <- app_assoc.
  - intros x y Hin. unfold image, PIL.pixel_at, painted_with.
    cbn [PIL.im_painted PIL.im_initial].
    rewrite fold_left_app. cbn [fold_left PIL.paint]. now rewrite Hin.
  - reflexivity.
Qed.

Lemma icon_paints_disc_and_square_witness :
  AIAssetGenerator._generate_icon (blank 90 60) 90 60
    [ (0, 0, 255); (255, 255, 0) ] AIAssetGenerator.realistic counting
  = Ok (painted_with (blank 90 60)
          [ PIL.Ellipse (25, 10, 65, 50) (0, 0, 255) (Some (255, 255, 0));
            PIL.Rectangle (35, 20, 55, 40) (255, 255, 0) ], counting) /\
  (forall x y,
      PIL.in_rectangle (35, 20, 55, 40) x y = true ->
      PIL.pixel_at (R := lattice)
        (painted_with (blank 90 60)
           [ PIL.Ellipse (25, 10, 65, 50) (0, 0, 255) (Some (255, 255, 0));
             PIL.Rectangle (35, 20, 55, 40) (255, 255, 0) ]) x y
      = (255, 255, 0, 255)) /\
  AIAssetGenerator._generate_icon (blank 90 60) 90 60 []
    AIAssetGenerator.realistic counting
  = Raise IndexError.
Proof.
  apply (icon_paints_disc_and_square (R := lattice) (blank 90 60) 90 60
           (0, 0, 255) [ (255, 255, 0) ] AIAssetGenerator.realistic counting);
    lia.
Defined.

(** ** Reading the dimension string *)

Module ParseFacts.
Import Builtins.

Lemma split_nonempty (s : string) (sep : ascii) : split s sep <> [].
Proof.
  destruct s as [|c s]; simpl; [discriminate|].
  destruct (Ascii.eqb c sep); [discriminate|].
  destruct (split s sep); discriminate.
Qed.

(** Joining what [split] returns gives the string back. *)
Lemma join_split (s : string) (sep : ascii) :
  join (String sep EmptyString) (split s sep) = s.
Proof.
  induction s as [|c s IH]; [reflexivity|]. simpl.
  destruct (Ascii.eqb_spec c sep) as [->|Hne].
  - pose proof (split_nonempty s sep) as Hn.
    destruct (split s sep) as [|p ps]; [congruence|].
    cbn [join]. cbn [join] in IH.
    destruct ps; simpl; simpl in IH; now rewrite IH.
  - pose proof (split_nonempty s sep) as Hn.
    destruct (split s sep) as [|p ps]; [congruence|].
    cbn [join] in *. destruct ps; simpl in *; now rewrite IH.
Qed.

(** No part holds the separator. *)
Lemma split_parts_free (s : string) (sep : ascii) :
  Forall (fun part => count_of sep part = 0%nat) (split s sep).
Proof.
  induction s as [|c s IH]; simpl; [repeat constructor|].
  destruct (Ascii.eqb_spec c sep) as [->|Hne].
  - constructor; [reflexivity | exact IH].
  - destruct (split s sep) as [|p ps]; [repeat constructor|].
    + simpl. destruct (Ascii.eqb_spec c sep); [contradiction | reflexivity].
    + inversion IH; subst. constructor; [|assumption].
      simpl. destruct (Ascii.eqb_spec c sep); [contradiction | assumption].
Qed.

Lemma split_free (s : string) (sep : ascii) :
  count_of sep s = 0%nat -> split s sep = [ s ].
Proof.
  induction s as [|c s IH]; simpl; [reflexivity|].
  destruct (Ascii.eqb c sep); [discriminate|]. simpl. intros H.
  now rewrite (IH H).
Qed.

Lemma split_app (a b : string) (sep : ascii) :
  count_of sep a = 0%nat ->
  split (a ++ String sep b) sep = a :: split b sep.
Proof.
  induction a as [|c a IH]; simpl.
  - intros _. now rewrite Ascii.eqb_refl.
  - destruct (Ascii.eqb c sep); [discriminate|]. simpl. intros H.
    now rewrite (IH H).
Qed.

(** The number of parts is one more than the number of separators. *)
Lemma length_split (s : string) (sep : ascii) :
  List.length (split s sep) = S (count_of sep s).
Proof.
  induction s as [|c s IH]; simpl; [reflexivity|].
  destruct (Ascii.eqb c sep); simpl; [now rewrite IH|].
  pose proof (split_nonempty s sep) as Hn.
  destruct (split s sep); [congruence|]. simpl in *. lia.
Qed.

Lemma int_raises (text : string) (e : exn) :
  int text = Raise e -> e = ValueError.
Proof.
  unfold int.
  destruct (head_is "_" _); [congruence|].
  destruct (scan_digits _ false 0 0) as [[[v d] rest]|]; [|congruence].
  destruct (d =? 0)%nat; [congruence|].
  destruct (skip_spaces rest); [|congruence].
  destruct (int_max_str_digits <? d)%nat; congruence.
Qed.

Lemma unpack_raises (parts : list string) (e : exn) :
  unpack_two_ints parts = Raise e -> e = ValueError.
Proof.
  unfold unpack_two_ints.
  destruct parts as [|a [|b [|c rest]]]; try congruence;
    destruct (int a) as [w|e1] eqn:Ea; simpl; try congruence;
    try (intros H; injection H as <-; eapply int_raises; eauto; fail);
    destruct (int b) as [h|e2] eqn:Eb; simpl; try congruence;
    try (intros H; injection H as <-; eapply int_raises; eauto; fail).
  destruct (int c) as [x|e3] eqn:Ec; simpl; try congruence.
  intros H; injection H as <-; eapply int_raises; eauto.
Qed.

Lemma unpack_ok (parts : list string) (w h : Z) :
  unpack_two_ints parts = Ok (w, h) <->
  exists a b, parts = [ a; b ] /\ int a = Ok w /\ int b = Ok h.
Proof.
  split.
  - unfold unpack_two_ints.
    destruct parts as [|a [|b [|c rest]]]; try discriminate;
      destruct (int a) as [w'|] eqn:Ea; simpl; try discriminate;
      destruct (int b) as [h'|] eqn:Eb; simpl; try discriminate.
    + intros H; injection H as -> ->. now exists a, b.
    + destruct (int c); discriminate.
  - intros [a [b [-> [Ha Hb]]]]. simpl. now rewrite Ha, Hb.
Qed.

(** *** Digits *)

Lemma digit_class (c : ascii) (d : Z) :
  digit_value c = Some d ->
  0 <= d < 10 /\ digit_char d = c /\ is_space c = false /\
  Ascii.eqb c "_" = false /\ Ascii.eqb c "+" = false /\
  Ascii.eqb c "-" = false /\ Ascii.eqb c "x" = false.
Proof.
  destruct c as [[] [] [] [] [] [] [] []]; vm_compute; intros H;
    try discriminate; injection H as <-; repeat split; congruence.
Qed.

Lemma digit_value_char (d : Z) :
  0 <= d < 10 -> digit_value (digit_char d) = Some d.
Proof.
  intros H.
  assert (E : d = 0 \/ d = 1 \/ d = 2 \/ d = 3 \/ d = 4 \/ d = 5 \/ d = 6 \/
              d = 7 \/ d = 8 \/ d = 9) by lia.
  repeat (destruct E as [->|E]; [reflexivity|]). subst. reflexivity.
Qed.

Lemma value_of_app (s t : string) :
  forall acc,
    value_of (s ++ t) acc
    = match value_of s acc with
      | Some v => value_of t v
      | None => None
      end.
Proof.
  induction s as [|c s IH]; intros acc; simpl; [reflexivity|].
  destruct (digit_value c); [apply IH | reflexivity].
Qed.

Lemma length_app (s t : string) :
  String.length (s ++ t) = (String.length s + String.length t)%nat.
Proof. induction s; simpl; congruence. Qed.

Lemma app_assoc_string (s t u : string) :
  ((s ++ t) ++ u = s ++ (t ++ u))%string.
Proof. induction s; simpl; congruence. Qed.

(** What [decimal_digits] puts in front of [acc]: a non-empty string of
    digits that denotes [n] and has no leading zero unless [n] is 0. *)
Lemma decimal_digits_spec (fuel : nat) :
  forall n acc,
    0 <= n < 2 ^ Z.of_nat fuel -> (1 <= fuel)%nat ->
    exists ds,
      decimal_digits fuel n acc = (ds ++ acc)%string /\
      (1 <= String.length ds)%nat /\
      (forall a, value_of ds a
                 = Some (a * 10 ^ Z.of_nat (String.length ds) + n)) /\
      (0 < n -> 10 ^ (Z.of_nat (String.length ds) - 1) <= n).
Proof.
  induction fuel as [|fuel IH]; intros n acc Hn Hf; [lia|].
  cbn [decimal_digits].
  assert (Hd : 0 <= n mod 10 < 10) by (apply Z.mod_pos_bound; lia).
  destruct (Z.eqb_spec (n / 10) 0) as [Hz|Hnz].
  - exists (String (digit_char (n mod 10)) EmptyString).
    split; [reflexivity|]. split; [simpl; lia|]. split.
    + intros a. cbn [value_of String.length].
      rewrite digit_value_char by exact Hd.
      change (Z.of_nat 1) with 1. rewrite Z.pow_1_r.
      f_equal. pose proof (Z.div_mod n 10 ltac:(lia)). lia.
    + intros Hpos. cbn [String.length]. change (Z.of_nat 1 - 1) with 0.
      rewrite Z.pow_0_r. lia.
  - assert (Hq : 0 < n / 10).
    { pose proof (Z.div_pos n 10 ltac:(lia) ltac:(lia)). lia. }
    assert (Hn10 : 10 <= n).
    { pose proof (Z.div_mod n 10 ltac:(lia)). lia. }
    assert (Hf' : (1 <= fuel)%nat).
    { destruct fuel; [|lia]. simpl in Hn. lia. }
    assert (Hq' : 0 <= n / 10 < 2 ^ Z.of_nat fuel).
    { split; [lia|].
      rewrite Nat2Z.inj_succ, Z.pow_succ_r in Hn by lia.
      apply Z.div_lt_upper_bound; lia. }
    destruct (IH (n / 10) (String (digit_char (n mod 10)) acc) Hq' Hf')
      as [ds [E [Hlen [Hval Hlow]]]].
    exists (ds ++ String (digit_char (n mod 10)) EmptyString)%string.
    split; [rewrite E, app_assoc_string; reflexivity|].
    rewrite length_app. simpl String.length.
    split; [lia|]. split.
    + intros a. rewrite value_of_app, Hval. cbn [value_of].
      rewrite digit_value_char by exact Hd. f_equal.
      replace (Z.of_nat (String.length ds + 1))
        with (Z.succ (Z.of_nat (String.length ds))) by lia.
      rewrite Z.pow_succ_r by lia.
      pose proof (Z.div_mod n 10 ltac:(lia)). lia.
    + intros _. specialize (Hlow Hq).
      replace (Z.of_nat (String.length ds + 1) - 1)
        with (Z.succ (Z.of_nat (String.length ds) - 1)) by lia.
      rewrite Z.pow_succ_r by lia.
      pose proof (Z.div_mod n 10 ltac:(lia)). lia.
Qed.

(** A string of digits is scanned to its end. *)
Lemma scan_value (s rest : string) :
  forall prev acc n v,
    value_of s acc = Some v ->
    (1 <= String.length s)%nat \/ prev = false ->
    rest = EmptyString \/
    (exists c r, rest = String c r /\ digit_value c = None /\
                 Ascii.eqb c "_" = false) ->
    scan_digits (s ++ rest) prev acc n
    = Some (v, (n + String.length s)%nat, rest).
Proof.
  induction s as [|c s IH]; intros prev acc n v Hv Hp Hrest.
  - simpl in Hv. injection Hv as <-. destruct Hp as [Hp | ->]; [simpl in Hp; lia|].
    simpl. rewrite Nat.add_0_r.
    destruct Hrest as [-> | [c [r [-> [Hc Hu]]]]]; [reflexivity|].
    simpl. now rewrite Hc, Hu.
  - simpl in Hv. simpl. destruct (digit_value c) as [d|]; [|discriminate].
    rewrite (IH false _ (S n) v Hv (or_intror eq_refl) Hrest).
    do 3 f_equal. lia.
Qed.

(** What is scanned is below the power of ten of its number of digits. *)
Lemma scan_bound (s : string) :
  forall prev acc n v n' rest,
    scan_digits s prev acc n = Some (v, n', rest) ->
    0 <= acc ->
    (n <= n')%nat /\ 0 <= v /\
    v < (acc + 1) * 10 ^ (Z.of_nat n' - Z.of_nat n).
Proof.
  induction s as [|c s IH]; intros prev acc n v n' rest H Hacc.
  - simpl in H. destruct prev; [discriminate|]. injection H as <- <- <-.
    rewrite Z.sub_diag, Z.pow_0_r. lia.
  - cbn [scan_digits] in H. destruct (digit_value c) as [d|] eqn:Ed.
    + destruct (digit_class c d Ed) as [Hd _].
      assert (Hacc' : 0 <= 10 * acc + d) by lia.
      destruct (IH _ _ _ _ _ _ H Hacc') as [Hn [Hv Hlt]].
      split; [lia|]. split; [lia|].
      replace (Z.of_nat n' - Z.of_nat n)
        with (Z.succ (Z.of_nat n' - Z.of_nat (S n))) by lia.
      rewrite Z.pow_succ_r by lia.
      assert (HP : 0 < 10 ^ (Z.of_nat n' - Z.of_nat (S n)))
        by (apply Z.pow_pos_nonneg; lia).
      revert Hlt HP. generalize (10 ^ (Z.of_nat n' - Z.of_nat (S n))).
      intros P Hlt HP.
      assert ((10 * acc + d + 1) * P <= (acc + 1) * 10 * P)
        by (apply Z.mul_le_mono_nonneg_r; lia).
      lia.
    + destruct (Ascii.eqb c "_").
      * destruct prev; [discriminate|]. exact (IH _ _ _ _ _ _ H Hacc).
      * destruct prev; [discriminate|]. injection H as <- <- <-.
        rewrite Z.sub_diag, Z.pow_0_r. lia.
Qed.

Lemma value_head (s : string) (acc v : Z) :
  value_of s acc = Some v -> (1 <= String.length s)%nat ->
  is_space (match s with String c _ => c | EmptyString => " "%char end) = false /\
  head_is "_" s = false /\ head_is "+" s = false /\ head_is "-" s = false.
Proof.
  destruct s as [|c s]; simpl; [lia|].
  destruct (digit_value c) as [d|] eqn:Ed; [|discriminate].
  intros _ _. destruct (digit_class c d Ed) as [_ [_ [H1 [H2 [H3 [H4 _]]]]]].
  auto.
Qed.

Lemma value_free (s : string) :
  forall acc v, value_of s acc = Some v -> count_of "x" s = 0%nat.
Proof.
  induction s as [|c s IH]; intros acc v; simpl; [reflexivity|].
  destruct (digit_value c) as [d|] eqn:Ed; [|discriminate].
  destruct (digit_class c d Ed) as [_ [_ [_ [_ [_ [_ H]]]]]].
  rewrite H. simpl. eauto.
Qed.

(** [int] reads a string of at most 4300 digits, with or without a minus
    sign in front, as the number it denotes. *)
Lemma int_digits (ds : string) (n : Z) (negative : bool) :
  value_of ds 0 = Some n ->
  (1 <= String.length ds <= int_max_str_digits)%nat ->
  int (if negative then String "-" ds else ds)
  = Ok (if negative then - n else n).
Proof.
  intros Hv [Hlen Hmax].
  destruct (value_head ds 0 n Hv Hlen) as [Hsp [Hu [Hplus Hminus]]].
  pose proof (scan_value ds EmptyString false 0 0%nat n Hv
                (or_intror eq_refl) (or_introl eq_refl)) as Hscan.
  assert (Eapp : (ds ++ EmptyString)%string = ds)
    by (clear; induction ds; simpl; congruence).
  rewrite Eapp in Hscan.
  assert (Hskip : skip_spaces ds = ds).
  { destruct ds as [|c ds]; [reflexivity|]. simpl in *. now rewrite Hsp. }
  unfold int. destruct negative.
  - cbn [skip_spaces]. replace (is_space "-") with false by reflexivity.
    cbn [head_is]. replace (Ascii.eqb "-" "+") with false by reflexivity.
    rewrite Ascii.eqb_refl. cbn [orb tail]. rewrite Hu, Hscan.
    destruct (Nat.eqb_spec (0 + String.length ds) 0); [lia|].
    cbn [skip_spaces].
    destruct (Nat.ltb_spec int_max_str_digits (0 + String.length ds)); [lia|].
    reflexivity.
  - rewrite Hskip, Hplus, Hminus. cbn [orb]. rewrite Hu, Hscan.
    destruct (Nat.eqb_spec (0 + String.length ds) 0); [lia|].
    cbn [skip_spaces].
    destruct (Nat.ltb_spec int_max_str_digits (0 + String.length ds)); [lia|].
    reflexivity.
Qed.

(** What [str_of_int] returns. *)
Lemma str_of_int_spec (n : Z) (s : string) :
  str_of_int n = Ok s ->
  exists ds,
    s = (if n <? 0 then String "-" ds else ds) /\
    value_of ds 0 = Some (Z.abs n) /\
    (1 <= String.length ds <= int_max_str_digits)%nat.
Proof.
  unfold str_of_int.
  assert (Hfuel : 0 <= Z.abs n < 2 ^ Z.of_nat (S (Z.to_nat (Z.log2 (Z.abs n))))).
  { split; [lia|].
    rewrite Nat2Z.inj_succ, Z2Nat.id by apply Z.log2_nonneg.
    destruct (Z.eq_dec (Z.abs n) 0) as [->|Hnz]; [reflexivity|].
    apply Z.log2_spec. lia. }
  destruct (decimal_digits_spec _ (Z.abs n) EmptyString Hfuel ltac:(lia))
    as [ds [E [Hlen [Hval _]]]].
  assert (Eapp : (ds ++ EmptyString)%string = ds)
    by (clear; induction ds; simpl; congruence).
  rewrite E, Eapp.
  destruct (Nat.ltb_spec int_max_str_digits (String.length ds)); [discriminate|].
  intros Hs; injection Hs as <-. exists ds. split; [reflexivity|].
  split; [|lia]. rewrite Hval, Z.mul_0_l. reflexivity.
Qed.

(** A number with fewer than 4301 digits is printed. *)
Lemma str_of_int_total (n : Z) :
  Z.abs n < 10 ^ Z.of_nat int_max_str_digits ->
  exists s, str_of_int n = Ok s.
Proof.
  intros Hn. unfold str_of_int.
  assert (Hfuel : 0 <= Z.abs n < 2 ^ Z.of_nat (S (Z.to_nat (Z.log2 (Z.abs n))))).
  { split; [lia|].
    rewrite Nat2Z.inj_succ, Z2Nat.id by apply Z.log2_nonneg.
    destruct (Z.eq_dec (Z.abs n) 0) as [->|Hnz]; [reflexivity|].
    apply Z.log2_spec. lia. }
  destruct (decimal_digits_spec _ (Z.abs n) EmptyString Hfuel ltac:(lia))
    as [ds [E [Hlen [_ Hlow]]]].
  assert (Eapp : (ds ++ EmptyString)%string = ds)
    by (clear; induction ds; simpl; congruence).
  rewrite E, Eapp.
  destruct (Nat.ltb_spec int_max_str_digits (String.length ds)) as [Hgt|Hle];
    [exfalso | eexists; reflexivity].
  destruct (Z.eq_dec (Z.abs n) 0) as [Hz|Hnz].
  - (* the digits of 0 *)
    revert E. rewrite Hz. cbn. intros E.
    assert (Hone : String.length (ds ++ EmptyString) = 1%nat)
      by (rewrite <- E; reflexivity).
    rewrite Eapp in Hone. unfold int_max_str_digits in Hgt. lia.
  - specialize (Hlow ltac:(lia)).
    assert (10 ^ Z.of_nat int_max_str_digits
            <= 10 ^ (Z.of_nat (String.length ds) - 1))
      by (apply Z.pow_le_mono_r; lia).
    lia.
Qed.

(** What [int] accepts is below ten to the 4300. *)
Lemma int_bound (text : string) (n : Z) :
  int text = Ok n -> Z.abs n < 10 ^ Z.of_nat int_max_str_digits.
Proof.
  unfold int.
  destruct (head_is "_" _); [discriminate|].
  destruct (scan_digits _ false 0 0) as [[[v d] rest]|] eqn:E; [|discriminate].
  destruct (d =? 0)%nat; [discriminate|].
  destruct (skip_spaces rest); [|discriminate].
  destruct (Nat.ltb_spec int_max_str_digits d); [discriminate|].
  intros Hok. injection Hok as <-.
  assert (H0 : 0 <= 0) by lia.
  destruct (scan_bound _ _ _ _ _ _ _ E H0) as [_ [Hv Hlt]].
  rewrite Z.sub_0_r, Z.mul_1_l in Hlt.
  assert (10 ^ Z.of_nat d <= 10 ^ Z.of_nat int_max_str_digits)
    by (apply Z.pow_le_mono_r; lia).
  destruct (head_is "-" _); lia.
Qed.

(** What [str_of_int] prints, joined with "x", is read back. *)
Lemma read_printed (width height : Z) (a b : string) :
  str_of_int width = Ok a ->
  str_of_int height = Ok b ->
  parse_dimensions (a ++ "x" ++ b) = Ok (width, height).
Proof.
  intros Ha Hb.
  destruct (str_of_int_spec width a Ha) as [da [-> [Hva Hla]]].
  destruct (str_of_int_spec height b Hb) as [db [-> [Hvb Hlb]]].
  assert (Hfa : count_of "x" (if width <? 0 then String "-" da else da) = 0%nat).
  { pose proof (value_free da 0 _ Hva).
    destruct (width <? 0); simpl; assumption. }
  assert (Hfb : count_of "x" (if height <? 0 then String "-" db else db) = 0%nat).
  { pose proof (value_free db 0 _ Hvb).
    destruct (height <? 0); simpl; assumption. }
  unfold parse_dimensions. cbn [String.append].
  rewrite split_app by exact Hfa.
  rewrite split_free by exact Hfb.
  cbn [unpack_two_ints].
  rewrite (int_digits da (Z.abs width) (width <? 0) Hva Hla).
  cbn [rbind].
  rewrite (int_digits db (Z.abs height) (height <? 0) Hvb Hlb).
  cbn [rbind].
  destruct (Z.ltb_spec width 0), (Z.ltb_spec height 0);
    do 2 f_equal; lia.
Qed.

End ParseFacts.

(** X11. The dimension string is accepted exactly when it is [a], a
    lower-case "x" and [b], where neither part holds another "x" and
    [int] reads each part; the two numbers are then the width and the
    height.  Every other string, among them every string in which "x" does
    not occur exactly once, raises ValueError, and nothing but ValueError is
    ever raised. *)
Theorem parse_dimensions_accepts (dimensions : string) :
  (forall width height,
      Builtins.parse_dimensions dimensions = Ok (width, height) <->
      exists a b,
        dimensions = (a ++ "x" ++ b)%string /\
        count_of "x" a = 0%nat /\ count_of "x" b = 0%nat /\
        Builtins.int a = Ok width /\ Builtins.int b = Ok height) /\
  (forall e, Builtins.parse_dimensions dimensions = Raise e -> e = ValueError) /\
  (count_of "x" dimensions <> 1%nat ->
   Builtins.parse_dimensions dimensions = Raise ValueError).
Proof.
  assert (Hok : forall width height,
      Builtins.parse_dimensions dimensions = Ok (width, height) <->
      exists a b,
        dimensions = (a ++ "x" ++ b)%string /\
        count_of "x" a = 0%nat /\ count_of "x" b = 0%nat /\
        Builtins.int a = Ok width /\ Builtins.int b = Ok height).
  { intros width height. unfold Builtins.parse_dimensions.
    rewrite ParseFacts.unpack_ok. split.
    - intros [a [b [Hsplit [Ha Hb]]]]. exists a, b.
      pose proof (ParseFacts.join_split dimensions "x") as Hjoin.
      pose proof (ParseFacts.split_parts_free dimensions "x") as Hfree.
      rewrite Hsplit in Hjoin, Hfree.
      apply Forall_cons_iff in Hfree. destruct Hfree as [Hfa Hfree].
      apply Forall_cons_iff in Hfree. destruct Hfree as [Hfb _].
      split; [now rewrite <- Hjoin | auto].
    - intros [a [b [-> [Hfa [Hfb [Ha Hb]]]]]]. exists a, b.
      split; [|now split]. cbn [String.append].
      rewrite ParseFacts.split_app by exact Hfa.
      now rewrite ParseFacts.split_free by exact Hfb. }
  split; [exact Hok|]. split.
  - intros e. apply ParseFacts.unpack_raises.
  - intros Hcount.
    destruct (Builtins.parse_dimensions dimensions) as [[w h]|e] eqn:E.
    + exfalso. apply Hcount.
      unfold Builtins.parse_dimensions in E.
      apply ParseFacts.unpack_ok in E. destruct E as [a [b [Hsplit _]]].
      pose proof (ParseFacts.length_split dimensions "x") as Hlen.
      rewrite Hsplit in Hlen. simpl in Hlen. lia.
    + f_equal. eapply ParseFacts.unpack_raises. exact E.
Qed.

(** X12. Printing and reading agree: when [f"{width}"] and [f"{height}"]
    are printed (each number has at most 4300 digits), joining them with
    "x" gives a dimension string that is read back as the same width and
    height, negative numbers included. *)
Theorem dimensions_round_trip (width height : Z) (a b : string) :
  Builtins.str_of_int width = Ok a ->
  Builtins.str_of_int height = Ok b ->
  Builtins.parse_dimensions (a ++ "x" ++ b) = Ok (width, height).
Proof. apply ParseFacts.read_printed. Qed.

Lemma dimensions_round_trip_witness :
  Builtins.parse_dimensions ("512" ++ "x" ++ "-256") = Ok (512, -256).
Proof.
  apply (dimensions_round_trip 512 (-256) "512" "-256"); reflexivity.
Defined.

(** What the reading tolerates: blanks around each number, an explicit
    sign, leading zeros and single underscores between digits. *)
Example dimensions_loosely_written :
  Builtins.parse_dimensions " +0512 x 1_024 " = Ok (512, 1024) /\
  Builtins.parse_dimensions "512X512" = Raise ValueError /\
  Builtins.parse_dimensions "512" = Raise ValueError /\
  Builtins.parse_dimensions "512x512x3" = Raise ValueError /\
  Builtins.parse_dimensions "512 x" = Raise ValueError.
Proof. repeat split; reflexivity. Qed.

(** ** Why procedural creation fails *)

Module FailureFacts.
Import PIL AIAssetGenerator LoopFacts.

Lemma for_each_raises {A S} (P : exn -> Prop) (xs : list A)
      (body : S -> A -> M S) :
  (forall s x st e, body s x st = Raise e -> P e) ->
  forall s st e, for_each xs s body st = Raise e -> P e.
Proof.
  intros Hbody. induction xs as [|x xs IH]; intros s st e H.
  - discriminate.
  - simpl in H. unfold bind in H.
    destruct (body s x st) as [[s' st']|e'] eqn:E.
    + eapply IH; eauto.
    + injection H as <-. eapply Hbody; eauto.
Qed.

Lemma random_choice_total {A} (seq : list A) (st : RandomState) :
  seq <> [] -> exists a, random_choice seq st = Ok (a, advance 1 st).
Proof.
  intros Hne. destruct (random_choice_picks seq st 0 Hne) as [a [_ [_ H]]].
  rewrite advance_0 in H. now exists a.
Qed.

(** The sprite routine raises nothing but ValueError. *)
Lemma sprite_raises draw width height colors shapes style_config st e :
  colors <> [] ->
  _generate_sprite draw width height colors shapes style_config st = Raise e ->
  e = ValueError.
Proof.
  intros Hne. unfold _generate_sprite. cbv zeta. unfold bind at 1.
  match goal with
  | |- context [for_each ?xs ?s ?body st] =>
      destruct (for_each xs s body st) as [[s' st']|e'] eqn:E
  end; [discriminate|].
  intros H; injection H as <-. revert E.
  apply (for_each_raises (fun e => e = ValueError)).
  intros [d size] shape st0 e0. unfold bind at 1.
  destruct (random_choice_total colors st0 Hne) as [color ->].
  unfold bind.
  destruct (String.eqb shape "circle").
  - unfold lift, draw_ellipse. destruct (valid_box _); [discriminate|].
    congruence.
  - destruct (String.eqb shape "rectangle"); [|discriminate].
    unfold lift, draw_rectangle. destruct (valid_box _); [discriminate|].
    congruence.
Qed.




End FailureFacts.



(** The four failures on the sample machine and on one that cannot allocate
    a canvas of 16 x 16. *)
Example procedural_asset_failures :
  AIAssetGenerator._create_procedural_asset (Mem := roomy)
    "stone" "icon" "realistic" (-1) 16 counting = Raise ValueError /\
  AIAssetGenerator._create_procedural_asset (Mem := roomy)
    "stone" "icon" "realistic" 16 2147483648 counting = Raise OverflowError /\
  AIAssetGenerator._create_procedural_asset
    (Mem := {| PIL.fits := fun width height => width * height <? 256 |})
    "stone" "icon" "realistic" 16 16 counting = Raise MemoryError /\
  AIAssetGenerator._create_procedural_asset (Mem := roomy)
    "circle rectangle" "sprite" "realistic" 16 16 counting = Raise ValueError.
Proof. repeat split. Qed.

(** ** The debug assistant *)

Module DebugFacts.
Import AIDebugAssistant.

Lemma find_pattern_first (message : string) (found : Finding) :
  forall before name info after,
    (forall n i, In (n, i) before -> ~ names message n) ->
    names message name ->
    find_pattern (before ++ (name, info) :: after) message found
    = finding_of info.
Proof.
  induction before as [|[n i] before IH]; intros name info after Hnone Hname.
  - simpl. apply StrFacts.contains_lower in Hname. now rewrite Hname.
  - simpl.
    destruct (Str.contains (Str.lower n) (Str.lower message)) eqn:E.
    + exfalso. apply (Hnone n i); [now left|].
      now apply StrFacts.contains_lower.
    + apply IH; [|exact Hname]. intros n' i' Hin. apply (Hnone n' i'). now right.
Qed.

Lemma find_pattern_none (message : string) (found : Finding) :
  forall errors,
    (forall n i, In (n, i) errors -> ~ names message n) ->
    find_pattern errors message found = found.
Proof.
  induction errors as [|[n i] errors IH]; intros Hnone; simpl; [reflexivity|].
  destruct (Str.contains (Str.lower n) (Str.lower message)) eqn:E.
  - exfalso. apply (Hnone n i); [now left|].
    now apply StrFacts.contains_lower.
  - apply IH. intros n' i' Hin. apply (Hnone n' i'). now right.
Qed.

(** Whatever is found is the default or an entry of the table. *)
Lemma find_pattern_cases (message : string) (found : Finding) :
  forall errors,
    find_pattern errors message found = found \/
    exists n i, In (n, i) errors /\
                find_pattern errors message found = finding_of i.
Proof.
  induction errors as [|[n i] errors IH]; simpl; [now left|].
  destruct (Str.contains (Str.lower n) (Str.lower message)).
  - right. exists n, i. split; [now left | reflexivity].
  - destruct IH as [IH|[n' [i' [Hin IH]]]]; [now left|].
    right. exists n', i'. split; [now right | exact IH].
Qed.

End DebugFacts.

(** X14. The analysis of an error message is that of the first entry of
    the table (NullReferenceException, IndexOutOfRangeException,
    MissingReferenceException, in this order) whose name occurs in the
    message when the case of letters is ignored, wherever in the message
    the names stand; when no name occurs it is "Unknown error type" with
    the two general hints.  At least two solutions are always suggested,
    and the list of documents is empty exactly for an unknown error. *)
Theorem match_error_first_named (error_message : string) :
  (forall before name info after,
      AIDebugAssistant.common_errors = before ++ (name, info) :: after ->
      (forall n i, In (n, i) before -> ~ names error_message n) ->
      names error_message name ->
      AIDebugAssistant.match_error error_message = finding_of info) /\
  ((forall n i, In (n, i) AIDebugAssistant.common_errors ->
                ~ names error_message n) ->
   AIDebugAssistant.match_error error_message
   = AIDebugAssistant.mkFinding
       "Unknown error type"
       [ "Check the error message for specific details";
         "Review recent code changes" ]
       []) /\
  (2 <= List.length (AIDebugAssistant.suggested_solutions
                       (AIDebugAssistant.match_error error_message)))%nat /\
  (AIDebugAssistant.relevant_docs (AIDebugAssistant.match_error error_message)
   = [] <->
   AIDebugAssistant.error_analysis (AIDebugAssistant.match_error error_message)
   = "Unknown error type").
Proof.
  split; [|split].
  - intros before name info after Htable Hnone Hname.
    unfold AIDebugAssistant.match_error. rewrite Htable.
    now apply DebugFacts.find_pattern_first.
  - intros Hnone. unfold AIDebugAssistant.match_error.
    now apply DebugFacts.find_pattern_none.
  - unfold AIDebugAssistant.match_error.
    match goal with
    | |- context [AIDebugAssistant.find_pattern ?t ?m ?d] =>
        destruct (DebugFacts.find_pattern_cases m d t)
          as [->|[n [i [Hin ->]]]]
    end.
    + split; [simpl; lia | split; reflexivity].
    + simpl in Hin.
      destruct Hin as [E|[E|[E|[]]]]; injection E as <- <-;
        (split; [simpl; lia | split; discriminate]).
Qed.

(** Two names in one message: the entry that comes first in the table is
    reported, not the name that comes first in the message. *)
Example null_reference_wins :
  AIDebugAssistant.error_analysis
    (AIDebugAssistant.match_error
       "indexoutofrangeexception after NULLREFERENCEEXCEPTION")
  = "Attempting to access a member on a null object reference".
Proof. reflexivity. Qed.

(** X15. Engine tips are looked up by the exact, lower-case engine name:
    every engine name other than "unreal" and "godot" (among them "Unity",
    "Unreal" and "Godot" written with a capital) gets the three Unity
    tips. *)
Theorem engine_tips_default_to_unity (engine_type : string) :
  engine_type <> "unreal" -> engine_type <> "godot" ->
  AIDebugAssistant._get_engine_specific_tips engine_type
  = [ "Use Debug.Log() for runtime debugging";
      "Check the Console window for detailed error information";
      "Use Unity's built-in Profiler for performance issues" ].
Proof.
  intros Hu Hg. unfold AIDebugAssistant._get_engine_specific_tips.
  unfold AIDebugAssistant.tips. cbn [AIAssetGenerator.dict_get].
  destruct (String.eqb "unity" engine_type); [reflexivity|].
  rewrite (DispatchFacts.eqb_neq "unreal" engine_type) by congruence.
  rewrite (DispatchFacts.eqb_neq "godot" engine_type) by congruence.
  reflexivity.
Qed.

Lemma engine_tips_default_to_unity_witness :
  AIDebugAssistant._get_engine_specific_tips "Unreal"
  = [ "Use Debug.Log() for runtime debugging";
      "Check the Console window for detailed error information";
      "Use Unity's built-in Profiler for performance issues" ].
Proof.
  apply (engine_tips_default_to_unity "Unreal"); discriminate.
Defined.
(** ** The services of [gamedev_ai_mvp.py] *)

Module IOFacts.
Import Runtime.

Section Laws.
Context {P : Platform}.

Lemma io_bind_return {A B} (m : IO A) (k : A -> IO B) (w w' : World) (b : B) :
  io_bind m k w = (Return b, w') ->
  exists a w1, m w = (Return a, w1) /\ k a w1 = (Return b, w').
Proof.
  unfold io_bind. destruct (m w) as [[a|e] w1]; [|discriminate].
  intros H. now exists a, w1.
Qed.




Lemma of_result_return {A} (r : result A) (w w' : World) (a : A) :
  of_result r w = (Return a, w') -> r = Ok a /\ w' = w.
Proof.
  destruct r; simpl; unfold io_ret, raise; intros H; [|discriminate].
  injection H as <- <-. now split.
Qed.


Lemma run_random_return {A} (m : M A) (w w' : World) (a : A) :
  run_random m w = (Return a, w') ->
  m (random_state w) = Ok (a, random_state w') /\ env w' = env w.
Proof.
  unfold run_random. destruct (m (random_state w)) as [[a' st]|e];
    [|discriminate].
  intros H. injection H as <- <-. now split.
Qed.


End Laws.

Lemma length_substring (n m : nat) (s : string) :
  (String.length (substring n m s) <= m)%nat.
Proof.
  revert n m. induction s as [|c s IH]; intros [|n] [|m]; simpl; try lia.
  - specialize (IH 0%nat m). lia.
  - apply IH.
  - apply IH.
Qed.

End IOFacts.

(** X16. What [generate_asset] returns, when it returns: the dimension
    string was read as a width and a height that are not negative; the
    metadata hold the dimension string as it was given, the file size
    width * height * 4, and a colour palette of at most five entries, each
    "#" and six hexadecimal digits; the file path is "assets/", the asset id
    and ".png", and the asset id has at most 12 characters. *)
Theorem generated_asset_record
        {P : Runtime.Platform} {R : PIL.Rasterizer} {Mem : PIL.Memory}
        (prompt asset_type style dimensions : string)
        (w w' : Runtime.World) (asset : AssetService.Asset) :
  AssetService.generate_asset prompt asset_type style dimensions w
  = (Runtime.Return asset, w') ->
  exists width height palette,
    Builtins.parse_dimensions dimensions = Ok (width, height) /\
    0 <= width /\ 0 <= height /\
    Runtime.dict_find (AssetService.metadata asset) "dimensions"
    = Some (Runtime.VStr dimensions) /\
    Runtime.dict_find (AssetService.metadata asset) "file_size"
    = Some (Runtime.VInt (width * height * 4)) /\
    Runtime.dict_find (AssetService.metadata asset) "color_palette"
    = Some (Runtime.VList palette) /\
    (List.length palette <= 5)%nat /\
    Forall (fun s => is_hex_color s = true) palette /\
    AssetService.file_path asset
    = ("assets/" ++ AssetService.asset_id asset ++ ".png")%string /\
    (String.length (AssetService.asset_id asset) <= 12)%nat.
Proof.
  intros H. unfold AssetService.generate_asset in H.
  apply IOFacts.io_bind_return in H. destruct H as [t0 [w0 [_ H]]].
  apply IOFacts.io_bind_return in H. destruct H as [[width height] [w1 [Hp H]]].
  apply IOFacts.of_result_return in Hp. destruct Hp as [Hp ->].
  apply IOFacts.io_bind_return in H. destruct H as [t1 [w2 [_ H]]].
  apply IOFacts.io_bind_return in H. destruct H as [image [w3 [Hr H]]].
  apply IOFacts.run_random_return in Hr. destruct Hr as [Hr _].
  apply IOFacts.io_bind_return in H. destruct H as [[] [w4 [_ H]]].
  apply IOFacts.io_bind_return in H. destruct H as [[] [w5 [_ H]]].
  apply IOFacts.io_bind_return in H. destruct H as [t2 [w6 [_ H]]].
  unfold Runtime.io_ret in H. injection H as <- _.
  destruct (CanvasFacts.created_on_blank _ _ _ _ _ _ _ _ Hr)
    as [Hext [Hw [Hh [Hinit [Hwn Hhn]]]]].
  exists width, height, (AIAssetGenerator._extract_color_palette image).
  cbn [AssetService.metadata AssetService.file_path AssetService.asset_id].
  split; [exact Hp|]. split; [exact Hwn|]. split; [exact Hhn|].
  split; [reflexivity|]. split; [simpl; now rewrite Hw, Hh|].
  split; [reflexivity|]. split; [|split; [|split]].
  - apply HexFacts.palette_length.
  - apply HexFacts.palette_hex. rewrite Hinit. simpl. unfold channel. lia.
  - reflexivity.
  - apply IOFacts.length_substring.
Qed.

Lemma generated_asset_record_witness :
  exists width height palette,
    Builtins.parse_dimensions "8x8" = Ok (width, height) /\
    0 <= width /\ 0 <= height /\
    Runtime.dict_find
      [ ("prompt", Runtime.VStr "red"); ("asset_type", Runtime.VStr "icon");
        ("style", Runtime.VStr "pixel"); ("dimensions", Runtime.VStr "8x8");
        ("file_size", Runtime.VInt 256);
        ("color_palette", Runtime.VList [ "#ffffff"; "#ff0000" ]) ]
      "dimensions"
    = Some (Runtime.VStr "8x8") /\
    Runtime.dict_find
      [ ("prompt", Runtime.VStr "red"); ("asset_type", Runtime.VStr "icon");
        ("style", Runtime.VStr "pixel"); ("dimensions", Runtime.VStr "8x8");
        ("file_size", Runtime.VInt 256);
        ("color_palette", Runtime.VList [ "#ffffff"; "#ff0000" ]) ]
      "file_size"
    = Some (Runtime.VInt (width * height * 4)) /\
    Runtime.dict_find
      [ ("prompt", Runtime.VStr "red"); ("asset_type", Runtime.VStr "icon");
        ("style", Runtime.VStr "pixel"); ("dimensions", Runtime.VStr "8x8");
        ("file_size", Runtime.VInt 256);
        ("color_palette", Runtime.VList [ "#ffffff"; "#ff0000" ]) ]
      "color_palette"
    = Some (Runtime.VList palette) /\
    (List.length palette <= 5)%nat /\
    Forall (fun s => is_hex_color s = true) palette /\
    "assets/d41d8cd98f00.png"%string
    = ("assets/" ++ "d41d8cd98f00" ++ ".png")%string /\
    (String.length "d41d8cd98f00" <= 12)%nat.
Proof.
  apply (generated_asset_record (P := offline) (R := lattice) (Mem := roomy)
           "red" "icon" "pixel" "8x8" fresh
           (Runtime.mkWorld (P := offline) counting 5%nat)
           (AssetService.mkAsset
              "d41d8cd98f00" "assets/d41d8cd98f00.png"
              [ ("prompt", Runtime.VStr "red");
                ("asset_type", Runtime.VStr "icon");
                ("style", Runtime.VStr "pixel");
                ("dimensions", Runtime.VStr "8x8");
                ("file_size", Runtime.VInt 256);
                ("color_palette", Runtime.VList [ "#ffffff"; "#ff0000" ]) ]
              (S754_zero false))).
  vm_compute. reflexivity.
Defined.



(** The dimension string "2147483648x1" is read, and [Image.new] raises
    OverflowError on it. *)
Example generate_asset_overflows :
  fst (AssetService.generate_asset (P := offline) (R := lattice) (Mem := roomy)
         "stone wall" "texture" "realistic" "2147483648x1" fresh)
  = Runtime.Throw (Runtime.Builtin OverflowError).
Proof. reflexivity. Qed.

(** X18. The endpoint [POST /api/v1/generate-asset] never answers with
    status 400: whatever it raises is an HTTPException of status 500.  For
    an asset type outside "texture", "sprite", "icon", "background" the
    HTTPException of status 400 it raises itself is caught by its own
    [except Exception] and turned into status 500, the generator is not
    called and nothing outside is touched. *)
Theorem asset_endpoint_never_answers_400
        {P : Runtime.Platform} {R : PIL.Rasterizer} {Mem : PIL.Memory}
        (request : AssetService.AssetGenerationRequest) (w : Runtime.World) :
  (forall e w',
      AssetService.generate_asset_endpoint request w = (Runtime.Throw e, w') ->
      exists detail, e = Runtime.HTTPException 500 detail) /\
  (~ In (AssetService.asset_type request) AssetService.supported_types ->
   AssetService.generate_asset_endpoint request w
   = (Runtime.Throw
        (Runtime.HTTPException 500
           ("Asset generation failed: "
            ++ Runtime.exception_text
                 (Runtime.HTTPException 400
                    "Unsupported asset type. Supported types: ['texture', 'sprite', 'icon', 'background']"))),
      w)).
Proof.
  split.
  - intros e w'. unfold AssetService.generate_asset_endpoint.
    unfold Runtime.try_except.
    match goal with
    | |- context [match ?body w with _ => _ end] =>
        destruct (body w) as [[a|e1] w1]
    end; [discriminate|].
    unfold Runtime.raise. intros H. injection H as <- _. eauto.
  - intros Hout. unfold AssetService.generate_asset_endpoint.
    assert (E : existsb (String.eqb (AssetService.asset_type request))
                        AssetService.supported_types = false).
    { apply not_true_is_false. intros Hex. apply Hout.
      apply existsb_exists in Hex. destruct Hex as [x [Hin Hx]].
      apply String.eqb_eq in Hx. now subst. }
    rewrite E. reflexivity.
Qed.

(** The request of the test suite, asset type "invalid_type": status 500
    where the test expects 400. *)
Example invalid_type_answers_500 :
  AssetService.generate_asset_endpoint (P := offline) (R := lattice) (Mem := roomy)
    (AssetService.mkAssetRequest "test prompt" "invalid_type" "realistic"
                                 "256x256") fresh
  = (Runtime.Throw
       (Runtime.HTTPException 500 "Asset generation failed: error"), fresh).
Proof. reflexivity. Qed.

(** X19. The answer of [POST /api/v1/debug] depends on the error message
    alone: the engine type and the code context of the request change
    neither the response nor what is stored (the engine tips are computed
    and dropped).  A response carries the analysis, the solutions and the
    documents of the first table entry named in the message; whatever the
    endpoint raises is an HTTPException of status 500. *)
Theorem debug_answer_depends_on_message
        {P : Runtime.Platform}
        (error_message : string) (code_context : option string)
        (engine_type : string) (w : Runtime.World) :
  AssetService.debug_assistance
    (AssetService.mkDebugRequest error_message code_context engine_type) w
  = AssetService.debug_assistance
      (AssetService.mkDebugRequest error_message None "unity") w /\
  (forall response w',
      AssetService.debug_assistance
        (AssetService.mkDebugRequest error_message code_context engine_type) w
      = (Runtime.Return response, w') ->
      AssetService.response_error_analysis response
      = AIDebugAssistant.error_analysis
          (AIDebugAssistant.match_error error_message) /\
      AssetService.response_suggested_solutions response
      = AIDebugAssistant.suggested_solutions
          (AIDebugAssistant.match_error error_message) /\
      AssetService.response_relevant_documentation response
      = AIDebugAssistant.relevant_docs
          (AIDebugAssistant.match_error error_message)) /\
  (forall e w',
      AssetService.debug_assistance
        (AssetService.mkDebugRequest error_message code_context engine_type) w
      = (Runtime.Throw e, w') ->
      exists detail, e = Runtime.HTTPException 500 detail).
Proof.
  unfold AssetService.debug_assistance, AssetService.analyze_error,
    AssetService._store_debug_session, Runtime.try_except, Runtime.io_bind,
    Runtime.now, Runtime.external, Runtime.io_ret, Runtime.raise.
  cbn [AssetService.error_message AssetService.code_context
       AssetService.engine_type].
  destruct (Runtime.time_time (Runtime.env w)) as [t env1].
  cbn [Runtime.env Runtime.random_state].
  destruct (Runtime.sqlite_insert _ _ env1) as [[[]|message] env2].
  - split; [reflexivity|]. split.
    + intros response w' H. injection H as <- _. now repeat split.
    + intros e w' H. discriminate.
  - split; [reflexivity|]. split.
    + intros response w' H. discriminate.
    + intros e w' H. injection H as <- _. eauto.
Qed.

(** ** [ai_integration.py] *)

(** X20. The size asked of DALL-E: when the dimension string is read as
    width and height, a non-square request is always sent as "1024x1024",
    and a square one as the width and the height printed in decimal, which
    is a dimension string that reads back as the same numbers; printing
    never fails.  So the sizes 1792x1024 and 1024x1792 are never asked
    for. *)
Theorem dalle_size_choice (dimensions : string) (width height : Z) :
  Builtins.parse_dimensions dimensions = Ok (width, height) ->
  (width <> height -> Integration.dalle_size dimensions = Ok "1024x1024") /\
  (width = height ->
   exists text,
     Builtins.str_of_int width = Ok text /\
     Integration.dalle_size dimensions = Ok (text ++ "x" ++ text)%string /\
     Builtins.parse_dimensions (text ++ "x" ++ text) = Ok (width, height)).
Proof.
  intros Hp. unfold Integration.dalle_size. rewrite Hp. cbn [rbind].
  split.
  - intros Hne. destruct (Z.eqb_spec width height); [contradiction|].
    reflexivity.
  - intros <-. rewrite Z.eqb_refl.
    assert (Hb : Z.abs width < 10 ^ Z.of_nat Builtins.int_max_str_digits).
    { unfold Builtins.parse_dimensions in Hp.
      apply ParseFacts.unpack_ok in Hp. destruct Hp as [a [b [_ [Ha _]]]].
      eapply ParseFacts.int_bound; eauto. }
    destruct (ParseFacts.str_of_int_total width Hb) as [text Ht].
    exists text. rewrite Ht. cbn [rbind].
    split; [reflexivity|]. split; [reflexivity|].
    now apply ParseFacts.read_printed.
Qed.

Lemma dalle_size_choice_witness :
  (512 <> 512 -> Integration.dalle_size " +512 x 0512" = Ok "1024x1024") /\
  (512 = 512 ->
   exists text,
     Builtins.str_of_int 512 = Ok text /\
     Integration.dalle_size " +512 x 0512" = Ok (text ++ "x" ++ text)%string /\
     Builtins.parse_dimensions (text ++ "x" ++ text) = Ok (512, 512)).
Proof.
  apply (dalle_size_choice " +512 x 0512" 512 512). reflexivity.
Defined.

(** A wide request, one of the sizes DALL-E 3 supports, is sent as the
    square. *)
Example wide_request_is_sent_square :
  Integration.dalle_size "1792x1024" = Ok "1024x1024" /\
  Integration.dalle_size "512x512" = Ok "512x512".
Proof. split; reflexivity. Qed.

Module ResultFacts.
Import Runtime.

Lemma find_setitem (d : dict) (key key' : string) (v : value) :
  dict_find (setitem d key v) key'
  = if String.eqb key key' then Some v else dict_find d key'.
Proof.
  induction d as [|[k v'] d IH]; simpl.
  - reflexivity.
  - destruct (String.eqb_spec k key) as [->|Hk]; simpl.
    + destruct (String.eqb key key'); reflexivity.
    + rewrite IH. destruct (String.eqb_spec k key') as [->|Hk'];
        [|reflexivity].
      destruct (String.eqb_spec key key'); [congruence | reflexivity].
Qed.

Section Backends.
Context {P : Platform} {R : PIL.Rasterizer} {Mem : PIL.Memory}.

(** With its key a backend raises nothing: it returns a dict of one of the
    two shapes, and no "total_generation_time". *)
Lemma dalle_returns (self : RealAIAssetGenerator.generator)
      (request : RealAIAssetGenerator.AIGenerationRequest) (w : World) :
  RealAIAssetGenerator.configured (RealAIAssetGenerator.openai_api_key self)
  = true ->
  exists d w',
    Integration.generate_with_dalle self request w = (Return d, w') /\
    (succeeded d \/ failed d) /\
    dict_find d "total_generation_time" = None.
Proof.
  intros Hkey. unfold Integration.generate_with_dalle. rewrite Hkey.
  cbn [negb]. cbv zeta.
  unfold try_except, io_bind, of_result, external, of_reply, now, io_ret,
    raise.
  destruct (Integration.dalle_size _) as [size|e0].
  2:{ eexists; eexists. split; [reflexivity|]. split; [right|reflexivity].
      split; [reflexivity | eexists; reflexivity]. }
  cbn [env random_state].
  destruct (openai_Image_create _ _ _ _ _) as [[url|e1] env1].
  2:{ eexists; eexists. split; [reflexivity|]. split; [right|reflexivity].
      split; [reflexivity | eexists; reflexivity]. }
  cbn [env random_state].
  destruct (requests_get_image _ _) as [[image|e2] env2].
  2:{ eexists; eexists. split; [reflexivity|]. split; [right|reflexivity].
      split; [reflexivity | eexists; reflexivity]. }
  cbn [env random_state].
  destruct (time_time env2) as [t env3]. cbn [env random_state].
  destruct (time_time env3) as [t' env4].
  eexists; eexists. split; [reflexivity|]. split; [left|reflexivity].
  repeat split; try reflexivity; eexists; reflexivity.
Qed.

Lemma stable_diffusion_returns (self : RealAIAssetGenerator.generator)
      (request : RealAIAssetGenerator.AIGenerationRequest) (w : World) :
  RealAIAssetGenerator.configured (RealAIAssetGenerator.stability_api_key self)
  = true ->
  exists d w',
    Integration.generate_with_stable_diffusion self request w = (Return d, w') /\
    (succeeded d \/ failed d) /\
    dict_find d "total_generation_time" = None.
Proof.
  intros Hkey. unfold Integration.generate_with_stable_diffusion.
  rewrite Hkey. cbn [negb]. cbv zeta.
  unfold try_except, io_bind, of_result, external, of_reply, now, io_ret,
    raise.
  destruct (Builtins.parse_dimensions _) as [[width height]|e0].
  2:{ eexists; eexists. split; [reflexivity|]. split; [right|reflexivity].
      split; [reflexivity | eexists; reflexivity]. }
  cbn [env random_state].
  destruct (requests_post _ _ _ _ _) as [[[status body]|e1] env1].
  2:{ eexists; eexists. split; [reflexivity|]. split; [right|reflexivity].
      split; [reflexivity | eexists; reflexivity]. }
  cbn [env random_state].
  destruct (negb (status =? 200)).
  { destruct (Builtins.str_of_int status) as [code|e2];
      (eexists; eexists; split; [reflexivity|]; split; [right|reflexivity];
       split; [reflexivity | eexists; reflexivity]). }
  destruct (decode_artifact body) as [image|e3].
  2:{ eexists; eexists. split; [reflexivity|]. split; [right|reflexivity].
      split; [reflexivity | eexists; reflexivity]. }
  cbn [env random_state].
  destruct (time_time env1) as [t env3]. cbn [env random_state].
  destruct (time_time env3) as [t' env4].
  eexists; eexists. split; [reflexivity|]. split; [left|reflexivity].
  repeat split; try reflexivity; eexists; reflexivity.
Qed.

(** The end of the [try] block: a success gains its total time, a failure
    is returned as it is. *)
Lemma timed_returns (start_time : PyFloat.float) (d : dict) (w : World) :
  succeeded d \/ failed d ->
  dict_find d "total_generation_time" = None ->
  exists d' w',
    Integration.timed start_time d w = (Return d', w') /\
    ((succeeded d' /\ dict_find d' "total_generation_time" <> None) \/
     (failed d' /\ d' = d)).
Proof.
  intros Hshape Hnone. unfold Integration.timed, io_bind, of_outcome, getitem.
  destruct Hshape as [Hs|Hf].
  - destruct Hs as [Hok [[a Ha] [[im Him] [[m Hm] [p Hp]]]]].
    rewrite Hok. cbn [io_ret truthy]. unfold now.
    destruct (time_time (env w)) as [t env1].
    eexists; eexists. split; [reflexivity|]. left. split.
    + unfold succeeded. rewrite !find_setitem. cbn [String.eqb Ascii.eqb
        Bool.eqb]. repeat split; try assumption; eauto.
    + rewrite find_setitem, String.eqb_refl. discriminate.
  - destruct Hf as [Hok He]. rewrite Hok. cbn [io_ret truthy].
    eexists; eexists. split; [reflexivity|]. right.
    split; [split; assumption | reflexivity].
Qed.

(** [generate_asset] raises nothing.  With a key its result is a success
    with "total_generation_time" or a failure; without any key it is a
    success without "total_generation_time" or a failure. *)
Lemma generate_asset_returns (self : RealAIAssetGenerator.generator)
      (request : RealAIAssetGenerator.AIGenerationRequest) (w : World) :
  exists d w',
    Integration.generate_asset self request w = (Return d, w') /\
    (failed d \/
     (succeeded d /\
      (dict_find d "total_generation_time" <> None <->
       RealAIAssetGenerator.configured
         (RealAIAssetGenerator.openai_api_key self)
       || RealAIAssetGenerator.configured
            (RealAIAssetGenerator.stability_api_key self) = true))).
Proof.
  unfold Integration.generate_asset. unfold io_bind at 1. unfold now at 1.
  destruct (time_time (env w)) as [start env0].
  set (w0 := mkWorld (random_state w) env0).
  pose proof (RouterFacts.routed_backend_has_key self request) as Hkey.
  unfold try_except.
  destruct (RealAIAssetGenerator.generate_asset self request)
    as [r|r|p a s d] eqn:Eroute.
  - destruct (dalle_returns self r w0 Hkey) as [d [w1 [E [Hshape Hnone]]]].
    unfold io_bind at 1. rewrite E.
    destruct (timed_returns start d w1 Hshape Hnone)
      as [d' [w2 [E' [[Hs Ht]|[Hf _]]]]]; rewrite E'.
    + eexists; eexists. split; [reflexivity|]. right. split; [exact Hs|].
      rewrite Hkey. simpl. tauto.
    + eexists; eexists. split; [reflexivity|]. now left.
  - destruct (stable_diffusion_returns self r w0 Hkey)
      as [d [w1 [E [Hshape Hnone]]]].
    unfold io_bind at 1. rewrite E.
    destruct (timed_returns start d w1 Hshape Hnone)
      as [d' [w2 [E' [[Hs Ht]|[Hf _]]]]]; rewrite E'.
    + eexists; eexists. split; [reflexivity|]. right. split; [exact Hs|].
      rewrite Hkey, orb_true_r. tauto.
    + eexists; eexists. split; [reflexivity|]. now left.
  - assert (Hnokey :
      RealAIAssetGenerator.configured
        (RealAIAssetGenerator.openai_api_key self)
      || RealAIAssetGenerator.configured
           (RealAIAssetGenerator.stability_api_key self) = false).
    { unfold RealAIAssetGenerator.generate_asset in Eroute.
      destruct (RealAIAssetGenerator.configured
                  (RealAIAssetGenerator.openai_api_key self));
        destruct (RealAIAssetGenerator.configured
                    (RealAIAssetGenerator.stability_api_key self));
        try reflexivity;
        repeat match type of Eroute with
               | context [if ?c then _ else _] => destruct c
               end; discriminate. }
    unfold io_bind at 1.
    destruct (AssetService.generate_asset p a s d w0) as [[asset|e] w1].
    2:{ unfold io_bind, now. destruct (time_time (env w1)) as [t env2].
        eexists; eexists. split; [reflexivity|]. left.
        split; [reflexivity | eexists; reflexivity]. }
    unfold io_bind at 1. unfold external, of_reply, io_ret, raise.
    destruct (image_open _ (env w1)) as [[image|e] env2].
    2:{ unfold io_bind, now. cbn [env random_state].
        destruct (time_time env2) as [t env3].
        eexists; eexists. split; [reflexivity|]. left.
        split; [reflexivity | eexists; reflexivity]. }
    unfold io_bind, now, io_ret. cbn [env random_state].
    destruct (time_time env2) as [t env3].
    eexists; eexists. split; [reflexivity|]. right. split.
    + repeat split; try reflexivity; eexists; reflexivity.
    + rewrite Hnokey. split; [intros H; now contradiction H | discriminate].
Qed.

End Backends.

End ResultFacts.

(** X21. [RealAIAssetGenerator.generate_asset] raises nothing, whatever
    the services outside do: it returns a dict whose "success" is false
    with an "error" text, or true with "asset_id", "image", "model_used"
    and "prompt_used".  A successful result has the key
    "total_generation_time" exactly when a key of DALL-E or of Stable
    Diffusion is configured: the result of the procedural fallback lacks
    it. *)
Theorem generate_asset_result_shape
        {P : Runtime.Platform} {R : PIL.Rasterizer} {Mem : PIL.Memory}
        (self : RealAIAssetGenerator.generator)
        (request : RealAIAssetGenerator.AIGenerationRequest)
        (w : Runtime.World) :
  exists result w',
    Integration.generate_asset self request w = (Runtime.Return result, w') /\
    (failed result \/
     (succeeded result /\
      (Runtime.dict_find result "total_generation_time" <> None <->
       RealAIAssetGenerator.configured
         (RealAIAssetGenerator.openai_api_key self)
       || RealAIAssetGenerator.configured
            (RealAIAssetGenerator.stability_api_key self) = true))).
Proof. apply ResultFacts.generate_asset_returns. Qed.

(** X22. [get_available_models] is honoured: a backend reported available
    raises nothing when it is called, a backend reported unavailable
    raises ValueError at once, the procedural fallback is always reported
    available, and [generate_asset] routes a request to a backend reported
    available only; it falls back when both are reported unavailable. *)
Theorem availability_is_honoured
        {P : Runtime.Platform} {R : PIL.Rasterizer}
        (self : RealAIAssetGenerator.generator)
        (request : RealAIAssetGenerator.AIGenerationRequest)
        (w : Runtime.World) :
  (In ("dall-e-3", true) (Integration.get_available_models self) ->
   exists result w',
     Integration.generate_with_dalle self request w
     = (Runtime.Return result, w')) /\
  (In ("dall-e-3", false) (Integration.get_available_models self) ->
   Integration.generate_with_dalle self request w
   = (Runtime.Throw (Runtime.Builtin ValueError), w)) /\
  (In ("stable-diffusion-xl", true) (Integration.get_available_models self) ->
   exists result w',
     Integration.generate_with_stable_diffusion self request w
     = (Runtime.Return result, w')) /\
  (In ("stable-diffusion-xl", false) (Integration.get_available_models self) ->
   Integration.generate_with_stable_diffusion self request w
   = (Runtime.Throw (Runtime.Builtin ValueError), w)) /\
  In ("procedural_fallback", true) (Integration.get_available_models self) /\
  match RealAIAssetGenerator.generate_asset self request with
  | RealAIAssetGenerator.generate_with_dalle _ =>
      In ("dall-e-3", true) (Integration.get_available_models self)
  | RealAIAssetGenerator.generate_with_stable_diffusion _ =>
      In ("stable-diffusion-xl", true) (Integration.get_available_models self)
  | RealAIAssetGenerator.procedural_fallback _ _ _ _ =>
      In ("dall-e-3", false) (Integration.get_available_models self) /\
      In ("stable-diffusion-xl", false) (Integration.get_available_models self)
  end.
Proof.
  unfold Integration.get_available_models.
  assert (Hin : forall (name : string) (b c : bool) rest,
             In (name, b) ((name, c) :: rest) ->
             ~ In name (map fst rest) -> b = c).
  { intros name b c rest [E|Hin] Hout; [congruence|].
    exfalso. apply Hout. apply in_map_iff. now exists (name, b). }
  split; [|split; [|split; [|split; [|split]]]].
  - intros H. apply Hin in H; [|simpl; intuition discriminate].
    destruct (ResultFacts.dalle_returns self request w (eq_sym H))
      as [d [w' [E _]]].
    now exists d, w'.
  - intros H. apply Hin in H; [|simpl; intuition discriminate].
    unfold Integration.generate_with_dalle. now rewrite <- H.
  - intros [E|H]; [discriminate|].
    apply Hin in H; [|simpl; intuition discriminate].
    destruct (ResultFacts.stable_diffusion_returns self request w (eq_sym H))
      as [d [w' [E _]]].
    now exists d, w'.
  - intros [E|H]; [discriminate|].
    apply Hin in H; [|simpl; intuition discriminate].
    unfold Integration.generate_with_stable_diffusion. now rewrite <- H.
  - simpl. tauto.
  - pose proof (RouterFacts.routed_backend_has_key self request) as Hkey.
    destruct (RealAIAssetGenerator.generate_asset self request)
      as [r|r|p a s d] eqn:Eroute.
    + rewrite Hkey. now left.
    + rewrite Hkey. right. now left.
    + unfold RealAIAssetGenerator.generate_asset in Eroute.
      destruct (RealAIAssetGenerator.configured
                  (RealAIAssetGenerator.openai_api_key self));
        destruct (RealAIAssetGenerator.configured
                    (RealAIAssetGenerator.stability_api_key self));
        repeat match type of Eroute with
               | context [if ?c then _ else _] => destruct c
               end; try discriminate; simpl; tauto.
Qed.
(** ** The endpoints of [enhanced_api.py] *)

Module EndpointFacts.
Import Runtime EnhancedApi.

Lemma lstrip_blank (s : string) :
  is_empty (lstrip s) = blank_text s.
Proof.
  unfold blank_text. induction s as [|c s IH]; [reflexivity|].
  cbn [lstrip list_ascii_of_string forallb].
  destruct (isspace c); [exact IH | reflexivity].
Qed.

Lemma rstrip_head (c : ascii) (s : string) :
  isspace c = false -> is_empty (rstrip (String c s)) = false.
Proof.
  intros Hc. cbn [rstrip]. destruct (rstrip s); [now rewrite Hc | reflexivity].
Qed.

Lemma lstrip_head (s : string) :
  lstrip s = EmptyString \/
  exists c s', lstrip s = String c s' /\ isspace c = false.
Proof.
  induction s as [|c s IH]; [now left|]. cbn [lstrip].
  destruct (isspace c) eqn:E; [exact IH|]. right. now exists c, s.
Qed.

(** [not prompt.strip()] holds exactly of the blank prompts. *)
Lemma strip_blank (s : string) : is_empty (strip s) = blank_text s.
Proof.
  rewrite <- lstrip_blank. unfold strip.
  destruct (lstrip_head s) as [->|[c [s' [-> Hc]]]]; [reflexivity|].
  now rewrite rstrip_head.
Qed.

(** The numbers of a batch are printed. *)
Lemma small_printed (n : Z) :
  0 <= n <= 5 -> exists text, Builtins.str_of_int n = Ok text.
Proof.
  intros H.
  assert (E : n = 0 \/ n = 1 \/ n = 2 \/ n = 3 \/ n = 4 \/ n = 5) by lia.
  repeat (destruct E as [->|E]; [eexists; reflexivity|]).
  subst. eexists; reflexivity.
Qed.

Section Endpoints.
Context {P : Platform} {R : PIL.Rasterizer} {Mem : PIL.Memory}.

(** What the single endpoint does once the prompt is accepted: it answers,
    and without a key it reports a failure. *)
Lemma accepted_is_answered (ai_generator : RealAIAssetGenerator.generator)
      (request : EnhancedAssetRequest) (w : World) :
  blank_text (prompt request) = false ->
  (String.length (prompt request) <= 4000)%nat ->
  exists response w',
    generate_enhanced_asset ai_generator request w = (Return response, w') /\
    (RealAIAssetGenerator.configured
       (RealAIAssetGenerator.openai_api_key ai_generator)
     || RealAIAssetGenerator.configured
          (RealAIAssetGenerator.stability_api_key ai_generator) = false ->
     reports_failure response).
Proof.
  intros Hblank Hlen. unfold generate_enhanced_asset.
  rewrite strip_blank, Hblank.
  destruct (Nat.ltb_spec 4000 (String.length (prompt request))); [lia|].
  cbv zeta. unfold try_except. unfold io_bind at 1.
  destruct (ResultFacts.generate_asset_returns ai_generator
              (request_of request (prompt request)) w)
    as [d [w1 [E Hshape]]].
  rewrite E. unfold io_bind at 1. unfold of_outcome at 1. unfold getitem at 1.
  destruct Hshape as [[Hok [text Herr]]|[Hs Htime]].
  - rewrite Hok. cbn [io_ret truthy].
    unfold io_bind, of_outcome, getitem. rewrite Herr. cbn [io_ret].
    eexists; eexists. split; [reflexivity|]. intros _.
    split; [reflexivity | eexists; reflexivity].
  - destruct Hs as [Hok [[a Ha] [[im Him] [[m Hm] [p Hp]]]]].
    rewrite Hok. cbn [io_ret truthy].
    unfold io_bind at 1. unfold of_outcome at 1. unfold getitem at 1.
    rewrite Him. cbn [io_ret].
    unfold io_bind at 1. unfold image_to_base64, of_reply.
    destruct (png_base64 im) as [encoded|message]; cbn [io_ret raise].
    2:{ eexists; eexists. split; [reflexivity|]. intros _.
        split; [reflexivity | eexists; reflexivity]. }
    unfold io_bind at 1.
    assert (Hnote : exists metadata,
               (if has_key d "note"
                then io_bind (of_outcome (getitem d "note"))
                       (fun note =>
                          io_ret (setitem
                                    [ ("dimensions", VStr (dimensions request));
                                      ("style", VStr (style request));
                                      ("quality", VStr (quality request));
                                      ("model_preference",
                                       VStr (model_preference request)) ]
                                    "note" note))
                else io_ret
                       [ ("dimensions", VStr (dimensions request));
                         ("style", VStr (style request));
                         ("quality", VStr (quality request));
                         ("model_preference",
                          VStr (model_preference request)) ]) w1
               = (Return metadata, w1)).
    { unfold has_key, io_bind, of_outcome, getitem.
      destruct (dict_find d "note") as [note|]; eexists; reflexivity. }
    destruct Hnote as [metadata ->].
    unfold io_bind at 1. unfold of_outcome at 1. unfold getitem at 1.
    rewrite Ha. cbn [io_ret].
    unfold io_bind at 1. unfold of_outcome at 1. unfold getitem at 1.
    rewrite Hm. cbn [io_ret].
    unfold io_bind at 1. unfold of_outcome at 1. unfold getitem at 1.
    destruct (dict_find d "total_generation_time") as [total|] eqn:Et;
      cbn [io_ret raise].
    + unfold io_bind, of_outcome, getitem. rewrite Hp. cbn [io_ret].
      eexists; eexists. split; [reflexivity|]. intros Hkeys.
      exfalso. destruct Htime as [Htime _].
      rewrite Hkeys in Htime. discriminate Htime. discriminate.
    + eexists; eexists. split; [reflexivity|]. intros _.
      split; [reflexivity | eexists; reflexivity].
Qed.

End Endpoints.

End EndpointFacts.

(** X23. The endpoint [POST /api/v1/generate-asset] of [enhanced_api.py]
    raises in two cases only, both with status 400 and before anything
    outside is touched: "Prompt cannot be empty" for a prompt that is empty
    or made of whitespace only, and "Prompt too long (max 4000 characters)"
    for a prompt of more than 4000 characters.  Every other request is
    answered with a response, whatever the services outside do. *)
Theorem enhanced_endpoint_validation
        {P : Runtime.Platform} {R : PIL.Rasterizer} {Mem : PIL.Memory}
        (ai_generator : RealAIAssetGenerator.generator)
        (request : EnhancedApi.EnhancedAssetRequest) (w : Runtime.World) :
  (blank_text (EnhancedApi.prompt request) = true ->
   EnhancedApi.generate_enhanced_asset ai_generator request w
   = (Runtime.Throw (Runtime.HTTPException 400 "Prompt cannot be empty"), w)) /\
  (blank_text (EnhancedApi.prompt request) = false ->
   (4000 < String.length (EnhancedApi.prompt request))%nat ->
   EnhancedApi.generate_enhanced_asset ai_generator request w
   = (Runtime.Throw
        (Runtime.HTTPException 400 "Prompt too long (max 4000 characters)"),
      w)) /\
  (blank_text (EnhancedApi.prompt request) = false ->
   (String.length (EnhancedApi.prompt request) <= 4000)%nat ->
   exists response w',
     EnhancedApi.generate_enhanced_asset ai_generator request w
     = (Runtime.Return response, w')).
Proof.
  split; [|split].
  - intros Hblank. unfold EnhancedApi.generate_enhanced_asset.
    now rewrite EndpointFacts.strip_blank, Hblank.
  - intros Hblank Hlen. unfold EnhancedApi.generate_enhanced_asset.
    rewrite EndpointFacts.strip_blank, Hblank.
    destruct (Nat.ltb_spec 4000 (String.length (EnhancedApi.prompt request)));
      [reflexivity | lia].
  - intros Hblank Hlen.
    destruct (EndpointFacts.accepted_is_answered ai_generator request w
                Hblank Hlen) as [response [w' [E _]]].
    now exists response, w'.
Qed.

(** X24. Without a key of DALL-E or of Stable Diffusion the endpoint never
    reports a success: every response it gives has "success" false and an
    error text.  The procedural fallback does produce an image, but its
    result lacks "total_generation_time", so the endpoint ends in its own
    handler with a KeyError. *)
Theorem keyless_endpoint_never_succeeds
        {P : Runtime.Platform} {R : PIL.Rasterizer} {Mem : PIL.Memory}
        (ai_generator : RealAIAssetGenerator.generator)
        (request : EnhancedApi.EnhancedAssetRequest)
        (w w' : Runtime.World)
        (response : EnhancedApi.EnhancedAssetResponse) :
  RealAIAssetGenerator.configured
    (RealAIAssetGenerator.openai_api_key ai_generator) = false ->
  RealAIAssetGenerator.configured
    (RealAIAssetGenerator.stability_api_key ai_generator) = false ->
  EnhancedApi.generate_enhanced_asset ai_generator request w
  = (Runtime.Return response, w') ->
  reports_failure response.
Proof.
  intros Ho Hs H.
  destruct (blank_text (EnhancedApi.prompt request)) eqn:Hblank.
  { unfold EnhancedApi.generate_enhanced_asset in H.
    rewrite EndpointFacts.strip_blank, Hblank in H. discriminate. }
  destruct (Nat.ltb_spec 4000 (String.length (EnhancedApi.prompt request)))
    as [Hlong|Hlen].
  { unfold EnhancedApi.generate_enhanced_asset in H.
    rewrite EndpointFacts.strip_blank, Hblank in H.
    destruct (Nat.ltb_spec 4000 (String.length (EnhancedApi.prompt request)));
      [discriminate | lia]. }
  destruct (EndpointFacts.accepted_is_answered ai_generator request w
              Hblank Hlen) as [response' [w'' [E Hfail]]].
  rewrite E in H. injection H as <- _. apply Hfail. now rewrite Ho, Hs.
Qed.

Lemma keyless_endpoint_never_succeeds_witness :
  reports_failure
    (EnhancedApi.mkEnhancedResponse
       false None None None None None
       (Some (Runtime.VStr "Internal server error: 'total_generation_time'"))
       None).
Proof.
  apply (keyless_endpoint_never_succeeds (P := offline) (R := lattice) (Mem := roomy)
           keyless
           (EnhancedApi.mkEnhancedRequest "red dragon" "pixel" "8x8" "dalle"
                                          "standard")
           fresh
           (Runtime.mkWorld (P := offline) (advance 1 counting) 8%nat)
           (EnhancedApi.mkEnhancedResponse
              false None None None None None
              (Some (Runtime.VStr
                       "Internal server error: 'total_generation_time'"))
              None)).
  - reflexivity.
  - reflexivity.
  - vm_compute. reflexivity.
Defined.

Module BatchFacts.
Import Runtime EnhancedApi.

Section Batch.
Context {P : Platform} {R : PIL.Rasterizer} {Mem : PIL.Memory}.

(** One turn of the loop appends one response, which carries the index of
    its request, and raises nothing. *)
Lemma batch_item_returns (ai_generator : RealAIAssetGenerator.generator)
      (total : nat) (results : list EnhancedAssetResponse) (i : nat)
      (request : EnhancedAssetRequest) (w : World) :
  (i < 5)%nat -> (total <= 5)%nat ->
  exists response w',
    batch_item ai_generator total results (i, request) w
    = (Return (results ++ [ response ]), w') /\
    metadata response = Some [ ("batch_index", VInt (Z.of_nat i)) ] /\
    (RealAIAssetGenerator.configured
       (RealAIAssetGenerator.openai_api_key ai_generator)
     || RealAIAssetGenerator.configured
          (RealAIAssetGenerator.stability_api_key ai_generator) = false ->
     reports_failure response).
Proof.
  intros Hi Htotal. unfold batch_item.
  destruct (EndpointFacts.small_printed (Z.of_nat i + 1) ltac:(lia))
    as [number Hnumber].
  destruct (EndpointFacts.small_printed (Z.of_nat total) ltac:(lia))
    as [size Hsize].
  rewrite Hnumber, Hsize. cbn [of_result].
  unfold try_except. unfold io_bind at 1. cbn [io_ret].
  unfold io_bind at 1. cbn [io_ret]. cbv zeta.
  unfold io_bind at 1.
  destruct (ResultFacts.generate_asset_returns ai_generator
              (request_of request
                 (prompt request ++ " (batch " ++ number ++ "/" ++ size ++ ")"))
              w)
    as [d [w1 [E Hshape]]].
  rewrite E. unfold io_bind at 1. unfold of_outcome at 1. unfold getitem at 1.
  destruct Hshape as [[Hok [text Herr]]|[Hs Htime]].
  - rewrite Hok. cbn [io_ret truthy].
    unfold io_bind, of_outcome, getitem. rewrite Herr. cbn [io_ret].
    eexists; eexists. split; [reflexivity|]. split; [reflexivity|]. intros _.
    split; [reflexivity | eexists; reflexivity].
  - destruct Hs as [Hok [[a Ha] [[im Him] [[m Hm] [p Hp]]]]].
    rewrite Hok. cbn [io_ret truthy].
    unfold io_bind at 1. unfold of_outcome at 1. unfold getitem at 1.
    rewrite Him. cbn [io_ret].
    unfold io_bind at 1. unfold image_to_base64, of_reply.
    destruct (png_base64 im) as [encoded|message]; cbn [io_ret raise].
    2:{ unfold io_bind. cbn [io_ret].
        eexists; eexists. split; [reflexivity|]. split; [reflexivity|].
        intros _. split; [reflexivity | eexists; reflexivity]. }
    unfold io_bind at 1. unfold of_outcome at 1. unfold getitem at 1.
    rewrite Ha. cbn [io_ret].
    unfold io_bind at 1. unfold of_outcome at 1. unfold getitem at 1.
    rewrite Hm. cbn [io_ret].
    unfold io_bind at 1. unfold of_outcome at 1. unfold getitem at 1.
    destruct (dict_find d "total_generation_time") as [total_time|] eqn:Et;
      cbn [io_ret raise].
    + unfold io_bind, of_outcome, getitem. rewrite Hp. cbn [io_ret].
      eexists; eexists. split; [reflexivity|]. split; [reflexivity|].
      intros Hkeys. exfalso. destruct Htime as [Htime _].
      rewrite Hkeys in Htime. discriminate Htime. discriminate.
    + unfold io_bind. cbn [io_ret].
      eexists; eexists. split; [reflexivity|]. split; [reflexivity|].
      intros _. split; [reflexivity | eexists; reflexivity].
Qed.

(** The loop from index [k] on. *)
Lemma batch_loop (ai_generator : RealAIAssetGenerator.generator)
      (total : nat) :
  (total <= 5)%nat ->
  forall (requests : list EnhancedAssetRequest) (k : nat)
         (results : list EnhancedAssetResponse) (w : World),
    (k + List.length requests <= 5)%nat ->
    exists responses w',
      io_for_each (combine (seq k (List.length requests)) requests) results
                  (batch_item ai_generator total) w
      = (Return (results ++ responses), w') /\
      List.length responses = List.length requests /\
      (forall j response,
          nth_error responses j = Some response ->
          metadata response
          = Some [ ("batch_index", VInt (Z.of_nat (k + j))) ]) /\
      (RealAIAssetGenerator.configured
         (RealAIAssetGenerator.openai_api_key ai_generator)
       || RealAIAssetGenerator.configured
            (RealAIAssetGenerator.stability_api_key ai_generator) = false ->
       Forall reports_failure responses).
Proof.
  intros Htotal. induction requests as [|request requests IH];
    intros k results w Hk.
  - exists [], w. cbn [List.length seq combine io_for_each]. unfold io_ret.
    rewrite app_nil_r. split; [reflexivity|]. split; [reflexivity|].
    split; [intros [|j] r; discriminate | constructor].
  - cbn [List.length seq combine io_for_each]. cbn [List.length] in Hk.
    destruct (batch_item_returns ai_generator total results k request w
                ltac:(lia) Htotal) as [r [w1 [E [Hmeta Hfail]]]].
    unfold io_bind at 1. rewrite E.
    destruct (IH (S k) (results ++ [ r ]) w1 ltac:(lia))
      as [rs [w2 [E' [Hlen [Hidx Hfails]]]]].
    rewrite E'. exists (r :: rs), w2.
    rewrite <- app_assoc. split; [reflexivity|].
    split; [simpl; now rewrite Hlen|]. split.
    + intros [|j] r' Hr'.
      * simpl in Hr'. injection Hr' as <-. now rewrite Nat.add_0_r.
      * simpl in Hr'. rewrite (Hidx j r' Hr'). do 4 f_equal. lia.
    + intros Hkeys. constructor; auto.
Qed.

End Batch.

End BatchFacts.

(** X25. The endpoint [POST /api/v1/generate-batch] raises for more than
    five requests, with status 400 and before anything outside is touched,
    and in no other case: for at most five requests it returns one response
    per request, in the order of the requests, the response at position
    [j] carries "batch_index" [j], and "total_processed" is the number of
    requests.  Without a key of DALL-E or of Stable Diffusion every response
    of the batch reports a failure. *)
Theorem batch_endpoint_answers_each_request
        {P : Runtime.Platform} {R : PIL.Rasterizer} {Mem : PIL.Memory}
        (ai_generator : RealAIAssetGenerator.generator)
        (requests : list EnhancedApi.EnhancedAssetRequest)
        (w : Runtime.World) :
  ((5 < List.length requests)%nat ->
   EnhancedApi.generate_batch_assets ai_generator requests w
   = (Runtime.Throw
        (Runtime.HTTPException 400 "Batch size limited to 5 requests"), w)) /\
  ((List.length requests <= 5)%nat ->
   exists responses w',
     EnhancedApi.generate_batch_assets ai_generator requests w
     = (Runtime.Return (responses, List.length requests), w') /\
     List.length responses = List.length requests /\
     (forall j response,
         nth_error responses j = Some response ->
         EnhancedApi.metadata response
         = Some [ ("batch_index", Runtime.VInt (Z.of_nat j)) ]) /\
     (RealAIAssetGenerator.configured
        (RealAIAssetGenerator.openai_api_key ai_generator)
      || RealAIAssetGenerator.configured
           (RealAIAssetGenerator.stability_api_key ai_generator) = false ->
      Forall reports_failure responses)).
Proof.
  split.
  - intros Hlen. unfold EnhancedApi.generate_batch_assets.
    destruct (Nat.ltb_spec 5 (List.length requests)); [reflexivity | lia].
  - intros Hlen. unfold EnhancedApi.generate_batch_assets.
    destruct (Nat.ltb_spec 5 (List.length requests)); [lia|].
    destruct (BatchFacts.batch_loop ai_generator (List.length requests) Hlen
                requests 0%nat [] w ltac:(lia))
      as [rs [w' [E [Hlen' [Hidx Hfail]]]]].
    unfold Runtime.io_bind. rewrite E. cbn [app]. unfold Runtime.io_ret.
    exists rs, w'. rewrite Hlen'. repeat split; auto.
Qed.

(** A batch of two on the sample platform, without keys: the first request
    is drawn by the fallback and fails on the missing key of its result,
    the second has a dimension string that cannot be read. *)
Example batch_of_two :
  fst (EnhancedApi.generate_batch_assets (P := offline) (R := lattice) (Mem := roomy)
         keyless
         [ EnhancedApi.mkEnhancedRequest "red dragon" "pixel" "8x8" "dalle"
                                         "standard";
           EnhancedApi.mkEnhancedRequest "blue" "pixel" "8" "dalle"
                                         "standard" ] fresh)
  = Runtime.Return
      ([ EnhancedApi.mkEnhancedResponse
           false None None None None None
           (Some (Runtime.VStr "Batch item 1 failed: 'total_generation_time'"))
           (Some [ ("batch_index", Runtime.VInt 0) ]);
         EnhancedApi.mkEnhancedResponse
           false None None None None None
           (Some (Runtime.VStr "Generation failed: error"))
           (Some [ ("batch_index", Runtime.VInt 1) ]) ], 2%nat).
Proof. vm_compute. reflexivity. Qed.

(** ** When the sprite routine raises *)

Module SpriteRaises.
Import PIL AIAssetGenerator LoopFacts.

Lemma centered_box_valid (cx cy size : Z) :
  valid_box (cx - size, cy - size, cx + size, cy + size) = (0 <=? size).
Proof.
  destruct (Z.leb_spec 0 size) as [H|H].
  - now apply valid_centered_box.
  - now apply SmallSpriteFacts.invalid_centered_box.
Qed.

(** The loop of the routine, entered with half-extent [size]: it raises
    exactly when a shape it paints comes up with a negative half-extent. *)
Lemma loop_raises (width height : Z) (colors : list Color) :
  colors <> [] ->
  forall (shapes : list string) (draw : Image) (size : Z) (st : RandomState),
    (exists e,
        for_each shapes (draw, size)
          (fun (s : Image * Z) shape =>
             let '(draw, size) := s in
             color <- random_choice colors ;;
             let xy := (width / 2 - size, height / 2 - size,
                        width / 2 + size, height / 2 + size) in
             draw' <- (if String.eqb shape "circle"
                       then lift (draw_ellipse draw xy color None)
                       else if String.eqb shape "rectangle"
                       then lift (draw_rectangle draw xy color)
                       else ret draw) ;;
             ret (draw', size - 10)) st = Raise e) <->
    (exists j shape,
        nth_error shapes j = Some shape /\ drawn shape = true /\
        size - 10 * Z.of_nat j < 0).
Proof.
  intros Hne shapes. induction shapes as [|shape shapes IH];
    intros draw size st.
  - simpl. split; [intros [e H]; discriminate|].
    intros [[|j] [s [H _]]]; discriminate.
  - cbn [for_each]. unfold bind at 1. unfold bind at 1.
    destruct (FailureFacts.random_choice_total colors st Hne) as [color ->].
    unfold drawn.
    destruct (String.eqb shape "circle") eqn:Ec.
    + unfold bind at 1. unfold lift, draw_ellipse.
      rewrite centered_box_valid.
      destruct (Z.leb_spec 0 size) as [Hs|Hs].
      * unfold ret at 1. rewrite IH. split.
        -- intros [j [s [Hn [Hd Hlt]]]]. exists (S j), s.
           split; [exact Hn|]. split; [exact Hd | lia].
        -- intros [[|j] [s [Hn [Hd Hlt]]]]; [simpl in Hlt; lia|].
           exists j, s. split; [exact Hn|]. split; [exact Hd | lia].
      * split; [intros _ | intros _; eexists; reflexivity].
        exists 0%nat, shape. split; [reflexivity|].
        rewrite Ec. split; [reflexivity | simpl; lia].
    + destruct (String.eqb shape "rectangle") eqn:Er.
      * unfold bind at 1. unfold lift, draw_rectangle.
        rewrite centered_box_valid.
        destruct (Z.leb_spec 0 size) as [Hs|Hs].
        -- unfold ret at 1. rewrite IH. split.
           ++ intros [j [s [Hn [Hd Hlt]]]]. exists (S j), s.
              split; [exact Hn|]. split; [exact Hd | lia].
           ++ intros [[|j] [s [Hn [Hd Hlt]]]]; [simpl in Hlt; lia|].
              exists j, s. split; [exact Hn|]. split; [exact Hd | lia].
        -- split; [intros _ | intros _; eexists; reflexivity].
           exists 0%nat, shape. split; [reflexivity|].
           rewrite Ec, Er. split; [reflexivity | simpl; lia].
      * unfold bind at 1. unfold ret at 1. unfold ret at 1. rewrite IH. split.
        -- intros [j [s [Hn [Hd Hlt]]]]. exists (S j), s.
           split; [exact Hn|]. split; [exact Hd | lia].
        -- intros [[|j] [s [Hn [Hd Hlt]]]].
           ++ simpl in Hn. injection Hn as <-. rewrite Ec, Er in Hd.
              discriminate.
           ++ exists j, s. split; [exact Hn|]. split; [exact Hd | lia].
Qed.

End SpriteRaises.

(** X26. On a non-empty palette the sprite routine raises exactly when one
    of its first three shapes is a "circle" or a "rectangle" whose
    half-extent min(width, height) // 3 - 10 * k is negative, [k] = 0, 1, 2
    being the place of the shape; the exception is then ValueError.  A
    shape of another name never makes it raise, but counts for the
    place. *)
Theorem sprite_raises_exactly
        (draw : PIL.Image) (width height : Z) (colors : list PIL.Color)
        (shapes : list string) (style_config : AIAssetGenerator.StyleConfig)
        (st : RandomState) :
  colors <> [] ->
  ((exists e,
       AIAssetGenerator._generate_sprite draw width height colors shapes
                                         style_config st = Raise e) <->
   (exists k shape,
       (k < 3)%nat /\ nth_error shapes k = Some shape /\
       drawn shape = true /\
       Z.min width height / 3 - 10 * Z.of_nat k < 0)) /\
  (forall e,
      AIAssetGenerator._generate_sprite draw width height colors shapes
                                        style_config st = Raise e ->
      e = ValueError).
Proof.
  intros Hne. split; [|intros e; now apply FailureFacts.sprite_raises].
  pose proof (SpriteRaises.loop_raises width height colors Hne
                (firstn 3 shapes) draw (Z.min width height / 3) st) as Hloop.
  unfold AIAssetGenerator._generate_sprite. cbv zeta.
  cbv zeta in Hloop. unfold bind at 1.
  match type of Hloop with
  | (exists e, ?loop = Raise e) <-> _ =>
      destruct loop as [[s st']|e0] eqn:E
  end.
  - split; [intros [e H]; discriminate|].
    intros [k [shape [Hk [Hn Hrest]]]].
    destruct Hloop as [_ Hloop]. destruct Hloop as [e H]; [|discriminate].
    exists k, shape. split; [|exact Hrest].
    rewrite nth_error_firstn.
    destruct (Nat.ltb_spec k 3); [exact Hn | lia].
  - split; [intros _ | intros _; eexists; reflexivity].
    destruct Hloop as [Hloop _].
    destruct (Hloop (ex_intro _ e0 eq_refl)) as [j [shape [Hn Hrest]]].
    rewrite nth_error_firstn in Hn.
    destruct (Nat.ltb_spec j 3); [|discriminate].
    exists j, shape. auto.
Qed.

Lemma sprite_raises_exactly_witness :
  ((exists e,
       AIAssetGenerator._generate_sprite (blank 45 80) 45 80 [ (255, 0, 0) ]
         [ "circle"; "star"; "rectangle"; "circle" ]
         AIAssetGenerator.realistic counting = Raise e) <->
   (exists k shape,
       (k < 3)%nat /\
       nth_error [ "circle"; "star"; "rectangle"; "circle" ] k = Some shape /\
       drawn shape = true /\
       Z.min 45 80 / 3 - 10 * Z.of_nat k < 0)) /\
  (forall e,
      AIAssetGenerator._generate_sprite (blank 45 80) 45 80 [ (255, 0, 0) ]
        [ "circle"; "star"; "rectangle"; "circle" ]
        AIAssetGenerator.realistic counting = Raise e ->
      e = ValueError).
Proof.
  apply (sprite_raises_exactly (blank 45 80) 45 80 [ (255, 0, 0) ]
           [ "circle"; "star"; "rectangle"; "circle" ]
           AIAssetGenerator.realistic counting).
  discriminate.
Defined.

(** On that canvas of 45 x 80 the half-extents are 15, 5 and -5: the star
    at the second place paints nothing, and the rectangle at the third
    place is rejected. *)
Example sprite_third_shape_rejected :
  AIAssetGenerator._generate_sprite (blank 45 80) 45 80 [ (255, 0, 0) ]
    [ "circle"; "star"; "rectangle"; "circle" ]
    AIAssetGenerator.realistic counting = Raise ValueError /\
  AIAssetGenerator._generate_sprite (blank 45 80) 45 80 [ (255, 0, 0) ]
    [ "circle"; "star"; "diamond"; "circle" ]
    AIAssetGenerator.realistic counting
  = Ok (painted_with (blank 45 80)
          [ PIL.Ellipse (7, 25, 37, 55) (255, 0, 0) None ],
        advance 3 counting).
Proof. split; reflexivity. Qed.
